(** * abp-io-mcp: the tool registry, the mode gate and the dispatch loop

    A shallow embedding of the TypeScript sources of the ABP.IO MCP server
    (src/index.ts, src/abp-api-client.ts, src/tools/*.ts), the properties
    its specification states about them, and further properties of the
    code: of the dispatch loop, of the registry, of the API client and of
    the handlers of the tools.

    Conventions of the embedding.
    - A JavaScript value is a [JsValue]; numbers are kept abstract (type
      parameter [Num]) because no function below computes with them beyond
      truthiness, printing and array lengths.
    - What the JavaScript runtime supplies (number printing, case mapping,
      JSON.stringify) is the class [JsRuntime]; every theorem holds for
      every runtime.
    - An [async] function is an [Exec] computation: it reads the remote
      collaborator, appends to the trace of HTTP exchanges, and either
      returns or throws.
    - A tool-handler table (a JavaScript object used as a map) is a
      [gmap string ToolHandler]; reading a property of such an object with a
      dynamic key also consults Object.prototype, see [lookupProperty]. *)

From stdpp Require Import gmap strings list fin_maps pretty.

Local Open Scope string_scope.
Local Open Scope list_scope.
Local Open Scope stdpp_scope.
Set Warnings "-register-all".

(** ** JavaScript values *)

Inductive JsValue (Num : Type) : Type :=
  | VUndefined
  | VNull
  | VBool (b : bool)
  | VNum (n : Num)
  | VStr (s : string)
  | VArr (elements : list (JsValue Num))
  | VObj (properties : list (string * JsValue Num)).

Arguments VUndefined {Num}.
Arguments VNull {Num}.
Arguments VBool {Num} b.
Arguments VNum {Num} n.
Arguments VStr {Num} s.
Arguments VArr {Num} elements.
Arguments VObj {Num} properties.

(** Induction on a value, with the property available for the elements
    of an array and the property values of an object. *)
Fixpoint JsValue_nested_ind {Num : Type} (P : JsValue Num → Prop)
    (Hundefined : P VUndefined) (Hnull : P VNull) (Hbool : ∀ b, P (VBool b))
    (Hnum : ∀ n, P (VNum n)) (Hstr : ∀ s, P (VStr s))
    (Harr : ∀ xs, Forall P xs → P (VArr xs))
    (Hobj : ∀ props, Forall (λ kv, P kv.2) props → P (VObj props))
    (v : JsValue Num) : P v :=
  let rec := JsValue_nested_ind P Hundefined Hnull Hbool Hnum Hstr Harr Hobj in
  match v with
  | VUndefined => Hundefined
  | VNull => Hnull
  | VBool b => Hbool b
  | VNum n => Hnum n
  | VStr s => Hstr s
  | VArr xs =>
      Harr xs
        ((fix go (l : list (JsValue Num)) : Forall P l :=
            match l with
            | [] => @List.Forall_nil _ P
            | x :: rest => @List.Forall_cons _ P x rest (rec x) (go rest)
            end) xs)
  | VObj props =>
      Hobj props
        ((fix go (l : list (string * JsValue Num)) : Forall (λ kv, P kv.2) l :=
            match l with
            | [] => @List.Forall_nil _ (λ kv, P kv.2)
            | kv :: rest => @List.Forall_cons _ (λ kv, P kv.2) kv rest (rec kv.2) (go rest)
            end) props)
  end.

(** One issue of a ZodError: its code and the path of the offending value. *)
Inductive PathElem := PKey (key : string) | PIndex (index : nat).

Record ZodIssue := { issue_code : string; issue_path : list PathElem }.

(** The errors that are thrown in these sources; all are instances of
    JavaScript's Error and carry a message. *)
Inductive JsError :=
  | ZodError (issues : list ZodIssue)
  | TypeError (message : string)
  | GenericError (message : string)
  | AxiosError (message : string).

Inductive Outcome (A : Type) : Type :=
  | Returned (a : A)
  | Thrown (e : JsError).

Arguments Returned {A} a.
Arguments Thrown {A} e.

(** Sequencing of code that may throw, without effects. *)
Definition obind {A B} (o : Outcome A) (k : A → Outcome B) : Outcome B :=
  match o with
  | Returned a => k a
  | Thrown e => Thrown e
  end.

Notation "'let+' x ':=' o 'in' k" := (obind o (λ x, k))
  (at level 10, x name, o at level 100, k at level 200, only parsing).

(** What the runtime supplies. [numIsFalsy] holds of 0, -0 and NaN;
    [stringLength] counts UTF-16 code units; [JSON_stringify] is
    JSON.stringify(v) and [JSON_stringify_indent2] is
    JSON.stringify(v, null, 2), both undefined ([None]) for undefined. *)
Class JsRuntime (Num : Type) := {
  numOfN : N → Num;
  numIsFalsy : Num → bool;
  numIsNaN : Num → bool;
  numToString : Num → string;
  stringLength : string → nat;
  toLowerCase : string → string;
  JSON_stringify : JsValue Num → option string;
  JSON_stringify_indent2 : JsValue Num → option string;
  zodErrorMessage : list ZodIssue → string;
}.

(** The double quote character, for the templates that contain it. *)
Definition dq : string := String (Ascii.ascii_of_nat 34) EmptyString.

Section Server.

Context {Num : Type} `{!JsRuntime Num}.

Local Abbreviation Value := (JsValue Num).

(** *** Truthiness, property reads, conversion to string *)

Definition truthy (v : Value) : bool :=
  match v with
  | VUndefined | VNull => false
  | VBool b => b
  | VNum n => negb (numIsFalsy n)
  | VStr s => negb (bool_decide (s = EmptyString))
  | VArr _ | VObj _ => true
  end.

(** [a || b] *)
Definition js_or (a b : Value) : Value := if truthy a then a else b.

Fixpoint ownProperty (props : list (string * Value)) (key : string) : option Value :=
  match props with
  | [] => None
  | (k, v) :: rest => if bool_decide (k = key) then Some v else ownProperty rest key
  end.

(** [v.key] for the literal keys these sources read (items, length): none of
    them is a member of Object.prototype, Array.prototype or
    String.prototype other than length, so a key that is not an own property
    reads as undefined; reading a property of undefined or null throws. *)
Definition getProperty (v : Value) (key : string) : Outcome Value :=
  match v with
  | VUndefined => Thrown (TypeError ("Cannot read properties of undefined (reading '" +:+ key +:+ "')"))
  | VNull => Thrown (TypeError ("Cannot read properties of null (reading '" +:+ key +:+ "')"))
  | VObj props => Returned (default VUndefined (ownProperty props key))
  | VArr xs => Returned (if bool_decide (key = "length") then VNum (numOfN (N.of_nat (length xs))) else VUndefined)
  | VStr s => Returned (if bool_decide (key = "length") then VNum (numOfN (N.of_nat (stringLength s))) else VUndefined)
  | VBool _ | VNum _ => Returned VUndefined
  end.

(** [obj[key] = v] on an object held as its list of own properties: an
    existing key keeps its place, a new one goes last. *)
Fixpoint setProperty (props : list (string * Value)) (key : string) (v : Value)
  : list (string * Value) :=
  match props with
  | [] => [(key, v)]
  | (k, w) :: rest =>
      if bool_decide (k = key) then (k, v) :: rest else (k, w) :: setProperty rest key v
  end.

(** ** The remote collaborator and the trace of HTTP exchanges *)

Record HttpRequest := {
  req_method : string;
  req_url : string;
  req_params : Value;
  req_data : Value;
  req_baseURL : string;
  req_authorization : string;
  req_timeout : Num;
}.

(** axios resolves with the response (its [data] is all these sources read
    from a list or generate call) or rejects, on a network failure or a
    status outside 2xx. *)
Inductive HttpResult :=
  | Resolved (data : Value)
  | Rejected (e : JsError).

Definition Trace := list (HttpRequest * HttpResult).

(** The collaborator answers a request given everything exchanged so far. *)
Definition Remote := Trace → HttpRequest → HttpResult.

Definition Exec (A : Type) : Type := Remote → Trace → Outcome A * Trace.

Definition ret {A} (a : A) : Exec A := λ _ tr, (Returned a, tr).
Definition throw {A} (e : JsError) : Exec A := λ _ tr, (Thrown e, tr).
Definition bind {A B} (m : Exec A) (k : A → Exec B) : Exec B :=
  λ remote tr,
    match m remote tr with
    | (Returned a, tr') => k a remote tr'
    | (Thrown e, tr') => (Thrown e, tr')
    end.
Definition liftOutcome {A} (o : Outcome A) : Exec A := λ _ tr, (o, tr).

(** [try { body } catch (error) { handler }] *)
Definition tryCatch {A} (body : Exec A) (handler : JsError → Exec A) : Exec A :=
  λ remote tr,
    match body remote tr with
    | (Returned a, tr') => (Returned a, tr')
    | (Thrown e, tr') => handler e remote tr'
    end.

(** One request through the axios instance. *)
Definition send (req : HttpRequest) : Exec Value :=
  λ remote tr,
    match remote tr req with
    | Resolved data => (Returned data, tr ++ [(req, Resolved data)])
    | Rejected e => (Thrown e, tr ++ [(req, Rejected e)])
    end.

Notation "'let*' x ':=' m 'in' k" := (bind m (λ x, k))
  (at level 10, x name, m at level 100, k at level 200, only parsing).

(** ** Zod schemas (zod 3)

    A schema is its synchronous parser: given the path walked so far and a
    value it yields the parsed output or the issues found. An object schema
    reads data[key] for each key of its shape, in order, and drops every
    other key; issues of all keys are collected. The output of a schema is
    typed as zod infers it (z.infer), an optional key as an [option]. *)

Inductive ParseReturn (A : Type) : Type :=
  | PValid (a : A)
  | PInvalid (issues : list ZodIssue).

Arguments PValid {A} a.
Arguments PInvalid {A} issues.

Definition ZodType (A : Type) : Type := list PathElem → Value → ParseReturn A.

Definition invalid_type (path : list PathElem) : ZodIssue :=
  {| issue_code := "invalid_type"; issue_path := path |}.

Definition invalid_enum_value (path : list PathElem) : ZodIssue :=
  {| issue_code := "invalid_enum_value"; issue_path := path |}.

Definition mergeParsed {A B C} (f : A → B → C) (x : ParseReturn A) (y : ParseReturn B)
  : ParseReturn C :=
  match x, y with
  | PValid a, PValid b => PValid (f a b)
  | PValid _, PInvalid j => PInvalid j
  | PInvalid i, PValid _ => PInvalid i
  | PInvalid i, PInvalid j => PInvalid (i ++ j)
  end.

Definition z_string : ZodType string :=
  λ path v, match v with VStr s => PValid s | _ => PInvalid [invalid_type path] end.

Definition z_number : ZodType Num :=
  λ path v,
    match v with
    | VNum n => if numIsNaN n then PInvalid [invalid_type path] else PValid n
    | _ => PInvalid [invalid_type path]
    end.

Definition z_boolean : ZodType bool :=
  λ path v, match v with VBool b => PValid b | _ => PInvalid [invalid_type path] end.

Definition z_any : ZodType Value := λ _ v, PValid v.

Definition z_enum (values : list string) : ZodType string :=
  λ path v,
    match v with
    | VStr s => if bool_decide (s ∈ values) then PValid s else PInvalid [invalid_enum_value path]
    | _ => PInvalid [invalid_type path]
    end.

(** [t.optional()] *)
Definition z_optional {A} (t : ZodType A) : ZodType (option A) :=
  λ path v,
    match v with
    | VUndefined => PValid None
    | _ => match t path v with PValid a => PValid (Some a) | PInvalid i => PInvalid i end
    end.

(** [t.default(d)] *)
Definition z_default {A} (t : ZodType A) (d : Value) : ZodType A :=
  λ path v, match v with VUndefined => t path d | _ => t path v end.

Fixpoint parseElements {A} (t : ZodType A) (path : list PathElem) (i : nat) (xs : list Value)
  : ParseReturn (list A) :=
  match xs with
  | [] => PValid []
  | x :: rest => mergeParsed cons (t (path ++ [PIndex i]) x) (parseElements t path (S i) rest)
  end.

Definition z_array {A} (t : ZodType A) : ZodType (list A) :=
  λ path v,
    match v with
    | VArr xs => parseElements t path 0 xs
    | _ => PInvalid [invalid_type path]
    end.

(** The shape of an object schema, read key by key. *)
Definition ObjectShape (A : Type) : Type :=
  list PathElem → list (string * Value) → ParseReturn A.

Definition shape {A} (make : A) : ObjectShape A := λ _ _, PValid make.

Definition key {A B} (k : string) (t : ZodType A) (sh : ObjectShape (A → B)) : ObjectShape B :=
  λ path props,
    mergeParsed (λ f a, f a) (sh path props)
      (t (path ++ [PKey k]) (default VUndefined (ownProperty props k))).

Notation "sh '<&>' f" := (f sh) (at level 50, left associativity, only parsing).

Definition z_object {A} (sh : ObjectShape A) : ZodType A :=
  λ path v,
    match v with
    | VObj props => sh path props
    | _ => PInvalid [invalid_type path]
    end.

(** [schema.parse(data)]: the output, or a thrown ZodError. *)
Definition parse {A} (t : ZodType A) (data : Value) : Outcome A :=
  match t [] data with
  | PValid a => Returned a
  | PInvalid issues => Thrown (ZodError issues)
  end.

(** ** The API client (src/abp-api-client.ts) *)

Record AbpApiClientConfig := {
  baseUrl : string;
  apiKey : string;
  timeout : option Num;
}.

(** The client is its configuration; its axios instance is created from it
    (base URL, timeout, bearer token). The two interceptors only log. *)
Record AbpApiClient := { config : AbpApiClientConfig }.

Definition axiosRequest (c : AbpApiClient) (method url : string) (params data : Value)
  : HttpRequest :=
  {| req_method := method;
     req_url := url;
     req_params := params;
     req_data := data;
     req_baseURL := baseUrl (config c);
     req_authorization := "Bearer " +:+ apiKey (config c);
     req_timeout :=
       match timeout (config c) with
       | Some t => if numIsFalsy t then numOfN 30000%N else t
       | None => numOfN 30000%N
       end |}.

(** [this.client.get(url, { params })], [this.client.post(url, data)]:
    the awaited response's [data]. *)
Definition client_get (c : AbpApiClient) (url : string) (params : Value) : Exec Value :=
  send (axiosRequest c "get" url params VUndefined).

Definition client_post (c : AbpApiClient) (url : string) (data : Value) : Exec Value :=
  send (axiosRequest c "post" url VUndefined data).

(** An optional string argument is truthy when given and not empty. *)
Definition given (o : option string) : bool :=
  match o with
  | Some s => negb (bool_decide (s = EmptyString))
  | None => false
  end.

Definition paramIf (name : string) (o : option string) (params : list (string * Value))
  : list (string * Value) :=
  match o with
  | Some s => if given o then setProperty params name (VStr s) else params
  | None => params
  end.

(** *** List endpoints that return [response.data.items || response.data] *)

Definition getApplications (c : AbpApiClient) : Exec Value :=
  let* data := client_get c "/api/app/applications" VUndefined in
  let* items := liftOutcome (getProperty data "items") in
  ret (js_or items data).

Definition getModules (c : AbpApiClient) : Exec Value :=
  let* data := client_get c "/api/app/modules" VUndefined in
  let* items := liftOutcome (getProperty data "items") in
  ret (js_or items data).

Definition getEntities (c : AbpApiClient) (namespace : option string) : Exec Value :=
  let params := VObj (paramIf "namespace" namespace []) in
  let* data := client_get c "/api/app/entities" params in
  let* items := liftOutcome (getProperty data "items") in
  ret (js_or items data).

Definition getPermissions (c : AbpApiClient) (providerName providerKey : option string)
  : Exec Value :=
  let params := VObj (paramIf "providerKey" providerKey (paramIf "providerName" providerName [])) in
  let* data := client_get c "/api/app/permissions" params in
  let* items := liftOutcome (getProperty data "items") in
  ret (js_or items data).

Definition getPermissionsByGroup (c : AbpApiClient) (groupName : string) : Exec Value :=
  let* data := client_get c ("/api/app/permissions/groups/" +:+ groupName) VUndefined in
  let* items := liftOutcome (getProperty data "items") in
  ret (js_or items data).

Definition getUsers (c : AbpApiClient) (filter : option string) (maxResultCount : option Num)
  : Exec Value :=
  let params1 := paramIf "filter" filter [] in
  let params2 :=
    match maxResultCount with
    | Some n => if numIsFalsy n then params1 else setProperty params1 "maxResultCount" (VNum n)
    | None => params1
    end in
  let* data := client_get c "/api/identity/users" (VObj params2) in
  let* items := liftOutcome (getProperty data "items") in
  ret (js_or items data).

Definition getTenants (c : AbpApiClient) (filter : option string) : Exec Value :=
  let params := VObj (paramIf "filter" filter []) in
  let* data := client_get c "/api/saas/tenants" params in
  let* items := liftOutcome (getProperty data "items") in
  ret (js_or items data).

Definition getAuditLogs (c : AbpApiClient) (startDate endDate userId : option string)
  : Exec Value :=
  let params :=
    VObj (paramIf "userId" userId (paramIf "endDate" endDate (paramIf "startDate" startDate []))) in
  let* data := client_get c "/api/audit-logging/audit-logs" params in
  let* items := liftOutcome (getProperty data "items") in
  ret (js_or items data).

Definition getBackgroundJobs (c : AbpApiClient) (jobType : option string) : Exec Value :=
  let params := VObj (paramIf "jobType" jobType []) in
  let* data := client_get c "/api/background-jobs" params in
  let* items := liftOutcome (getProperty data "items") in
  ret (js_or items data).

(** *** List endpoints that return [response.data.items || []] *)

Definition getThemes (c : AbpApiClient) : Exec Value :=
  let* data := client_get c "/api/themes" VUndefined in
  let* items := liftOutcome (getProperty data "items") in
  ret (js_or items (VArr [])).

Definition getLayouts (c : AbpApiClient) : Exec Value :=
  let* data := client_get c "/api/ui/layouts" VUndefined in
  let* items := liftOutcome (getProperty data "items") in
  ret (js_or items (VArr [])).

Definition getMenus (c : AbpApiClient) : Exec Value :=
  let* data := client_get c "/api/ui/navigation/menus" VUndefined in
  let* items := liftOutcome (getProperty data "items") in
  ret (js_or items (VArr [])).

Definition getWidgets (c : AbpApiClient) : Exec Value :=
  let* data := client_get c "/api/ui/widgets" VUndefined in
  let* items := liftOutcome (getProperty data "items") in
  ret (js_or items (VArr [])).

Definition getLocalizationResources (c : AbpApiClient) : Exec Value :=
  let* data := client_get c "/api/localization/resources" VUndefined in
  let* items := liftOutcome (getProperty data "items") in
  ret (js_or items (VArr [])).

Definition getSupportedCultures (c : AbpApiClient) : Exec Value :=
  let* data := client_get c "/api/localization/cultures" VUndefined in
  let* items := liftOutcome (getProperty data "items") in
  ret (js_or items (VArr [])).

(** *** The calls the examined tools make *)

Definition generateComponent (c : AbpApiClient) (componentData : Value) : Exec Value :=
  client_post c "/api/suite/components" componentData.

Definition generateForm (c : AbpApiClient) (formData : Value) : Exec Value :=
  client_post c "/api/suite/forms" formData.

Definition grantPermission (c : AbpApiClient) (providerName providerKey permissionName : string)
  : Exec unit :=
  let* _ := client_post c "/api/app/permissions/grant"
              (VObj [("providerName", VStr providerName);
                     ("providerKey", VStr providerKey);
                     ("permissionName", VStr permissionName)]) in
  ret tt.

Definition revokePermission (c : AbpApiClient) (providerName providerKey permissionName : string)
  : Exec unit :=
  let* _ := client_post c "/api/app/permissions/revoke"
              (VObj [("providerName", VStr providerName);
                     ("providerKey", VStr providerKey);
                     ("permissionName", VStr permissionName)]) in
  ret tt.

(** ** JavaScript's ToString, as a template literal applies it

    A primitive converts as the language defines. An array converts as
    Array.prototype.join does (undefined and null elements as the empty
    string). An object that came from JSON converts through
    Object.prototype.toString unless it has an own property named toString:
    that property is data, not callable, so OrdinaryToPrimitive falls
    through to valueOf, which yields no primitive either, and ToString
    throws a TypeError. *)
Fixpoint toStringJs (v : Value) : Outcome string :=
  match v with
  | VUndefined => Returned "undefined"
  | VNull => Returned "null"
  | VBool b => Returned (if b then "true" else "false")
  | VNum n => Returned (numToString n)
  | VStr s => Returned s
  | VArr xs =>
      let fix elements (l : list Value) : Outcome (list string) :=
        match l with
        | [] => Returned []
        | x :: rest =>
            let+ s := match x with
                      | VUndefined | VNull => Returned EmptyString
                      | _ => toStringJs x
                      end in
            let+ ss := elements rest in
            Returned (s :: ss)
        end in
      let+ parts := elements xs in
      Returned (String.concat "," parts)
  | VObj props =>
      match ownProperty props "toString" with
      | Some _ => Thrown (TypeError "Cannot convert object to primitive value")
      | None => Returned "[object Object]"
      end
  end.

(** [xs.map(f)] for an [f] that may throw: the first throw ends the map. *)
Fixpoint mapOutcome {A B} (f : A → Outcome B) (xs : list A) : Outcome (list B) :=
  match xs with
  | [] => Returned []
  | x :: rest =>
      let+ y := f x in
      let+ ys := mapOutcome f rest in
      Returned (y :: ys)
  end.

(** The line feed of a template literal's line break and of '\n'. *)
Definition nl : string := String (Ascii.ascii_of_nat 10) EmptyString.

(** [xs.join(sep)] on strings *)
Definition join (sep : string) (xs : list string) : string := String.concat sep xs.

(** [s || alt] for an optional string [s] *)
Definition stringOr (s : option string) (alt : string) : string :=
  match s with
  | Some x => if bool_decide (x = EmptyString) then alt else x
  | None => alt
  end.

(** A key of the object zod builds for an optional key of the shape: it
    is present when the parsed value is defined. (Zod also sets a key
    that the input had with the value undefined; no input that came from
    JSON has one, and JSON.stringify drops it.) *)
Definition optionalKey (k : string) (o : option Value) : list (string * Value) :=
  match o with
  | Some v => [(k, v)]
  | None => []
  end.

(** [{ ...obj, k: v }] *)
Definition objectWith (obj : Value) (k : string) (v : Value) : Value :=
  match obj with
  | VObj props => VObj (setProperty props k v)
  | _ => VObj [(k, v)]
  end.

(** ** Tool handlers (src/tools/index.ts) *)

Record ToolHandler := {
  name : string;
  description : string;
  inputSchema : Value;
  execute : Value → Exec Value;
}.

(** What no property below depends on: the JSON Schema each tool
    advertises (by group and tool name), and the bodies of the execute
    functions of the tools that are only registered (by tool name). *)
Class ToolBodies := {
  declaredSchema : string → string → Value;
  otherExecute : string → AbpApiClient → Value → Exec Value;
}.

Context `{!ToolBodies}.

(** Every group of tools is an object literal of handlers whose key is the
    handler's name. [tool] builds one entry, [objectLiteral] the object:
    later keys overwrite earlier ones. *)
Definition tool (group toolName toolDescription : string) (body : Value → Exec Value)
  : string * ToolHandler :=
  (toolName,
   {| name := toolName;
      description := toolDescription;
      inputSchema := declaredSchema group toolName;
      execute := body |}).

Definition objectLiteral {V} (entries : list (string * V)) : gmap string V :=
  foldl (λ o e, <[e.1 := e.2]> o) ∅ entries.

(** ** Hybrid UI tools (src/tools/hybrid-ui-tools.ts) *)

Definition isInfoOnlyMode (apiClient : option AbpApiClient) : bool :=
  match apiClient with
  | None => true
  | Some c => bool_decide (apiKey (config c) = EmptyString)
  end.

Record ComponentProperty := {
  cp_name : string;
  cp_type : string;
  cp_required : bool;
  cp_defaultValue : option Value;
}.

Record ComponentArgs := {
  ca_name : string;
  ca_type : string;
  ca_framework : string;
  ca_properties : option (list ComponentProperty);
  ca_template : option string;
}.

Definition componentSchema : ZodType ComponentArgs :=
  z_object (shape Build_ComponentArgs
    <&> key "name" z_string
    <&> key "type" (z_enum ["widget"; "modal"; "partial"; "directive"; "pipe"])
    <&> key "framework" (z_enum ["mvc"; "angular"; "blazor"; "blazor-server"])
    <&> key "properties" (z_optional (z_array (z_object (shape Build_ComponentProperty
          <&> key "name" z_string
          <&> key "type" z_string
          <&> key "required" (z_default z_boolean (VBool false))
          <&> key "defaultValue" (z_optional z_any)))))
    <&> key "template" (z_optional z_string)).

(** The parsed arguments as the object zod built. *)
Definition encodeComponentProperty (p : ComponentProperty) : Value :=
  VObj ([("name", VStr (cp_name p));
         ("type", VStr (cp_type p));
         ("required", VBool (cp_required p))]
        ++ optionalKey "defaultValue" (cp_defaultValue p)).

Definition encodeComponentArgs (a : ComponentArgs) : Value :=
  VObj ([("name", VStr (ca_name a));
         ("type", VStr (ca_type a));
         ("framework", VStr (ca_framework a))]
        ++ optionalKey "properties"
             ((λ ps, VArr (encodeComponentProperty <$> ps)) <$> ca_properties a)
        ++ optionalKey "template" (VStr <$> ca_template a)).

Record FormValidation := {
  fv_minLength : option Num;
  fv_maxLength : option Num;
  fv_pattern : option string;
  fv_min : option Num;
  fv_max : option Num;
}.

Record FormOption := {
  fo_value : Value;
  fo_label : string;
}.

Record FormField := {
  ff_name : string;
  ff_type : string;
  ff_label : string;
  ff_required : option bool;
  ff_validation : option FormValidation;
  ff_options : option (list FormOption);
  ff_defaultValue : option Value;
}.

Record FormArgs := {
  fa_name : string;
  fa_fields : list FormField;
  fa_layout : string;
  fa_submitAction : option string;
  fa_cancelAction : option string;
  fa_entityId : option string;
}.

Definition formFieldSchema : ZodType FormField :=
  z_object (shape Build_FormField
    <&> key "name" z_string
    <&> key "type" (z_enum ["text"; "email"; "password"; "number"; "date"; "datetime";
                            "select"; "multiselect"; "checkbox"; "textarea"; "file"])
    <&> key "label" z_string
    <&> key "required" (z_optional z_boolean)
    <&> key "validation" (z_optional (z_object (shape Build_FormValidation
          <&> key "minLength" (z_optional z_number)
          <&> key "maxLength" (z_optional z_number)
          <&> key "pattern" (z_optional z_string)
          <&> key "min" (z_optional z_number)
          <&> key "max" (z_optional z_number))))
    <&> key "options" (z_optional (z_array (z_object (shape Build_FormOption
          <&> key "value" z_any
          <&> key "label" z_string))))
    <&> key "defaultValue" (z_optional z_any)).

Definition formSchema : ZodType FormArgs :=
  z_object (shape Build_FormArgs
    <&> key "name" z_string
    <&> key "fields" (z_array formFieldSchema)
    <&> key "layout" (z_default (z_enum ["horizontal"; "vertical"; "inline"]) (VStr "vertical"))
    <&> key "submitAction" (z_optional z_string)
    <&> key "cancelAction" (z_optional z_string)
    <&> key "entityId" (z_optional z_string)).

Definition definedKey (k : string) (v : Value) : list (string * Value) :=
  match v with
  | VUndefined => []
  | _ => [(k, v)]
  end.

Definition encodeFormValidation (v : FormValidation) : Value :=
  VObj (optionalKey "minLength" (VNum <$> fv_minLength v)
        ++ optionalKey "maxLength" (VNum <$> fv_maxLength v)
        ++ optionalKey "pattern" (VStr <$> fv_pattern v)
        ++ optionalKey "min" (VNum <$> fv_min v)
        ++ optionalKey "max" (VNum <$> fv_max v)).

Definition encodeFormOption (o : FormOption) : Value :=
  VObj (definedKey "value" (fo_value o) ++ [("label", VStr (fo_label o))]).

Definition encodeFormField (f : FormField) : Value :=
  VObj ([("name", VStr (ff_name f));
         ("type", VStr (ff_type f));
         ("label", VStr (ff_label f))]
        ++ optionalKey "required" (VBool <$> ff_required f)
        ++ optionalKey "validation" (encodeFormValidation <$> ff_validation f)
        ++ optionalKey "options" ((λ os, VArr (encodeFormOption <$> os)) <$> ff_options f)
        ++ optionalKey "defaultValue" (ff_defaultValue f)).

Definition encodeFormArgs (a : FormArgs) : Value :=
  VObj ([("name", VStr (fa_name a));
         ("fields", VArr (encodeFormField <$> fa_fields a));
         ("layout", VStr (fa_layout a))]
        ++ optionalKey "submitAction" (VStr <$> fa_submitAction a)
        ++ optionalKey "cancelAction" (VStr <$> fa_cancelAction a)
        ++ optionalKey "entityId" (VStr <$> fa_entityId a)).

(** *** Static template generators

    Each function below transcribes the function of hybrid-ui-tools.ts of
    the same name; [renderOption], [renderField] and [renderFormControl]
    are the arrow functions generateAngularFormTemplate and
    generateAngularForm pass to map. A template literal is the
    concatenation of its chunks and interpolations, in order; [dq] is the
    double quote. The arguments are the parsed (typed) ones, so the only
    interpolations that can throw are those of the free-form values: a
    field's defaultValue and an option's value. *)

Definition generateAngularTemplate (args : ComponentArgs) : string :=
  if bool_decide (ca_type args = "modal") then
    ("<div class=" +:+ dq +:+ "modal-header" +:+ dq +:+ ">
  <h4 class=" +:+ dq +:+ "modal-title" +:+ dq +:+ ">" +:+ ca_name args +:+ "</h4>
</div>
<div class=" +:+ dq +:+ "modal-body" +:+ dq +:+ ">
  <!-- Add your content here -->
</div>
<div class=" +:+ dq +:+ "modal-footer" +:+ dq +:+ ">
  <button type=" +:+ dq +:+ "button" +:+ dq +:+ " class=" +:+ dq +:+ "btn btn-secondary" +:+ dq +:+ " (click)=" +:+ dq +:+ "onCancel()" +:+ dq +:+ ">Cancel</button>
  <button type=" +:+ dq +:+ "button" +:+ dq +:+ " class=" +:+ dq +:+ "btn btn-primary" +:+ dq +:+ " (click)=" +:+ dq +:+ "onSave()" +:+ dq +:+ ">Save</button>
</div>")
  else
    ("<div class=" +:+ dq +:+ toLowerCase (ca_name args) +:+ "-container" +:+ dq +:+ ">
  <h3>" +:+ ca_name args +:+ "</h3>
  <!-- Add your content here -->
</div>").

Definition generateBlazorTemplate (args : ComponentArgs) : string :=
  if bool_decide (ca_type args = "modal") then
    ("<div class=" +:+ dq +:+ "modal-header" +:+ dq +:+ ">
    <h4 class=" +:+ dq +:+ "modal-title" +:+ dq +:+ ">" +:+ ca_name args +:+ "</h4>
</div>
<div class=" +:+ dq +:+ "modal-body" +:+ dq +:+ ">
    <!-- Add your content here -->
</div>
<div class=" +:+ dq +:+ "modal-footer" +:+ dq +:+ ">
    <button type=" +:+ dq +:+ "button" +:+ dq +:+ " class=" +:+ dq +:+ "btn btn-secondary" +:+ dq +:+ " @onclick=" +:+ dq +:+ "OnCancel" +:+ dq +:+ ">Cancel</button>
    <button type=" +:+ dq +:+ "button" +:+ dq +:+ " class=" +:+ dq +:+ "btn btn-primary" +:+ dq +:+ " @onclick=" +:+ dq +:+ "OnSave" +:+ dq +:+ ">Save</button>
</div>")
  else
    ("<div class=" +:+ dq +:+ toLowerCase (ca_name args) +:+ "-container" +:+ dq +:+ ">
    <h3>" +:+ ca_name args +:+ "</h3>
    <!-- Add your content here -->
</div>").

Definition generateMvcTemplate (args : ComponentArgs) : string :=
  if bool_decide (ca_type args = "modal") then
    ("<div class=" +:+ dq +:+ "modal-header" +:+ dq +:+ ">
    <h4 class=" +:+ dq +:+ "modal-title" +:+ dq +:+ ">" +:+ ca_name args +:+ "</h4>
</div>
<div class=" +:+ dq +:+ "modal-body" +:+ dq +:+ ">
    <!-- Add your content here -->
</div>
<div class=" +:+ dq +:+ "modal-footer" +:+ dq +:+ ">
    <button type=" +:+ dq +:+ "button" +:+ dq +:+ " class=" +:+ dq +:+ "btn btn-secondary" +:+ dq +:+ " data-dismiss=" +:+ dq +:+ "modal" +:+ dq +:+ ">Cancel</button>
    <button type=" +:+ dq +:+ "button" +:+ dq +:+ " class=" +:+ dq +:+ "btn btn-primary" +:+ dq +:+ ">Save</button>
</div>")
  else
    ("<div class=" +:+ dq +:+ toLowerCase (ca_name args) +:+ "-container" +:+ dq +:+ ">
    <h3>" +:+ ca_name args +:+ "</h3>
    <!-- Add your content here -->
</div>").

Definition generateAngularComponent (args : ComponentArgs) : Value :=
  let props := default [] (ca_properties args) in
  let inputs :=
    join (nl +:+ "  ")
      ((λ p, ("@Input() " +:+ cp_name p +:+ (if cp_required p then EmptyString else "?") +:+ ": " +:+ cp_type p +:+ ";")) <$> props) in
  VObj
    [("typescript", VStr
        ("import { Component, Input } from '@angular/core';

@Component({
  selector: 'app-" +:+ toLowerCase (ca_name args) +:+ "',
  templateUrl: './" +:+ toLowerCase (ca_name args) +:+ ".component.html',
  styleUrls: ['./" +:+ toLowerCase (ca_name args) +:+ ".component.scss']
})
export class " +:+ ca_name args +:+ "Component {
  " +:+ inputs +:+ "
  
  constructor() { }
  
  " +:+ (if bool_decide (ca_type args = "modal") then ("
  onSave() {
    // Handle save logic
  }
  
  onCancel() {
    // Handle cancel logic
  }") else EmptyString) +:+ "
}"));
     ("html", VStr (stringOr (ca_template args) (generateAngularTemplate args)));
     ("scss", VStr
        ("/* " +:+ ca_name args +:+ " component styles */
." +:+ toLowerCase (ca_name args) +:+ "-container {
  /* Add your styles here */
}"))].

Definition generateBlazorComponent (args : ComponentArgs) : Value :=
  let props := default [] (ca_properties args) in
  let parameters :=
    join (nl +:+ "    ")
      ((λ p, ("[Parameter] public " +:+ cp_type p +:+ " " +:+ cp_name p +:+ " { get; set; }" +:+ (match cp_defaultValue p with
          | Some d =>
              if truthy d then (" = " +:+ default "undefined" (JSON_stringify d) +:+ ";")
              else EmptyString
          | None => EmptyString
          end))) <$> props) in
  VObj
    [("razor", VStr
        ("@* " +:+ ca_name args +:+ " " +:+ ca_type args +:+ " component *@

" +:+ (if bool_decide (parameters = EmptyString) then EmptyString else ("@code {
    " +:+ parameters +:+ "
}")) +:+ "

" +:+ stringOr (ca_template args) (generateBlazorTemplate args)));
     ("csharp",
        if bool_decide (ca_type args = "widget") then
          VStr
            ("using Microsoft.AspNetCore.Mvc;
using Volo.Abp.AspNetCore.Mvc.UI.Widgets;

namespace YourApp.Web.Components." +:+ ca_name args +:+ "
{
    [Widget(
        AutoInitialize = true,
        RefreshUrl = " +:+ dq +:+ "/Widgets/" +:+ ca_name args +:+ "/Refresh" +:+ dq +:+ "
    )]
    public class " +:+ ca_name args +:+ "WidgetViewComponent : AbpViewComponent
    {
        public IViewComponentResult Invoke()
        {
            return View();
        }
    }
}")
        else VNull)].

Definition generateMvcComponent (args : ComponentArgs) : Value :=
  VObj
    [("csharp", VStr
        ("using Microsoft.AspNetCore.Mvc;
using Volo.Abp.AspNetCore.Mvc;

namespace YourApp.Web.Components." +:+ ca_name args +:+ "
{
    public class " +:+ ca_name args +:+ "ViewComponent : AbpViewComponent
    {
        public IViewComponentResult Invoke()
        {
            return View();
        }
    }
}"));
     ("html", VStr (stringOr (ca_template args) (generateMvcTemplate args)));
     ("css", VStr
        ("/* " +:+ ca_name args +:+ " component styles */
." +:+ toLowerCase (ca_name args) +:+ "-container {
    /* Add your styles here */
}"))].

Definition generateStaticComponent (args : ComponentArgs) : Value :=
  let templates :=
    [("angular", generateAngularComponent args);
     ("blazor", generateBlazorComponent args);
     ("mvc", generateMvcComponent args);
     ("blazor-server", generateBlazorComponent args)] in
  VObj
    [("success", VBool true);
     ("data", VObj
        [("name", VStr (ca_name args));
         ("type", VStr (ca_type args));
         ("framework", VStr (ca_framework args));
         ("code", default VUndefined (ownProperty templates (ca_framework args)));
         ("properties", VArr (encodeComponentProperty <$> default [] (ca_properties args)))]);
     ("message", VStr ("Static " +:+ ca_type args +:+ " component template generated for " +:+ ca_framework args));
     ("mode", VStr "static");
     ("usage", VStr "Copy this code to your project and customize as needed")].

Definition renderOption (opt : FormOption) : Outcome string :=
  let+ value := toStringJs (fo_value opt) in
  Returned ("<option value=" +:+ dq +:+ value +:+ dq +:+ ">" +:+ fo_label opt +:+ "</option>").

Definition renderField (field : FormField) : Outcome string :=
  if bool_decide (ff_type field = "select") then
    let+ options :=
      match ff_options field with
      | Some opts =>
          let+ rendered := mapOutcome renderOption opts in
          Returned (join (nl +:+ "    ") rendered)
      | None => Returned EmptyString
      end in
    Returned
      ("<div class=" +:+ dq +:+ "form-group" +:+ dq +:+ ">
  <label for=" +:+ dq +:+ ff_name field +:+ dq +:+ ">" +:+ ff_label field +:+ "</label>
  <select id=" +:+ dq +:+ ff_name field +:+ dq +:+ " formControlName=" +:+ dq +:+ ff_name field +:+ dq +:+ " class=" +:+ dq +:+ "form-control" +:+ dq +:+ ">
    " +:+ options +:+ "
  </select>
</div>")
  else if bool_decide (ff_type field = "textarea") then
    Returned
      ("<div class=" +:+ dq +:+ "form-group" +:+ dq +:+ ">
  <label for=" +:+ dq +:+ ff_name field +:+ dq +:+ ">" +:+ ff_label field +:+ "</label>
  <textarea id=" +:+ dq +:+ ff_name field +:+ dq +:+ " formControlName=" +:+ dq +:+ ff_name field +:+ dq +:+ " class=" +:+ dq +:+ "form-control" +:+ dq +:+ " rows=" +:+ dq +:+ "3" +:+ dq +:+ "></textarea>
</div>")
  else if bool_decide (ff_type field = "checkbox") then
    Returned
      ("<div class=" +:+ dq +:+ "form-check" +:+ dq +:+ ">
  <input type=" +:+ dq +:+ "checkbox" +:+ dq +:+ " id=" +:+ dq +:+ ff_name field +:+ dq +:+ " formControlName=" +:+ dq +:+ ff_name field +:+ dq +:+ " class=" +:+ dq +:+ "form-check-input" +:+ dq +:+ ">
  <label for=" +:+ dq +:+ ff_name field +:+ dq +:+ " class=" +:+ dq +:+ "form-check-label" +:+ dq +:+ ">" +:+ ff_label field +:+ "</label>
</div>")
  else
    Returned
      ("<div class=" +:+ dq +:+ "form-group" +:+ dq +:+ ">
  <label for=" +:+ dq +:+ ff_name field +:+ dq +:+ ">" +:+ ff_label field +:+ "</label>
  <input type=" +:+ dq +:+ ff_type field +:+ dq +:+ " id=" +:+ dq +:+ ff_name field +:+ dq +:+ " formControlName=" +:+ dq +:+ ff_name field +:+ dq +:+ " class=" +:+ dq +:+ "form-control" +:+ dq +:+ ">
</div>").

Definition generateAngularFormTemplate (args : FormArgs) : Outcome string :=
  let+ rendered := mapOutcome renderField (fa_fields args) in
  let fields := join nl rendered in
  Returned
    ("<form [formGroup]=" +:+ dq +:+ "form" +:+ dq +:+ " (ngSubmit)=" +:+ dq +:+ "onSubmit()" +:+ dq +:+ " class=" +:+ dq +:+ "form-" +:+ fa_layout args +:+ dq +:+ ">
  <h3>" +:+ fa_name args +:+ "</h3>
  
  " +:+ fields +:+ "
  
  <div class=" +:+ dq +:+ "form-actions" +:+ dq +:+ ">
    <button type=" +:+ dq +:+ "submit" +:+ dq +:+ " class=" +:+ dq +:+ "btn btn-primary" +:+ dq +:+ " [disabled]=" +:+ dq +:+ "!form.valid" +:+ dq +:+ ">Submit</button>
    <button type=" +:+ dq +:+ "button" +:+ dq +:+ " class=" +:+ dq +:+ "btn btn-secondary" +:+ dq +:+ " (click)=" +:+ dq +:+ "onCancel()" +:+ dq +:+ ">Cancel</button>
  </div>
</form>").

Definition renderFormControl (field : FormField) : Outcome string :=
  let+ defaultValue := toStringJs (js_or (default VUndefined (ff_defaultValue field)) (VStr EmptyString)) in
  Returned (ff_name field +:+ ": ['" +:+ defaultValue +:+ "', " +:+ (if default false (ff_required field) then "Validators.required" else EmptyString) +:+ "]").

Definition generateAngularForm (args : FormArgs) : Outcome Value :=
  let+ controls := mapOutcome renderFormControl (fa_fields args) in
  let formControls := join ("," +:+ nl +:+ "      ") controls in
  let+ html := generateAngularFormTemplate args in
  Returned (VObj
    [("typescript", VStr
        ("import { Component, OnInit } from '@angular/core';
import { FormBuilder, FormGroup, Validators } from '@angular/forms';

@Component({
  selector: 'app-" +:+ toLowerCase (fa_name args) +:+ "',
  templateUrl: './" +:+ toLowerCase (fa_name args) +:+ ".component.html'
})
export class " +:+ fa_name args +:+ "Component implements OnInit {
  form: FormGroup;

  constructor(private fb: FormBuilder) {}

  ngOnInit() {
    this.form = this.fb.group({
      " +:+ formControls +:+ "
    });
  }

  onSubmit() {
    if (this.form.valid) {
      console.log('Form Data:', this.form.value);
      // Handle form submission
    }
  }

  onCancel() {
    // Handle cancel
  }
}"));
     ("html", VStr html)]).

Definition generateBlazorForm (args : FormArgs) : string :=
  ("<!-- Blazor form template for " +:+ fa_name args +:+ " -->
<EditForm Model=" +:+ dq +:+ "model" +:+ dq +:+ " OnValidSubmit=" +:+ dq +:+ "OnSubmit" +:+ dq +:+ ">
    <DataAnnotationsValidator />
    <ValidationSummary />
    
    <!-- Add form fields here -->
    
    <div class=" +:+ dq +:+ "form-actions" +:+ dq +:+ ">
        <button type=" +:+ dq +:+ "submit" +:+ dq +:+ " class=" +:+ dq +:+ "btn btn-primary" +:+ dq +:+ ">Submit</button>
        <button type=" +:+ dq +:+ "button" +:+ dq +:+ " class=" +:+ dq +:+ "btn btn-secondary" +:+ dq +:+ " @onclick=" +:+ dq +:+ "OnCancel" +:+ dq +:+ ">Cancel</button>
    </div>
</EditForm>").

Definition generateMvcForm (args : FormArgs) : string :=
  ("<!-- MVC form template for " +:+ fa_name args +:+ " -->
@model YourApp.ViewModels." +:+ fa_name args +:+ "ViewModel

<form asp-action=" +:+ dq +:+ "Create" +:+ dq +:+ " method=" +:+ dq +:+ "post" +:+ dq +:+ " class=" +:+ dq +:+ "form-" +:+ fa_layout args +:+ dq +:+ ">
    <h3>" +:+ fa_name args +:+ "</h3>
    
    <!-- Add form fields here -->
    
    <div class=" +:+ dq +:+ "form-actions" +:+ dq +:+ ">
        <button type=" +:+ dq +:+ "submit" +:+ dq +:+ " class=" +:+ dq +:+ "btn btn-primary" +:+ dq +:+ ">Submit</button>
        <a asp-action=" +:+ dq +:+ "Index" +:+ dq +:+ " class=" +:+ dq +:+ "btn btn-secondary" +:+ dq +:+ ">Cancel</a>
    </div>
</form>").

Definition generateStaticForm (args : FormArgs) : Outcome Value :=
  let+ angular := generateAngularForm args in
  let templates :=
    [("angular", angular);
     ("blazor", VStr (generateBlazorForm args));
     ("mvc", VStr (generateMvcForm args));
     ("blazor-server", VStr (generateBlazorForm args))] in
  Returned (VObj
    [("success", VBool true);
     ("data", VObj
        [("name", VStr (fa_name args));
         ("fields", VArr (encodeFormField <$> fa_fields args));
         ("layout", VStr (fa_layout args));
         ("code", default VUndefined (ownProperty templates "angular"))]);
     ("message", VStr ("Static form template generated for " +:+ fa_name args));
     ("mode", VStr "static");
     ("usage", VStr "Copy this code to your project and customize as needed")]).

Definition getStaticThemeInfo : Value :=
  VObj
    [("success", VBool true);
     ("data", VObj
        [("availableThemes", VArr
            [VObj
               [("name", VStr "LeptonX");
                ("description", VStr "Modern, professional theme with multiple layouts");
                ("features", VArr [VStr "Multiple layouts"; VStr "Dark/light mode";
                                   VStr "RTL support"; VStr "Customizable colors"]);
                ("frameworks", VArr [VStr "Angular"; VStr "Blazor"; VStr "MVC"]);
                ("documentation", VStr "https://abp.io/docs/latest/ui-themes/leptonx")];
             VObj
               [("name", VStr "Basic");
                ("description", VStr "Simple, clean theme for basic applications");
                ("features", VArr [VStr "Bootstrap based"; VStr "Responsive";
                                   VStr "Clean design"; VStr "Easy to customize"]);
                ("frameworks", VArr [VStr "Angular"; VStr "Blazor"; VStr "MVC"]);
                ("documentation", VStr "https://abp.io/docs/latest/ui-themes/basic")]]);
         ("customization", VObj
            [("colors", VObj
                [("primary", VStr "#007bff");
                 ("secondary", VStr "#6c757d");
                 ("success", VStr "#28a745");
                 ("info", VStr "#17a2b8");
                 ("warning", VStr "#ffc107");
                 ("danger", VStr "#dc3545")]);
             ("variables", VObj
                [("font-family", VStr "Roboto, sans-serif");
                 ("border-radius", VStr "0.25rem");
                 ("box-shadow", VStr "0 0.125rem 0.25rem rgba(0, 0, 0, 0.075)")])])]);
     ("message", VStr "Static theme information (use API for applying themes to actual applications)");
     ("mode", VStr "static")].

(** The table of examples of getUiExamples: category, title, and the
    examples (name, description, code). *)
Definition examples : list (string * (string * list (string * string * string))) :=
  [("forms", ("Form Examples",
      [("Basic Form", "Simple form with validation", "Basic form template code here...");
       ("Dynamic Form", "Form with dynamic fields", "Dynamic form template code here...")]));
   ("tables", ("Table Examples",
      [("Data Grid", "Sortable, filterable data table", "Data grid template code here...")]));
   ("modals", ("Modal Examples",
      [("Confirmation Modal", "Simple confirmation dialog", "Modal template code here...")]))].

Definition exampleValue (e : string * string * string) : Value :=
  let '(n, d, c) := e in
  VObj [("name", VStr n); ("description", VStr d); ("code", VStr c)].

Definition categoryValue (cat : string * list (string * string * string)) : Value :=
  VObj [("title", VStr cat.1); ("examples", VArr (exampleValue <$> cat.2))].

Definition getUiExamples (framework category : string) : Value :=
  if bool_decide (category = "all") then
    VObj
      [("success", VBool true);
       ("data", VObj
          [("framework", VStr framework);
           ("categories", VObj ((λ e, (e.1, categoryValue e.2)) <$> examples));
           ("totalExamples",
              VNum (numOfN (foldl (λ sum cat, (sum + N.of_nat (length cat.2.2))%N) 0%N examples)))]);
       ("message", VStr ("UI examples for " +:+ framework +:+ " framework"));
       ("mode", VStr "static")]
  else
    VObj
      [("success", VBool true);
       ("data", VObj
          [("framework", VStr framework);
           ("category", VStr category);
           ("examples",
              match ownProperty ((λ e, (e.1, categoryValue e.2)) <$> examples) category with
              | Some found => found
              | None => VObj [("title", VStr "No examples found"); ("examples", VArr [])]
              end)]);
       ("message", VStr (category +:+ " examples for " +:+ framework +:+ " framework"));
       ("mode", VStr "static")].

(** *** The four hybrid handlers *)

Definition hybrid_generate_component (apiClient : AbpApiClient) (args : Value) : Exec Value :=
  let* validatedArgs := liftOutcome (parse componentSchema args) in
  if isInfoOnlyMode (Some apiClient) then
    ret (generateStaticComponent validatedArgs)
  else
    tryCatch
      (let* result := generateComponent apiClient (encodeComponentArgs validatedArgs) in
       ret (VObj
         [("success", VBool true);
          ("data", result);
          ("message", VStr (ca_type validatedArgs +:+ " component '" +:+ ca_name validatedArgs
                            +:+ "' generated successfully via API"));
          ("mode", VStr "api")]))
      (λ error,
         let staticResult := generateStaticComponent validatedArgs in
         ret (objectWith staticResult "warning"
                (VStr "API call failed, generated static template instead"))).

Definition hybrid_get_themes (apiClient : AbpApiClient) (args : Value) : Exec Value :=
  if isInfoOnlyMode (Some apiClient) then
    ret getStaticThemeInfo
  else
    tryCatch
      (let* themes := getThemes apiClient in
       let* count := liftOutcome (getProperty themes "length") in
       ret (VObj
         [("success", VBool true);
          ("data", themes);
          ("count", count);
          ("mode", VStr "api")]))
      (λ error,
         let staticResult := getStaticThemeInfo in
         ret (objectWith staticResult "warning"
                (VStr "API call failed, showing static theme information instead"))).

Definition hybrid_generate_form (apiClient : AbpApiClient) (args : Value) : Exec Value :=
  let* validatedArgs := liftOutcome (parse formSchema args) in
  if isInfoOnlyMode (Some apiClient) then
    liftOutcome (generateStaticForm validatedArgs)
  else
    tryCatch
      (let* result := generateForm apiClient (encodeFormArgs validatedArgs) in
       ret (VObj
         [("success", VBool true);
          ("data", result);
          ("message", VStr ("Form '" +:+ fa_name validatedArgs
                            +:+ "' generated successfully via API"));
          ("mode", VStr "api")]))
      (λ error,
         let* staticResult := liftOutcome (generateStaticForm validatedArgs) in
         ret (objectWith staticResult "warning"
                (VStr "API call failed, generated static template instead"))).

Record UiExamplesArgs := {
  ue_framework : string;
  ue_category : string;
}.

Definition uiExamplesSchema : ZodType UiExamplesArgs :=
  z_object (shape Build_UiExamplesArgs
    <&> key "framework"
          (z_default (z_enum ["mvc"; "angular"; "blazor"; "blazor-server"; "all"]) (VStr "all"))
    <&> key "category"
          (z_default (z_enum ["forms"; "tables"; "modals"; "widgets"; "navigation"; "all"])
             (VStr "all"))).

Definition hybrid_get_ui_examples (apiClient : AbpApiClient) (args : Value) : Exec Value :=
  let* parsed := liftOutcome (parse uiExamplesSchema args) in
  ret (getUiExamples (ue_framework parsed) (ue_category parsed)).

Definition hybridUiTools (apiClient : AbpApiClient) : gmap string ToolHandler :=
  objectLiteral
    [tool "hybridUiTools" "abp_generate_component"
       "Generate reusable UI components (widgets, modals, partials, directives, pipes) - Works in info-only mode with static templates"
       (hybrid_generate_component apiClient);
     tool "hybridUiTools" "abp_get_themes"
       "Get available ABP themes - Works in info-only mode with theme information"
       (hybrid_get_themes apiClient);
     tool "hybridUiTools" "abp_generate_form"
       "Generate complex forms with validation - Works in info-only mode with static templates"
       (hybrid_generate_form apiClient);
     tool "hybridUiTools" "abp_get_ui_examples"
       "Get UI code examples and snippets for different frameworks"
       (hybrid_get_ui_examples apiClient)].

(** ** The tool groups merged into the registry *)

(** *** src/tools/ui-tools.ts: the three handlers whose names the hybrid
    group reuses *)

Definition ui_get_themes (apiClient : AbpApiClient) (args : Value) : Exec Value :=
  let* themes := getThemes apiClient in
  let* count := liftOutcome (getProperty themes "length") in
  ret (VObj
    [("success", VBool true);
     ("data", themes);
     ("count", count)]).

Record UiComponentProperty := {
  ucp_name : string;
  ucp_type : string;
  ucp_required : option bool;
  ucp_defaultValue : option Value;
}.

Record UiComponentArgs := {
  uca_name : string;
  uca_type : string;
  uca_framework : string;
  uca_properties : option (list UiComponentProperty);
  uca_template : option string;
}.

Definition uiComponentSchema : ZodType UiComponentArgs :=
  z_object (shape Build_UiComponentArgs
    <&> key "name" z_string
    <&> key "type" (z_enum ["widget"; "modal"; "partial"; "directive"; "pipe"])
    <&> key "framework" (z_enum ["mvc"; "angular"; "blazor"; "blazor-server"])
    <&> key "properties" (z_optional (z_array (z_object (shape Build_UiComponentProperty
          <&> key "name" z_string
          <&> key "type" z_string
          <&> key "required" (z_optional z_boolean)
          <&> key "defaultValue" (z_optional z_any)))))
    <&> key "template" (z_optional z_string)).

Definition encodeUiComponentProperty (p : UiComponentProperty) : Value :=
  VObj ([("name", VStr (ucp_name p));
         ("type", VStr (ucp_type p))]
        ++ optionalKey "required" (VBool <$> ucp_required p)
        ++ optionalKey "defaultValue" (ucp_defaultValue p)).

Definition encodeUiComponentArgs (a : UiComponentArgs) : Value :=
  VObj ([("name", VStr (uca_name a));
         ("type", VStr (uca_type a));
         ("framework", VStr (uca_framework a))]
        ++ optionalKey "properties"
             ((λ ps, VArr (encodeUiComponentProperty <$> ps)) <$> uca_properties a)
        ++ optionalKey "template" (VStr <$> uca_template a)).

Definition ui_generate_component (apiClient : AbpApiClient) (args : Value) : Exec Value :=
  let* validatedArgs := liftOutcome (parse uiComponentSchema args) in
  let* result := generateComponent apiClient (encodeUiComponentArgs validatedArgs) in
  ret (VObj
    [("success", VBool true);
     ("data", result);
     ("message", VStr (uca_type validatedArgs +:+ " component '" +:+ uca_name validatedArgs
                       +:+ "' generated successfully"))]).

(** The same keys as the hybrid form schema, entityId second. *)
Definition uiFormSchema : ZodType FormArgs :=
  z_object (shape (λ name entityId fields layout submitAction cancelAction,
                     Build_FormArgs name fields layout submitAction cancelAction entityId)
    <&> key "name" z_string
    <&> key "entityId" (z_optional z_string)
    <&> key "fields" (z_array formFieldSchema)
    <&> key "layout" (z_default (z_enum ["horizontal"; "vertical"; "inline"]) (VStr "vertical"))
    <&> key "submitAction" (z_optional z_string)
    <&> key "cancelAction" (z_optional z_string)).

Definition encodeUiFormArgs (a : FormArgs) : Value :=
  VObj ([("name", VStr (fa_name a))]
        ++ optionalKey "entityId" (VStr <$> fa_entityId a)
        ++ [("fields", VArr (encodeFormField <$> fa_fields a));
            ("layout", VStr (fa_layout a))]
        ++ optionalKey "submitAction" (VStr <$> fa_submitAction a)
        ++ optionalKey "cancelAction" (VStr <$> fa_cancelAction a)).

Definition ui_generate_form (apiClient : AbpApiClient) (args : Value) : Exec Value :=
  let* validatedArgs := liftOutcome (parse uiFormSchema args) in
  let* result := generateForm apiClient (encodeUiFormArgs validatedArgs) in
  ret (VObj
    [("success", VBool true);
     ("data", result);
     ("message", VStr ("Form '" +:+ fa_name validatedArgs +:+ "' generated successfully with "
                       +:+ numToString (numOfN (N.of_nat (length (fa_fields validatedArgs))))
                       +:+ " fields"))]).

(** *** src/tools/permission-tools.ts: grant and revoke *)

Record PermissionArgs := {
  pa_providerName : string;
  pa_providerKey : string;
  pa_permissionName : string;
}.

Definition permissionSchema : ZodType PermissionArgs :=
  z_object (shape Build_PermissionArgs
    <&> key "providerName" (z_enum ["R"; "U"])
    <&> key "providerKey" z_string
    <&> key "permissionName" z_string).

Definition abp_grant_permission_execute (apiClient : AbpApiClient) (args : Value) : Exec Value :=
  let* parsed := liftOutcome (parse permissionSchema args) in
  let* _ := grantPermission apiClient (pa_providerName parsed) (pa_providerKey parsed)
              (pa_permissionName parsed) in
  ret (VObj
    [("success", VBool true);
     ("message", VStr ("Permission '" +:+ pa_permissionName parsed +:+ "' granted to "
                       +:+ (if bool_decide (pa_providerName parsed = "R") then "role" else "user")
                       +:+ " '" +:+ pa_providerKey parsed +:+ "'"))]).

Definition abp_revoke_permission_execute (apiClient : AbpApiClient) (args : Value) : Exec Value :=
  let* parsed := liftOutcome (parse permissionSchema args) in
  let* _ := revokePermission apiClient (pa_providerName parsed) (pa_providerKey parsed)
              (pa_permissionName parsed) in
  ret (VObj
    [("success", VBool true);
     ("message", VStr ("Permission '" +:+ pa_permissionName parsed +:+ "' revoked from "
                       +:+ (if bool_decide (pa_providerName parsed = "R") then "role" else "user")
                       +:+ " '" +:+ pa_providerKey parsed +:+ "'"))]).

(** *** The groups *)

Definition applicationTools (apiClient : AbpApiClient) : gmap string ToolHandler :=
  objectLiteral
    [tool "applicationTools" "abp_get_applications"
       "Get all ABP applications"
       (otherExecute "abp_get_applications" apiClient);
     tool "applicationTools" "abp_get_application"
       "Get a specific ABP application by ID"
       (otherExecute "abp_get_application" apiClient);
     tool "applicationTools" "abp_create_application"
       "Create a new ABP application"
       (otherExecute "abp_create_application" apiClient);
     tool "applicationTools" "abp_update_application"
       "Update an existing ABP application"
       (otherExecute "abp_update_application" apiClient);
     tool "applicationTools" "abp_delete_application"
       "Delete an ABP application"
       (otherExecute "abp_delete_application" apiClient)].

Definition moduleTools (apiClient : AbpApiClient) : gmap string ToolHandler :=
  objectLiteral
    [tool "moduleTools" "abp_get_modules"
       "Get all ABP modules"
       (otherExecute "abp_get_modules" apiClient);
     tool "moduleTools" "abp_get_module"
       "Get a specific ABP module by ID"
       (otherExecute "abp_get_module" apiClient);
     tool "moduleTools" "abp_install_module"
       "Install an ABP module by package name"
       (otherExecute "abp_install_module" apiClient);
     tool "moduleTools" "abp_uninstall_module"
       "Uninstall an ABP module"
       (otherExecute "abp_uninstall_module" apiClient);
     tool "moduleTools" "abp_get_popular_modules"
       "Get list of popular ABP modules with descriptions"
       (otherExecute "abp_get_popular_modules" apiClient)].

Definition entityTools (apiClient : AbpApiClient) : gmap string ToolHandler :=
  objectLiteral
    [tool "entityTools" "abp_get_entities"
       "Get all ABP entities, optionally filtered by namespace"
       (otherExecute "abp_get_entities" apiClient);
     tool "entityTools" "abp_get_entity"
       "Get a specific ABP entity by ID"
       (otherExecute "abp_get_entity" apiClient);
     tool "entityTools" "abp_create_entity"
       "Create a new ABP entity"
       (otherExecute "abp_create_entity" apiClient);
     tool "entityTools" "abp_generate_crud"
       "Generate CRUD operations for an ABP entity"
       (otherExecute "abp_generate_crud" apiClient)].

Definition userTools (apiClient : AbpApiClient) : gmap string ToolHandler :=
  objectLiteral
    [tool "userTools" "abp_get_users"
       "Get all ABP users with optional filtering"
       (otherExecute "abp_get_users" apiClient);
     tool "userTools" "abp_get_user"
       "Get a specific ABP user by ID"
       (otherExecute "abp_get_user" apiClient);
     tool "userTools" "abp_create_user"
       "Create a new ABP user"
       (otherExecute "abp_create_user" apiClient);
     tool "userTools" "abp_update_user"
       "Update an existing ABP user"
       (otherExecute "abp_update_user" apiClient);
     tool "userTools" "abp_delete_user"
       "Delete an ABP user"
       (otherExecute "abp_delete_user" apiClient)].

Definition tenantTools (apiClient : AbpApiClient) : gmap string ToolHandler :=
  objectLiteral
    [tool "tenantTools" "abp_get_tenants"
       "Get all ABP tenants with optional filtering"
       (otherExecute "abp_get_tenants" apiClient);
     tool "tenantTools" "abp_get_tenant"
       "Get a specific ABP tenant by ID"
       (otherExecute "abp_get_tenant" apiClient);
     tool "tenantTools" "abp_create_tenant"
       "Create a new ABP tenant"
       (otherExecute "abp_create_tenant" apiClient);
     tool "tenantTools" "abp_update_tenant"
       "Update an existing ABP tenant"
       (otherExecute "abp_update_tenant" apiClient);
     tool "tenantTools" "abp_delete_tenant"
       "Delete an ABP tenant"
       (otherExecute "abp_delete_tenant" apiClient)].

Definition permissionTools (apiClient : AbpApiClient) : gmap string ToolHandler :=
  objectLiteral
    [tool "permissionTools" "abp_get_permissions"
       "Get ABP permissions with optional provider filtering"
       (otherExecute "abp_get_permissions" apiClient);
     tool "permissionTools" "abp_get_permissions_by_group"
       "Get ABP permissions by group name"
       (otherExecute "abp_get_permissions_by_group" apiClient);
     tool "permissionTools" "abp_grant_permission"
       "Grant a permission to a user or role"
       (abp_grant_permission_execute apiClient);
     tool "permissionTools" "abp_revoke_permission"
       "Revoke a permission from a user or role"
       (abp_revoke_permission_execute apiClient)].

Definition auditTools (apiClient : AbpApiClient) : gmap string ToolHandler :=
  objectLiteral
    [tool "auditTools" "abp_get_audit_logs"
       "Get ABP audit logs with optional filtering"
       (otherExecute "abp_get_audit_logs" apiClient);
     tool "auditTools" "abp_get_audit_log"
       "Get a specific ABP audit log by ID"
       (otherExecute "abp_get_audit_log" apiClient);
     tool "auditTools" "abp_get_audit_summary"
       "Get a summary of audit log statistics"
       (otherExecute "abp_get_audit_summary" apiClient)].

Definition backgroundJobTools (apiClient : AbpApiClient) : gmap string ToolHandler :=
  objectLiteral
    [tool "backgroundJobTools" "abp_get_background_jobs"
       "Get ABP background jobs with optional type filtering"
       (otherExecute "abp_get_background_jobs" apiClient);
     tool "backgroundJobTools" "abp_get_background_job"
       "Get a specific ABP background job by ID"
       (otherExecute "abp_get_background_job" apiClient);
     tool "backgroundJobTools" "abp_enqueue_background_job"
       "Enqueue a new ABP background job"
       (otherExecute "abp_enqueue_background_job" apiClient);
     tool "backgroundJobTools" "abp_delete_background_job"
       "Delete an ABP background job"
       (otherExecute "abp_delete_background_job" apiClient);
     tool "backgroundJobTools" "abp_get_common_job_types"
       "Get list of common ABP background job types"
       (otherExecute "abp_get_common_job_types" apiClient)].

Definition uiTools (apiClient : AbpApiClient) : gmap string ToolHandler :=
  objectLiteral
    [tool "uiTools" "abp_generate_page"
       "Generate specific pages (list, detail, create, edit, modal) for ABP applications"
       (otherExecute "abp_generate_page" apiClient);
     tool "uiTools" "abp_get_themes"
       "Get all available ABP themes"
       (ui_get_themes apiClient);
     tool "uiTools" "abp_get_theme"
       "Get a specific ABP theme by name"
       (otherExecute "abp_get_theme" apiClient);
     tool "uiTools" "abp_apply_theme"
       "Apply and customize an ABP theme"
       (otherExecute "abp_apply_theme" apiClient);
     tool "uiTools" "abp_generate_component"
       "Generate reusable UI components (widgets, modals, partials, directives, pipes)"
       (ui_generate_component apiClient);
     tool "uiTools" "abp_get_layouts"
       "Get all available ABP layouts"
       (otherExecute "abp_get_layouts" apiClient);
     tool "uiTools" "abp_get_layout"
       "Get a specific ABP layout by name"
       (otherExecute "abp_get_layout" apiClient);
     tool "uiTools" "abp_update_layout"
       "Update an ABP layout configuration"
       (otherExecute "abp_update_layout" apiClient);
     tool "uiTools" "abp_get_menus"
       "Get all application menus"
       (otherExecute "abp_get_menus" apiClient);
     tool "uiTools" "abp_get_menu"
       "Get a specific menu by name"
       (otherExecute "abp_get_menu" apiClient);
     tool "uiTools" "abp_add_menu_item"
       "Add a menu item to an existing menu"
       (otherExecute "abp_add_menu_item" apiClient);
     tool "uiTools" "abp_remove_menu_item"
       "Remove a menu item from a menu"
       (otherExecute "abp_remove_menu_item" apiClient);
     tool "uiTools" "abp_get_widgets"
       "Get all dashboard widgets"
       (otherExecute "abp_get_widgets" apiClient);
     tool "uiTools" "abp_get_widget"
       "Get a specific widget by name"
       (otherExecute "abp_get_widget" apiClient);
     tool "uiTools" "abp_create_widget"
       "Create a new dashboard widget"
       (otherExecute "abp_create_widget" apiClient);
     tool "uiTools" "abp_update_widget"
       "Update an existing widget"
       (otherExecute "abp_update_widget" apiClient);
     tool "uiTools" "abp_delete_widget"
       "Delete a widget"
       (otherExecute "abp_delete_widget" apiClient);
     tool "uiTools" "abp_generate_form"
       "Generate complex forms with validation"
       (ui_generate_form apiClient);
     tool "uiTools" "abp_get_localization_resources"
       "Get all localization resources"
       (otherExecute "abp_get_localization_resources" apiClient);
     tool "uiTools" "abp_get_localization_resource"
       "Get a specific localization resource, optionally for a specific culture"
       (otherExecute "abp_get_localization_resource" apiClient);
     tool "uiTools" "abp_update_localization_text"
       "Update or add localization text for a specific key and culture"
       (otherExecute "abp_update_localization_text" apiClient);
     tool "uiTools" "abp_get_supported_cultures"
       "Get all supported cultures/languages"
       (otherExecute "abp_get_supported_cultures" apiClient)].

Definition infoTools (apiClient : AbpApiClient) : gmap string ToolHandler :=
  objectLiteral
    [tool "infoTools" "abp_get_info"
       "Get general information about the ABP Framework and its capabilities"
       (otherExecute "abp_get_info" apiClient);
     tool "infoTools" "abp_get_documentation"
       "Get links to official ABP documentation and learning resources"
       (otherExecute "abp_get_documentation" apiClient);
     tool "infoTools" "abp_get_help"
       "Get help and usage information for the ABP MCP Server"
       (otherExecute "abp_get_help" apiClient);
     tool "infoTools" "abp_list_available_modules"
       "List all available ABP modules with descriptions and categories"
       (otherExecute "abp_list_available_modules" apiClient);
     tool "infoTools" "abp_list_ui_frameworks"
       "List supported UI frameworks and their capabilities"
       (otherExecute "abp_list_ui_frameworks" apiClient);
     tool "infoTools" "abp_list_database_providers"
       "List supported database providers and their configurations"
       (otherExecute "abp_list_database_providers" apiClient);
     tool "infoTools" "abp_get_cli_commands"
       "Get information about ABP CLI commands and usage"
       (otherExecute "abp_get_cli_commands" apiClient);
     tool "infoTools" "abp_get_best_practices"
       "Get ABP development best practices and guidelines"
       (otherExecute "abp_get_best_practices" apiClient);
     tool "infoTools" "abp_get_troubleshooting_guide"
       "Get troubleshooting guide for common ABP issues"
       (otherExecute "abp_get_troubleshooting_guide" apiClient)].

(** ** The registry (src/tools/index.ts)

    [{ ...a, ...b }] copies the own properties of [a], then those of [b],
    into a fresh object: a key of [b] overwrites the same key of [a]. *)
Definition spread {V} (target source : gmap string V) : gmap string V := source ∪ target.

Definition mergeGroups {V} (groups : list (gmap string V)) : gmap string V :=
  foldl spread ∅ groups.

Definition toolGroups (apiClient : AbpApiClient) : list (gmap string ToolHandler) :=
  [applicationTools apiClient;
   moduleTools apiClient;
   entityTools apiClient;
   userTools apiClient;
   tenantTools apiClient;
   permissionTools apiClient;
   auditTools apiClient;
   backgroundJobTools apiClient;
   uiTools apiClient].

Definition abpTools (apiClient : AbpApiClient) : gmap string ToolHandler :=
  mergeGroups (toolGroups apiClient).

(** ** The mode gate (src/index.ts, filterInfoOnlyTools) *)

Definition infoOnlyToolNames : list string :=
  ["abp_get_info";
   "abp_get_documentation";
   "abp_get_help";
   "abp_list_available_modules";
   "abp_list_ui_frameworks";
   "abp_list_database_providers";
   "abp_get_cli_commands";
   "abp_get_best_practices";
   "abp_get_troubleshooting_guide";
   "abp_generate_component";
   "abp_get_themes";
   "abp_generate_form";
   "abp_get_ui_examples"].

(** One step of the forEach over Object.entries(allTools). *)
Definition keepInfoOnly (infoOnlyTools : gmap string ToolHandler) (entry : string * ToolHandler)
  : gmap string ToolHandler :=
  if bool_decide (entry.1 ∈ infoOnlyToolNames)
  then <[entry.1 := entry.2]> infoOnlyTools
  else infoOnlyTools.

Definition filterInfoOnlyTools (allTools : gmap string ToolHandler) : gmap string ToolHandler :=
  foldl keepInfoOnly ∅ (map_to_list allTools).

(** ** The dispatch loop (src/index.ts, main) *)

Record Options := {
  opt_apiKey : option string;
  opt_baseUrl : string;
  opt_infoOnlyMode : bool;
  opt_stdio : bool;
}.

Definition mainApiClient (options : Options) : AbpApiClient :=
  {| config :=
       {| baseUrl := if bool_decide (opt_baseUrl options = EmptyString)
                     then "http://localhost:44300" else opt_baseUrl options;
          apiKey := default EmptyString (opt_apiKey options);
          timeout := None |} |}.

Definition toolHandlers (options : Options) : gmap string ToolHandler :=
  let allToolHandlers := abpTools (mainApiClient options) in
  if opt_infoOnlyMode options
  then filterInfoOnlyTools allToolHandlers
  else allToolHandlers.

(** The members of Object.prototype (ECMAScript, with Annex B): what
    [obj[key]] finds on a plain object that has no own property [key]. Each
    is a function, except __proto__, which reads as Object.prototype itself;
    all are truthy and none has a property named execute. *)
Definition objectPrototypeMembers : list string :=
  ["constructor";
   "__defineGetter__";
   "__defineSetter__";
   "hasOwnProperty";
   "__lookupGetter__";
   "__lookupSetter__";
   "isPrototypeOf";
   "propertyIsEnumerable";
   "toString";
   "valueOf";
   "__proto__";
   "toLocaleString"].

Inductive PropertyLookup :=
  | OwnHandler (handler : ToolHandler)
  | InheritedMember
  | NoProperty.

(** [toolHandlers[name]] *)
Definition lookupProperty (handlers : gmap string ToolHandler) (key : string) : PropertyLookup :=
  match handlers !! key with
  | Some handler => OwnHandler handler
  | None => if bool_decide (key ∈ objectPrototypeMembers) then InheritedMember else NoProperty
  end.

Record CallToolRequest := {
  params_name : string;
  params_arguments : Value;
}.

Record TextContent := {
  content_type : string;
  content_text : option string;
}.

Record CallToolResult := {
  content : list TextContent;
  isError : option bool;
}.

Definition errorMessage (error : JsError) : string :=
  match error with
  | ZodError issues => zodErrorMessage issues
  | TypeError message => message
  | GenericError message => message
  | AxiosError message => message
  end.

(** The CallToolRequestSchema handler. A thrown outcome rejects the
    handler's promise: the protocol layer answers that one request with an
    error response. *)
Definition callTool (options : Options) (request : CallToolRequest) : Exec CallToolResult :=
  let toolName := params_name request in
  let args := params_arguments request in
  match lookupProperty (toolHandlers options) toolName with
  | NoProperty => throw (GenericError ("Unknown tool: " +:+ toolName))
  | handler =>
      if negb (opt_infoOnlyMode options) && negb (given (opt_apiKey options)) then
        ret {| content :=
                 [{| content_type := "text";
                     content_text := Some "Error: ABP.IO API key is required. Please configure --api-key parameter or use --info-only-mode for informational tools only." |}];
               isError := Some true |}
      else
        tryCatch
          (let* result :=
             match handler with
             | OwnHandler h => execute h (js_or args (VObj []))
             | _ => throw (TypeError "handler.execute is not a function")
             end in
           ret {| content :=
                    [{| content_type := "text";
                        content_text := JSON_stringify_indent2 result |}];
                  isError := None |})
          (λ error,
             ret {| content :=
                      [{| content_type := "text";
                          content_text := Some ("Error: " +:+ errorMessage error) |}];
                    isError := Some true |})
  end.

(** The protocol layer (the MCP SDK's Server) awaits the handler of each
    request in turn and answers it: with the handler's result, or, when the
    handler throws, with an error response carrying the message. Nothing a
    handler does ends the process. *)
Inductive Response :=
  | ResultResponse (result : CallToolResult)
  | ErrorResponse (message : string).

Fixpoint serve (options : Options) (requests : list CallToolRequest) (remote : Remote)
  (tr : Trace) : list Response * Trace :=
  match requests with
  | [] => ([], tr)
  | request :: rest =>
      let '(outcome, tr') := callTool options request remote tr in
      let response :=
        match outcome with
        | Returned result => ResultResponse result
        | Thrown error => ErrorResponse (errorMessage error)
        end in
      let '(responses, tr'') := serve options rest remote tr' in
      (response :: responses, tr'')
  end.

(** ** Further methods of the API client (src/abp-api-client.ts) *)

(** [this.client.put(url, data)], [this.client.delete(url)] *)
Definition client_put (c : AbpApiClient) (url : string) (data : Value) : Exec Value :=
  send (axiosRequest c "put" url VUndefined data).

Definition client_delete (c : AbpApiClient) (url : string) : Exec Value :=
  send (axiosRequest c "delete" url VUndefined VUndefined).

(** *** One item by its identifier: [response.data] as it is *)

Definition getApplication (c : AbpApiClient) (id : string) : Exec Value :=
  client_get c ("/api/app/applications/" +:+ id) VUndefined.

Definition getModule (c : AbpApiClient) (id : string) : Exec Value :=
  client_get c ("/api/app/modules/" +:+ id) VUndefined.

Definition getEntity (c : AbpApiClient) (id : string) : Exec Value :=
  client_get c ("/api/app/entities/" +:+ id) VUndefined.

Definition getUser (c : AbpApiClient) (id : string) : Exec Value :=
  client_get c ("/api/identity/users/" +:+ id) VUndefined.

Definition getTenant (c : AbpApiClient) (id : string) : Exec Value :=
  client_get c ("/api/saas/tenants/" +:+ id) VUndefined.

Definition getAuditLog (c : AbpApiClient) (id : string) : Exec Value :=
  client_get c ("/api/audit-logging/audit-logs/" +:+ id) VUndefined.

Definition getBackgroundJob (c : AbpApiClient) (id : string) : Exec Value :=
  client_get c ("/api/background-jobs/" +:+ id) VUndefined.

Definition getTheme (c : AbpApiClient) (themeName : string) : Exec Value :=
  client_get c ("/api/themes/" +:+ themeName) VUndefined.

Definition getLayout (c : AbpApiClient) (layoutName : string) : Exec Value :=
  client_get c ("/api/ui/layouts/" +:+ layoutName) VUndefined.

Definition getMenu (c : AbpApiClient) (menuName : string) : Exec Value :=
  client_get c ("/api/ui/navigation/menus/" +:+ menuName) VUndefined.

Definition getWidget (c : AbpApiClient) (widgetName : string) : Exec Value :=
  client_get c ("/api/ui/widgets/" +:+ widgetName) VUndefined.

(** *** Deletions: the response is awaited and dropped *)

Definition deleteApplication (c : AbpApiClient) (id : string) : Exec unit :=
  let* _ := client_delete c ("/api/app/applications/" +:+ id) in
  ret tt.

Definition uninstallModule (c : AbpApiClient) (id : string) : Exec unit :=
  let* _ := client_delete c ("/api/app/modules/" +:+ id) in
  ret tt.

Definition deleteUser (c : AbpApiClient) (id : string) : Exec unit :=
  let* _ := client_delete c ("/api/identity/users/" +:+ id) in
  ret tt.

Definition deleteTenant (c : AbpApiClient) (id : string) : Exec unit :=
  let* _ := client_delete c ("/api/saas/tenants/" +:+ id) in
  ret tt.

Definition deleteBackgroundJob (c : AbpApiClient) (id : string) : Exec unit :=
  let* _ := client_delete c ("/api/background-jobs/" +:+ id) in
  ret tt.

Definition deleteWidget (c : AbpApiClient) (widgetName : string) : Exec unit :=
  let* _ := client_delete c ("/api/ui/widgets/" +:+ widgetName) in
  ret tt.

(** *** Creations and updates *)

Definition createEntity (c : AbpApiClient) (entity : Value) : Exec Value :=
  client_post c "/api/app/entities" entity.

Definition createUser (c : AbpApiClient) (user : Value) : Exec Value :=
  client_post c "/api/identity/users" user.

Definition createTenant (c : AbpApiClient) (tenant : Value) : Exec Value :=
  client_post c "/api/saas/tenants" tenant.


Definition updateApplication (c : AbpApiClient) (id : string) (application : Value)
  : Exec Value :=
  client_put c ("/api/app/applications/" +:+ id) application.

(** The updates the tools call with an unvalidated identifier: the
    template literal of the URL converts it to a string, whatever it is. *)
Definition updateUser (c : AbpApiClient) (id : Value) (user : Value) : Exec Value :=
  let* shown := liftOutcome (toStringJs id) in
  client_put c ("/api/identity/users/" +:+ shown) user.

Definition updateTenant (c : AbpApiClient) (id : Value) (tenant : Value) : Exec Value :=
  let* shown := liftOutcome (toStringJs id) in
  client_put c ("/api/saas/tenants/" +:+ shown) tenant.

Definition generateCrud (c : AbpApiClient) (entityId : Value) (options : Value) : Exec Value :=
  let* shown := liftOutcome (toStringJs entityId) in
  client_post c ("/api/app/entities/" +:+ shown +:+ "/generate-crud") options.

Definition updateLayout (c : AbpApiClient) (layoutName : string) (layoutData : Value)
  : Exec Value :=
  client_put c ("/api/ui/layouts/" +:+ layoutName) layoutData.

Definition updateLocalizationText (c : AbpApiClient) (resourceName : string) (data : Value)
  : Exec Value :=
  client_post c ("/api/localization/resources/" +:+ resourceName +:+ "/texts") data.

(** [enqueueBackgroundJob(jobType, args, priority = 'Normal')]: the
    parameter default applies when no priority is passed. The job's
    arguments travel as their JSON text; JSON.stringify(undefined) is
    undefined, and the key then holds undefined. *)
Definition enqueueBackgroundJob (c : AbpApiClient) (jobType : string) (args : Value)
    (priority : option string) : Exec Value :=
  client_post c "/api/background-jobs"
    (VObj [("jobType", VStr jobType);
           ("args", match JSON_stringify args with
                    | Some text => VStr text
                    | None => VUndefined
                    end);
           ("priority", VStr (default "Normal" priority))]).

(** ** Array methods the handlers use

    The keys the handlers read with [getProperty] (isActive, isInstalled,
    name, userName, displayName) are, like items, members of no prototype
    of a value that came from JSON. *)

(** [xs.filter(x => x.key)] and, with [negated], [xs.filter(x => !x.key)]:
    the callback reads the property of each element in turn, and throws at
    an element that is null or undefined. *)
Fixpoint filterByProperty (negated : bool) (key : string) (xs : list Value)
  : Outcome (list Value) :=
  match xs with
  | [] => Returned []
  | x :: rest =>
      let+ flag := getProperty x key in
      let+ kept := filterByProperty negated key rest in
      Returned (if xorb negated (truthy flag) then x :: kept else kept)
  end.

(** [receiver.filter(...)] on whatever the client returned: only an array
    has a filter method. A value that came from JSON holds no function, so
    on an object the member filter is undefined or data, and calling it
    throws. *)
Definition arrayFilter (receiver : string) (negated : bool) (key : string) (v : Value)
  : Outcome (list Value) :=
  match v with
  | VArr xs => filterByProperty negated key xs
  | VUndefined => Thrown (TypeError "Cannot read properties of undefined (reading 'filter')")
  | VNull => Thrown (TypeError "Cannot read properties of null (reading 'filter')")
  | _ => Thrown (TypeError (receiver +:+ ".filter is not a function"))
  end.

(** The length of an array the handler built itself *)
Definition lengthOf {A} (xs : list A) : Value := VNum (numOfN (N.of_nat (length xs))).

(** ** The handlers of the other groups

    The execute functions of tools of applicationTools, moduleTools,
    entityTools, userTools, tenantTools, auditTools, backgroundJobTools
    and uiTools, each named after its tool. The groups above register
    them by name under [otherExecute]: what is proved of the registry and
    of the dispatch loop holds whatever these functions are, and what is
    proved of them below is about the functions themselves. *)

(** [const { k, ...rest } = args] for an argument object, given by its
    own properties: [args.k] (undefined when there is none), and the
    object of every other property. *)
Definition restWithout (k : string) (props : list (string * Value)) : Value :=
  VObj (filter (λ kv, kv.1 ≠ k) props).

(** [z.object({ id: z.string() })] and [z.object({ name: z.string() })],
    destructured to the one key *)
Definition idSchema : ZodType string :=
  z_object (shape (λ id : string, id) <&> key "id" z_string).

Definition nameSchema : ZodType string :=
  z_object (shape (λ n : string, n) <&> key "name" z_string).

(** *** applicationTools *)

Definition abp_get_application_execute (apiClient : AbpApiClient) (args : Value) : Exec Value :=
  let* id := liftOutcome (parse idSchema args) in
  let* application := getApplication apiClient id in
  ret (VObj
    [("success", VBool true);
     ("data", application)]).

Record UpdateApplicationArgs := {
  upa_id : string;
  upa_displayName : option string;
  upa_url : option string;
  upa_status : option string;
}.

Definition updateApplicationSchema : ZodType UpdateApplicationArgs :=
  z_object (shape Build_UpdateApplicationArgs
    <&> key "id" z_string
    <&> key "displayName" (z_optional z_string)
    <&> key "url" (z_optional z_string)
    <&> key "status" (z_optional (z_enum ["Running"; "Stopped"; "Error"]))).

(** [const { id, ...updateData } = schema.parse(args)] *)
Definition abp_update_application_execute (apiClient : AbpApiClient) (args : Value) : Exec Value :=
  let* parsed := liftOutcome (parse updateApplicationSchema args) in
  let id := upa_id parsed in
  let updateData :=
    VObj (optionalKey "displayName" (VStr <$> upa_displayName parsed)
          ++ optionalKey "url" (VStr <$> upa_url parsed)
          ++ optionalKey "status" (VStr <$> upa_status parsed)) in
  let* application := updateApplication apiClient id updateData in
  ret (VObj
    [("success", VBool true);
     ("data", application);
     ("message", VStr "Application updated successfully")]).

Definition abp_delete_application_execute (apiClient : AbpApiClient) (args : Value) : Exec Value :=
  let* id := liftOutcome (parse idSchema args) in
  let* _ := deleteApplication apiClient id in
  ret (VObj
    [("success", VBool true);
     ("message", VStr "Application deleted successfully")]).

(** *** moduleTools *)

(** The arguments are not read. *)
Definition abp_get_modules_execute (apiClient : AbpApiClient) (args : Value) : Exec Value :=
  let* modules := getModules apiClient in
  let* count := liftOutcome (getProperty modules "length") in
  let* installed := liftOutcome (arrayFilter "modules" false "isInstalled" modules) in
  let* available := liftOutcome (arrayFilter "modules" true "isInstalled" modules) in
  ret (VObj
    [("success", VBool true);
     ("data", modules);
     ("count", count);
     ("installed", lengthOf installed);
     ("available", lengthOf available)]).




Definition abp_get_module_execute (apiClient : AbpApiClient) (args : Value) : Exec Value :=
  let* id := liftOutcome (parse idSchema args) in
  let* module := getModule apiClient id in
  ret (VObj
    [("success", VBool true);
     ("data", module)]).

Definition abp_uninstall_module_execute (apiClient : AbpApiClient) (args : Value) : Exec Value :=
  let* id := liftOutcome (parse idSchema args) in
  let* _ := uninstallModule apiClient id in
  ret (VObj
    [("success", VBool true);
     ("message", VStr "Module uninstalled successfully")]).

(** *** entityTools *)

Definition abp_get_entity_execute (apiClient : AbpApiClient) (args : Value) : Exec Value :=
  let* id := liftOutcome (parse idSchema args) in
  let* entity := getEntity apiClient id in
  ret (VObj
    [("success", VBool true);
     ("data", entity)]).

(** The arguments are posted as they are; nothing is parsed. *)
Definition abp_create_entity_execute (apiClient : AbpApiClient) (args : Value) : Exec Value :=
  let* entity := createEntity apiClient args in
  let* entityName := liftOutcome (getProperty entity "name") in
  let* shown := liftOutcome (toStringJs entityName) in
  ret (VObj
    [("success", VBool true);
     ("data", entity);
     ("message", VStr ("Entity '" +:+ shown +:+ "' created successfully"))]).

(** Nothing is parsed; the handler is given on the properties of the
    argument object. *)
Definition abp_generate_crud_execute (apiClient : AbpApiClient) (args : list (string * Value))
  : Exec Value :=
  let entityId := default VUndefined (ownProperty args "entityId") in
  let options := restWithout "entityId" args in
  let* result := generateCrud apiClient entityId options in
  ret (VObj
    [("success", VBool true);
     ("data", result);
     ("message", VStr "CRUD operations generated successfully")]).

(** *** userTools *)

Record GetUsersArgs := {
  gu_filter : option string;
  gu_maxResultCount : option Num;
}.

Definition getUsersSchema : ZodType GetUsersArgs :=
  z_object (shape Build_GetUsersArgs
    <&> key "filter" (z_optional z_string)
    <&> key "maxResultCount" (z_optional z_number)).

Definition abp_get_users_execute (apiClient : AbpApiClient) (args : Value) : Exec Value :=
  let* parsed := liftOutcome (parse getUsersSchema args) in
  let* users := getUsers apiClient (gu_filter parsed) (gu_maxResultCount parsed) in
  let* count := liftOutcome (getProperty users "length") in
  let* active := liftOutcome (arrayFilter "users" false "isActive" users) in
  let* inactive := liftOutcome (arrayFilter "users" true "isActive" users) in
  ret (VObj
    [("success", VBool true);
     ("data", users);
     ("count", count);
     ("active", lengthOf active);
     ("inactive", lengthOf inactive)]).

Definition abp_get_user_execute (apiClient : AbpApiClient) (args : Value) : Exec Value :=
  let* id := liftOutcome (parse idSchema args) in
  let* user := getUser apiClient id in
  ret (VObj
    [("success", VBool true);
     ("data", user)]).

(** The arguments are posted as they are; nothing is parsed. *)
Definition abp_create_user_execute (apiClient : AbpApiClient) (args : Value) : Exec Value :=
  let* user := createUser apiClient args in
  let* userName := liftOutcome (getProperty user "userName") in
  let* shown := liftOutcome (toStringJs userName) in
  ret (VObj
    [("success", VBool true);
     ("data", user);
     ("message", VStr ("User '" +:+ shown +:+ "' created successfully"))]).

(** Nothing is parsed. The arguments of a call are an object (the
    protocol layer types them as a record, and the dispatcher passes the
    empty object for none); the handler is given on its properties. *)
Definition abp_update_user_execute (apiClient : AbpApiClient) (args : list (string * Value))
  : Exec Value :=
  let id := default VUndefined (ownProperty args "id") in
  let updateData := restWithout "id" args in
  let* user := updateUser apiClient id updateData in
  ret (VObj
    [("success", VBool true);
     ("data", user);
     ("message", VStr "User updated successfully")]).

Definition abp_delete_user_execute (apiClient : AbpApiClient) (args : Value) : Exec Value :=
  let* id := liftOutcome (parse idSchema args) in
  let* _ := deleteUser apiClient id in
  ret (VObj
    [("success", VBool true);
     ("message", VStr "User deleted successfully")]).

(** *** tenantTools *)

(** [z.object({ filter: z.string().optional() })] *)
Definition filterSchema : ZodType (option string) :=
  z_object (shape (λ f : option string, f) <&> key "filter" (z_optional z_string)).

Definition abp_get_tenants_execute (apiClient : AbpApiClient) (args : Value) : Exec Value :=
  let* filter := liftOutcome (parse filterSchema args) in
  let* tenants := getTenants apiClient filter in
  let* count := liftOutcome (getProperty tenants "length") in
  let* active := liftOutcome (arrayFilter "tenants" false "isActive" tenants) in
  let* inactive := liftOutcome (arrayFilter "tenants" true "isActive" tenants) in
  ret (VObj
    [("success", VBool true);
     ("data", tenants);
     ("count", count);
     ("active", lengthOf active);
     ("inactive", lengthOf inactive)]).

Definition abp_get_tenant_execute (apiClient : AbpApiClient) (args : Value) : Exec Value :=
  let* id := liftOutcome (parse idSchema args) in
  let* tenant := getTenant apiClient id in
  ret (VObj
    [("success", VBool true);
     ("data", tenant)]).

(** The arguments are posted as they are; nothing is parsed. *)
Definition abp_create_tenant_execute (apiClient : AbpApiClient) (args : Value) : Exec Value :=
  let* tenant := createTenant apiClient args in
  let* tenantName := liftOutcome (getProperty tenant "name") in
  let* shown := liftOutcome (toStringJs tenantName) in
  ret (VObj
    [("success", VBool true);
     ("data", tenant);
     ("message", VStr ("Tenant '" +:+ shown +:+ "' created successfully"))]).

(** Nothing is parsed; the handler is given on the properties of the
    argument object. *)
Definition abp_update_tenant_execute (apiClient : AbpApiClient) (args : list (string * Value))
  : Exec Value :=
  let id := default VUndefined (ownProperty args "id") in
  let updateData := restWithout "id" args in
  let* tenant := updateTenant apiClient id updateData in
  ret (VObj
    [("success", VBool true);
     ("data", tenant);
     ("message", VStr "Tenant updated successfully")]).

Definition abp_delete_tenant_execute (apiClient : AbpApiClient) (args : Value) : Exec Value :=
  let* id := liftOutcome (parse idSchema args) in
  let* _ := deleteTenant apiClient id in
  ret (VObj
    [("success", VBool true);
     ("message", VStr "Tenant deleted successfully")]).

(** *** auditTools *)

Definition abp_get_audit_log_execute (apiClient : AbpApiClient) (args : Value) : Exec Value :=
  let* id := liftOutcome (parse idSchema args) in
  let* auditLog := getAuditLog apiClient id in
  ret (VObj
    [("success", VBool true);
     ("data", auditLog)]).

(** *** backgroundJobTools *)

Definition abp_get_background_job_execute (apiClient : AbpApiClient) (args : Value) : Exec Value :=
  let* id := liftOutcome (parse idSchema args) in
  let* job := getBackgroundJob apiClient id in
  ret (VObj
    [("success", VBool true);
     ("data", job)]).

Record EnqueueJobArgs := {
  ej_jobType : string;
  ej_args : Value;
  ej_priority : string;
}.

Definition enqueueJobSchema : ZodType EnqueueJobArgs :=
  z_object (shape Build_EnqueueJobArgs
    <&> key "jobType" z_string
    <&> key "args" z_any
    <&> key "priority" (z_default (z_enum ["Low"; "Normal"; "High"]) (VStr "Normal"))).

Definition abp_enqueue_background_job_execute (apiClient : AbpApiClient) (args : Value)
  : Exec Value :=
  let* parsed := liftOutcome (parse enqueueJobSchema args) in
  let* job := enqueueBackgroundJob apiClient (ej_jobType parsed) (ej_args parsed)
                (Some (ej_priority parsed)) in
  ret (VObj
    [("success", VBool true);
     ("data", job);
     ("message", VStr ("Background job '" +:+ ej_jobType parsed +:+ "' enqueued successfully"))]).

Definition abp_delete_background_job_execute (apiClient : AbpApiClient) (args : Value) : Exec Value :=
  let* id := liftOutcome (parse idSchema args) in
  let* _ := deleteBackgroundJob apiClient id in
  ret (VObj
    [("success", VBool true);
     ("message", VStr "Background job deleted successfully")]).

(** *** uiTools *)

Definition abp_get_theme_execute (apiClient : AbpApiClient) (args : Value) : Exec Value :=
  let* themeName := liftOutcome (parse nameSchema args) in
  let* theme := getTheme apiClient themeName in
  ret (VObj
    [("success", VBool true);
     ("data", theme)]).

Definition abp_get_layout_execute (apiClient : AbpApiClient) (args : Value) : Exec Value :=
  let* layoutName := liftOutcome (parse nameSchema args) in
  let* layout := getLayout apiClient layoutName in
  ret (VObj
    [("success", VBool true);
     ("data", layout)]).

Record UpdateLayoutArgs := {
  ula_name : string;
  ula_displayName : option string;
  ula_description : option string;
  ula_template : option string;
}.

Definition updateLayoutSchema : ZodType UpdateLayoutArgs :=
  z_object (shape Build_UpdateLayoutArgs
    <&> key "name" z_string
    <&> key "displayName" (z_optional z_string)
    <&> key "description" (z_optional z_string)
    <&> key "template" (z_optional z_string)).

(** [const { name, ...updateData } = schema.parse(args)] *)
Definition abp_update_layout_execute (apiClient : AbpApiClient) (args : Value) : Exec Value :=
  let* parsed := liftOutcome (parse updateLayoutSchema args) in
  let layoutName := ula_name parsed in
  let updateData :=
    VObj (optionalKey "displayName" (VStr <$> ula_displayName parsed)
          ++ optionalKey "description" (VStr <$> ula_description parsed)
          ++ optionalKey "template" (VStr <$> ula_template parsed)) in
  let* layout := updateLayout apiClient layoutName updateData in
  ret (VObj
    [("success", VBool true);
     ("data", layout);
     ("message", VStr ("Layout '" +:+ layoutName +:+ "' updated successfully"))]).

Definition abp_get_menu_execute (apiClient : AbpApiClient) (args : Value) : Exec Value :=
  let* menuName := liftOutcome (parse nameSchema args) in
  let* menu := getMenu apiClient menuName in
  ret (VObj
    [("success", VBool true);
     ("data", menu)]).

Definition abp_get_widget_execute (apiClient : AbpApiClient) (args : Value) : Exec Value :=
  let* widgetName := liftOutcome (parse nameSchema args) in
  let* widget := getWidget apiClient widgetName in
  ret (VObj
    [("success", VBool true);
     ("data", widget)]).

Definition abp_delete_widget_execute (apiClient : AbpApiClient) (args : Value) : Exec Value :=
  let* widgetName := liftOutcome (parse nameSchema args) in
  let* _ := deleteWidget apiClient widgetName in
  ret (VObj
    [("success", VBool true);
     ("message", VStr ("Widget '" +:+ widgetName +:+ "' deleted successfully"))]).

Record LocalizationTextArgs := {
  lt_resourceName : string;
  lt_culture : string;
  lt_key : string;
  lt_value : string;
}.

Definition localizationTextSchema : ZodType LocalizationTextArgs :=
  z_object (shape Build_LocalizationTextArgs
    <&> key "resourceName" z_string
    <&> key "culture" z_string
    <&> key "key" z_string
    <&> key "value" z_string).

(** [const { resourceName, ...data } = schema.parse(args)] *)
Definition abp_update_localization_text_execute (apiClient : AbpApiClient) (args : Value)
  : Exec Value :=
  let* parsed := liftOutcome (parse localizationTextSchema args) in
  let resourceName := lt_resourceName parsed in
  let data :=
    VObj [("culture", VStr (lt_culture parsed));
          ("key", VStr (lt_key parsed));
          ("value", VStr (lt_value parsed))] in
  let* result := updateLocalizationText apiClient resourceName data in
  ret (VObj
    [("success", VBool true);
     ("data", result);
     ("message", VStr ("Localization text for key '" +:+ lt_key parsed
                       +:+ "' updated in culture '" +:+ lt_culture parsed +:+ "'"))]).

(** ** The list of tools (src/index.ts, the ListToolsRequestSchema handler)

    [Object.values(toolHandlers).map(...)]: one entry per handler of the
    table. The table keeps no order of insertion, so the list is given in
    the order of [map_to_list]; what is stated of it does not depend on the
    order. *)
Record Tool := {
  tool_name : string;
  tool_description : string;
  tool_inputSchema : Value;
}.

Definition listTools (options : Options) : list Tool :=
  (λ handler,
     {| tool_name := name handler;
        tool_description := description handler;
        tool_inputSchema := inputSchema handler |})
  <$> (map_to_list (toolHandlers options)).*2.

(** ** Vocabulary of the properties *)

(** The schema accepts the data: [schema.safeParse(data).success]. *)
Definition accepts {A} (t : ZodType A) (data : Value) : bool :=
  match t [] data with
  | PValid _ => true
  | PInvalid _ => false
  end.

(** The values a template literal can interpolate: every value but an
    object with an own property named toString, directly or as an element
    of (nested) arrays. *)
Fixpoint convertible (v : Value) : bool :=
  match v with
  | VArr xs =>
      (fix all (l : list Value) : bool :=
         match l with
         | [] => true
         | x :: rest => convertible x && all rest
         end) xs
  | VObj props =>
      match ownProperty props "toString" with
      | Some _ => false
      | None => true
      end
  | _ => true
  end.

(** The free-form values the Angular form template interpolates: each
    field's default value and, for a select, each option's value. *)
Definition fieldConvertible (field : FormField) : bool :=
  convertible (js_or (default VUndefined (ff_defaultValue field)) (VStr EmptyString))
  && (if bool_decide (ff_type field = "select")
      then forallb (λ opt, convertible (fo_value opt)) (default [] (ff_options field))
      else true).

Definition formConvertible (args : FormArgs) : bool :=
  forallb fieldConvertible (fa_fields args).

Definition hybridToolNames : list string :=
  ["abp_generate_component"; "abp_get_themes"; "abp_generate_form"; "abp_get_ui_examples"].

(** The arguments pass the zod schema of the hybrid tool of that name
    (abp_get_themes parses nothing). *)
Definition hybridSchemaAccepts (toolName : string) (args : Value) : bool :=
  if bool_decide (toolName = "abp_generate_component") then accepts componentSchema args
  else if bool_decide (toolName = "abp_generate_form") then accepts formSchema args
  else if bool_decide (toolName = "abp_get_ui_examples") then accepts uiExamplesSchema args
  else true.

(** The parsed arguments hold only values the static templates of that
    tool can interpolate (only abp_generate_form interpolates free-form
    values). *)
Definition hybridValuesConvertible (toolName : string) (args : Value) : bool :=
  if bool_decide (toolName = "abp_generate_form") then
    match formSchema [] args with
    | PValid parsed => formConvertible parsed
    | PInvalid _ => true
    end
  else true.

(** The providerName of the arguments is one of the enumerated R and U. *)
Definition providerNameEnumerated (args : Value) : bool :=
  match args with
  | VObj props =>
      match ownProperty props "providerName" with
      | Some (VStr s) => bool_decide (s ∈ ["R"; "U"])
      | _ => false
      end
  | _ => false
  end.

(** The result with which the dispatcher answers a call when no API key is
    configured outside info-only mode. *)
Definition credentialRequired : CallToolResult :=
  {| content :=
       [{| content_type := "text";
           content_text := Some "Error: ABP.IO API key is required. Please configure --api-key parameter or use --info-only-mode for informational tools only." |}];
     isError := Some true |}.

(** The string the arguments hold under a key, if they are an object that
    holds one there. *)
Definition stringArgument (k : string) (args : Value) : option string :=
  match args with
  | VObj props =>
      match ownProperty props k with
      | Some (VStr s) => Some s
      | _ => None
      end
  | _ => None
  end.

(** The tools that take one item's identifier: the execute function, the
    key of the identifier in the arguments, and the method and the URL
    prefix of the request the client method makes. *)
Definition keyedTools (apiClient : AbpApiClient)
  : list ((Value → Exec Value) * (string * string * string)) :=
  [(abp_get_application_execute apiClient, ("id", "get", "/api/app/applications/"));
   (abp_delete_application_execute apiClient, ("id", "delete", "/api/app/applications/"));
   (abp_get_module_execute apiClient, ("id", "get", "/api/app/modules/"));
   (abp_uninstall_module_execute apiClient, ("id", "delete", "/api/app/modules/"));
   (abp_get_entity_execute apiClient, ("id", "get", "/api/app/entities/"));
   (abp_get_user_execute apiClient, ("id", "get", "/api/identity/users/"));
   (abp_delete_user_execute apiClient, ("id", "delete", "/api/identity/users/"));
   (abp_get_tenant_execute apiClient, ("id", "get", "/api/saas/tenants/"));
   (abp_delete_tenant_execute apiClient, ("id", "delete", "/api/saas/tenants/"));
   (abp_get_audit_log_execute apiClient, ("id", "get", "/api/audit-logging/audit-logs/"));
   (abp_get_background_job_execute apiClient, ("id", "get", "/api/background-jobs/"));
   (abp_delete_background_job_execute apiClient, ("id", "delete", "/api/background-jobs/"));
   (abp_get_theme_execute apiClient, ("name", "get", "/api/themes/"));
   (abp_get_layout_execute apiClient, ("name", "get", "/api/ui/layouts/"));
   (abp_get_menu_execute apiClient, ("name", "get", "/api/ui/navigation/menus/"));
   (abp_get_widget_execute apiClient, ("name", "get", "/api/ui/widgets/"));
   (abp_delete_widget_execute apiClient, ("name", "delete", "/api/ui/widgets/"))].

(** Every handler of the table is stored under its own name. *)
Definition namedByKey (allTools : gmap string ToolHandler) : Prop :=
  map_Forall (λ toolName handler, name handler = toolName) allTools.

(** The tools that count the items of a list by a flag: the execute
    function and the keys under which the result counts the items with
    the flag and those without. *)
Definition countedTools (apiClient : AbpApiClient)
  : list ((Value → Exec Value) * (string * string)) :=
  [(abp_get_modules_execute apiClient, ("installed", "available"));
   (abp_get_users_execute apiClient, ("active", "inactive"));
   (abp_get_tenants_execute apiClient, ("active", "inactive"))].

(** The tools that post their arguments unparsed: the execute function,
    the URL, the property of the answer the message shows and the noun of
    the message. *)
Definition createTools (apiClient : AbpApiClient)
  : list ((Value → Exec Value) * (string * string * string)) :=
  [(abp_create_entity_execute apiClient, ("/api/app/entities", "name", "Entity"));
   (abp_create_user_execute apiClient, ("/api/identity/users", "userName", "User"));
   (abp_create_tenant_execute apiClient, ("/api/saas/tenants", "name", "Tenant"))].

(** The tools that split their unparsed arguments into an identifier and
    the rest: the execute function (on the properties of the argument
    object), the key of the identifier, the method, and the URL as a
    function of the identifier's string. *)
Definition unvalidatedUpdates (apiClient : AbpApiClient)
  : list ((list (string * Value) → Exec Value) * (string * string * (string → string))) :=
  [(abp_update_user_execute apiClient,
      ("id", "put", λ shown, "/api/identity/users/" +:+ shown));
   (abp_update_tenant_execute apiClient,
      ("id", "put", λ shown, "/api/saas/tenants/" +:+ shown));
   (abp_generate_crud_execute apiClient,
      ("entityId", "post", λ shown, "/api/app/entities/" +:+ shown +:+ "/generate-crud"))].

(** The two tools that change a permission: the execute function, the
    URL and the words of the message. *)
Definition permissionChanges (apiClient : AbpApiClient)
  : list ((Value → Exec Value) * (string * string)) :=
  [(abp_grant_permission_execute apiClient, ("/api/app/permissions/grant", "granted to"));
   (abp_revoke_permission_execute apiClient, ("/api/app/permissions/revoke", "revoked from"))].

(** The requests a server in info-only mode can make: one of three
    endpoints, at the configured base URL, with the configured key (or
    none) as the bearer token. *)
Definition restrictedRequest (options : Options) (asked : HttpRequest) : bool :=
  bool_decide ((req_method asked, req_url asked) ∈
                 [("get", "/api/themes");
                  ("post", "/api/suite/components");
                  ("post", "/api/suite/forms")])
  && bool_decide (req_baseURL asked = baseUrl (config (mainApiClient options)))
  && bool_decide (req_authorization asked
                  = "Bearer " +:+ default EmptyString (opt_apiKey options)).

End Server.

Arguments AbpApiClient Num : clear implicits.
Arguments AbpApiClientConfig Num : clear implicits.
Arguments ToolHandler Num : clear implicits.
Arguments ToolBodies Num : clear implicits.
Arguments Options : clear implicits.
Arguments Remote Num : clear implicits.
Arguments Trace Num : clear implicits.
Arguments HttpRequest Num : clear implicits.
Arguments HttpResult Num : clear implicits.
Arguments CallToolRequest Num : clear implicits.
Arguments Tool Num : clear implicits.
Arguments PValid {A} a.
Arguments PInvalid {A} issues.

(** ** A runtime to evaluate examples with

    Numbers are integers and strings are ASCII; JSON.stringify escapes the
    double quote, the backslash and the line feed. *)

Definition lowerAscii (a : Ascii.ascii) : Ascii.ascii :=
  let n := Ascii.nat_of_ascii a in
  if (65 <=? n)%nat && (n <=? 90)%nat then Ascii.ascii_of_nat (n + 32) else a.

Fixpoint asciiToLowerCase (s : string) : string :=
  match s with
  | EmptyString => EmptyString
  | String a rest => String (lowerAscii a) (asciiToLowerCase rest)
  end.

Definition backslash : string := String (Ascii.ascii_of_nat 92) EmptyString.

Fixpoint jsonEscape (s : string) : string :=
  match s with
  | EmptyString => EmptyString
  | String a rest =>
      let n := Ascii.nat_of_ascii a in
      (if (n =? 34)%nat then backslash +:+ dq
       else if (n =? 92)%nat then backslash +:+ backslash
       else if (n =? 10)%nat then backslash +:+ "n"
       else String a EmptyString) +:+ jsonEscape rest
  end.

Definition jsonQuote (s : string) : string := dq +:+ jsonEscape s +:+ dq.

(** JSON.stringify(v, null, gap) with [gap] spaces of indentation per
    level ([gap] = 0: the compact form); [indent] is the current
    indentation. *)
Fixpoint stringifyAt (gap : string) (indent : string) (v : JsValue Z) : option string :=
  let inner := indent +:+ gap in
  let open_ := if bool_decide (gap = EmptyString) then EmptyString
               else String (Ascii.ascii_of_nat 10) inner in
  let close_ := if bool_decide (gap = EmptyString) then EmptyString
                else String (Ascii.ascii_of_nat 10) indent in
  let colon := if bool_decide (gap = EmptyString) then ":" else ": " in
  match v with
  | VUndefined => None
  | VNull => Some "null"
  | VBool b => Some (if b then "true" else "false")
  | VNum n => Some (pretty n)
  | VStr s => Some (jsonQuote s)
  | VArr xs =>
      let fix elements (l : list (JsValue Z)) : list string :=
        match l with
        | [] => []
        | x :: rest => default "null" (stringifyAt gap inner x) :: elements rest
        end in
      match xs with
      | [] => Some "[]"
      | _ => Some ("[" +:+ open_ +:+ String.concat ("," +:+ open_) (elements xs) +:+ close_ +:+ "]")
      end
  | VObj props =>
      let fix members (l : list (string * JsValue Z)) : list string :=
        match l with
        | [] => []
        | (k, x) :: rest =>
            match stringifyAt gap inner x with
            | Some s => (jsonQuote k +:+ colon +:+ s) :: members rest
            | None => members rest
            end
        end in
      match members props with
      | [] => Some "{}"
      | ms => Some ("{" +:+ open_ +:+ String.concat ("," +:+ open_) ms +:+ close_ +:+ "}")
      end
  end.

#[local] Instance exampleRuntime : JsRuntime Z := {|
  numOfN := Z.of_N;
  numIsFalsy := Z.eqb 0;
  numIsNaN := λ _, false;
  numToString := pretty;
  stringLength := String.length;
  toLowerCase := asciiToLowerCase;
  JSON_stringify := stringifyAt EmptyString EmptyString;
  JSON_stringify_indent2 := stringifyAt "  " EmptyString;
  zodErrorMessage := λ issues,
    String.concat ", " ((λ i, issue_code i) <$> issues);
|}.

(** Bodies for the tools that are only registered: each returns undefined
    without calling out. *)
#[local] Instance exampleBodies : ToolBodies Z := {|
  declaredSchema := λ _ _, VObj [("type", VStr "object")];
  otherExecute := λ _ _ _, ret VUndefined;
|}.

Definition exampleClient (key : string) : AbpApiClient Z :=
  {| config := {| baseUrl := "http://localhost:44300"; apiKey := key; timeout := None |} |}.

(** A collaborator that answers every request with the same body, and one
    that rejects every request. *)
Definition answering (body : JsValue Z) : Remote Z := λ _ _, Resolved body.

Definition unreachable : Remote Z := λ _ _, Rejected (AxiosError "connect ECONNREFUSED").

Definition restrictedNoKey : Options :=
  {| opt_apiKey := None; opt_baseUrl := "http://localhost:44300";
     opt_infoOnlyMode := true; opt_stdio := true |}.

Definition unrestrictedNoKey : Options :=
  {| opt_apiKey := None; opt_baseUrl := "http://localhost:44300";
     opt_infoOnlyMode := false; opt_stdio := true |}.

Definition unrestrictedWithKey : Options :=
  {| opt_apiKey := Some "secret"; opt_baseUrl := "http://localhost:44300";
     opt_infoOnlyMode := false; opt_stdio := true |}.

Definition call (toolName : string) (args : JsValue Z) : CallToolRequest Z :=
  {| params_name := toolName; params_arguments := args |}.

(** Arguments and answers for the examples: a modal for Angular, an
    envelope of three users of which two are active, a module to install
    at a given version, and an update of a layout that names a key the
    schema does not have. *)
Definition confirmModal : JsValue Z :=
  VObj [("name", VStr "Confirm"); ("type", VStr "modal"); ("framework", VStr "angular")].

Definition threeUsers : JsValue Z :=
  VObj [("items", VArr [VObj [("userName", VStr "ada"); ("isActive", VBool true)];
                        VObj [("userName", VStr "bob"); ("isActive", VBool false)];
                        VObj [("userName", VStr "cy"); ("isActive", VBool true)]])].


Definition renameLayout : JsValue Z :=
  VObj [("name", VStr "main"); ("displayName", VStr "Main"); ("owner", VStr "ada")].

(** * Properties *)

(** Lookups of literal names in literal tables are settled by
    conversion; membership in a literal list by evaluation. *)
Ltac by_lookup := reflexivity.
Ltac by_decide := apply (bool_decide_unpack _); vm_compute; exact I.

Ltac run_client :=
  unfold getApplications, getModules, getEntities, getPermissions, getPermissionsByGroup,
    getUsers, getTenants, getAuditLogs, getBackgroundJobs, getThemes, getLayouts, getMenus,
    getWidgets, getLocalizationResources, getSupportedCultures,
    client_get, bind, send, liftOutcome, ret;
  cbn [getProperty ownProperty fst snd].

Section Properties.

Context {Num : Type} `{!JsRuntime Num} `{!ToolBodies Num}.

Implicit Types (allTools : gmap string (ToolHandler Num)) (toolName : string).

(** ** The mode gate *)

Lemma keepInfoOnly_fold (entries : list (string * ToolHandler Num)) kept toolName :
  NoDup entries.*1 →
  foldl keepInfoOnly kept entries !! toolName =
    match (list_to_map entries : gmap string (ToolHandler Num)) !! toolName with
    | Some handler =>
        if bool_decide (toolName ∈ infoOnlyToolNames) then Some handler else kept !! toolName
    | None => kept !! toolName
    end.
Proof.
  revert kept. induction entries as [|[k h] entries IH]; intros kept Hnd.
  - cbn. by rewrite lookup_empty.
  - rewrite fmap_cons in Hnd. cbn [fst] in Hnd.
    apply NoDup_cons in Hnd as [Hk Hnd]. cbn [foldl]. rewrite IH by done.
    cbn [list_to_map foldr fmap list_fmap fst snd uncurry]. unfold keepInfoOnly at 1 2. cbn [fst snd].
    destruct (decide (k = toolName)) as [->|Hne].
    + apply not_elem_of_list_to_map_1 in Hk. rewrite Hk, lookup_insert_eq.
      destruct (bool_decide (toolName ∈ infoOnlyToolNames)); [by rewrite lookup_insert_eq|done].
    + rewrite lookup_insert_ne by done.
      assert (Hkept : (if bool_decide (k ∈ infoOnlyToolNames) then <[k:=h]> kept else kept)
                        !! toolName = kept !! toolName).
      { destruct (bool_decide (k ∈ infoOnlyToolNames)); [by rewrite lookup_insert_ne|done]. }
      by rewrite Hkept.
Qed.

(** What the gate keeps of a name: the registry's own entry when the name
    is on the allow-list, nothing otherwise. *)
Lemma filterInfoOnlyTools_lookup allTools toolName :
  filterInfoOnlyTools allTools !! toolName =
    if bool_decide (toolName ∈ infoOnlyToolNames) then allTools !! toolName else None.
Proof.
  unfold filterInfoOnlyTools.
  rewrite keepInfoOnly_fold by apply NoDup_fst_map_to_list.
  rewrite list_to_map_to_list, lookup_empty.
  destruct (allTools !! toolName); by case_bool_decide.
Qed.

(** C4. Whatever the registry, the names the restricted-mode filter keeps
    are names of the registry and names of the allow-list, and each kept
    name is bound to the very entry the registry has for it. *)
Theorem filterInfoOnlyTools_subset allTools :
  dom (filterInfoOnlyTools allTools) ⊆ dom allTools ∧
  (∀ toolName, toolName ∈ dom (filterInfoOnlyTools allTools) → toolName ∈ infoOnlyToolNames) ∧
  (∀ toolName handler,
     filterInfoOnlyTools allTools !! toolName = Some handler →
     allTools !! toolName = Some handler).
Proof.
  assert (Hkeep : ∀ toolName handler,
            filterInfoOnlyTools allTools !! toolName = Some handler →
            toolName ∈ infoOnlyToolNames ∧ allTools !! toolName = Some handler).
  { intros toolName handler. rewrite filterInfoOnlyTools_lookup.
    case_bool_decide; [done|discriminate]. }
  split; [|split].
  - intros toolName [handler Hin]%elem_of_dom. apply elem_of_dom.
    exists handler. by apply Hkeep.
  - intros toolName [handler Hin]%elem_of_dom. by apply Hkeep in Hin as [? _].
  - intros toolName handler Hin. by apply Hkeep in Hin as [_ ?].
Qed.

(** C7. The filter is a function of the registry that always yields a
    table: an allow-listed name the registry lacks is simply not in it,
    and the allow-listed names the registry has are kept all the same. *)
Theorem filterInfoOnlyTools_skips_missing allTools toolName :
  toolName ∈ infoOnlyToolNames →
  allTools !! toolName = None →
  ∃ infoOnlyTools,
    filterInfoOnlyTools allTools = infoOnlyTools ∧
    infoOnlyTools !! toolName = None ∧
    (∀ other handler,
       other ∈ infoOnlyToolNames → allTools !! other = Some handler →
       infoOnlyTools !! other = Some handler).
Proof.
  intros Hallowed Hmissing. eexists. split; [reflexivity|]. split.
  - rewrite filterInfoOnlyTools_lookup. by case_bool_decide.
  - intros other handler Hother Hhas. rewrite filterInfoOnlyTools_lookup.
    by rewrite bool_decide_eq_true_2.
Qed.

(** ** The registry *)

Lemma mergeGroups_snoc {V} (groups : list (gmap string V)) (group : gmap string V) toolName :
  mergeGroups (groups ++ [group]) !! toolName =
    match group !! toolName with
    | Some definition => Some definition
    | None => mergeGroups groups !! toolName
    end.
Proof.
  unfold mergeGroups. rewrite foldl_snoc. unfold spread at 1.
  rewrite lookup_union. by destruct (group !! toolName), (foldl spread ∅ groups !! toolName).
Qed.

Lemma mergeGroups_undefined_after {V} (groups after : list (gmap string V)) toolName :
  Forall (λ g, g !! toolName = None) after →
  mergeGroups (groups ++ after) !! toolName = mergeGroups groups !! toolName.
Proof.
  induction after as [|g after IH] using rev_ind; intros Hnone.
  - by rewrite app_nil_r.
  - rewrite Forall_app, Forall_singleton in Hnone. destruct Hnone as [Hafter Hg].
    rewrite app_assoc, mergeGroups_snoc, Hg. by apply IH.
Qed.

(** C9. In a merge of groups a name is bound to the definition of the last
    group that defines it: whatever the groups before it define, and
    without any error. So a later group silently overwrites an earlier one,
    and a name only one group defines keeps that group's definition. The
    registry of abpTools is such a merge. *)
Theorem mergeGroups_last_wins (before after : list (gmap string (ToolHandler Num)))
    (group : gmap string (ToolHandler Num)) toolName (definition : ToolHandler Num) :
  group !! toolName = Some definition →
  Forall (λ g, g !! toolName = None) after →
  mergeGroups (before ++ group :: after) !! toolName = Some definition ∧
  (∀ apiClient : AbpApiClient Num,
     toolGroups apiClient = before ++ group :: after →
     abpTools apiClient !! toolName = Some definition).
Proof.
  intros Hdef Hafter.
  assert (Hmerged : mergeGroups (before ++ group :: after) !! toolName = Some definition).
  { rewrite (assoc_L (++) before [group] after
               : before ++ group :: after = (before ++ [group]) ++ after).
    rewrite mergeGroups_undefined_after by done.
    by rewrite mergeGroups_snoc, Hdef. }
  split; [done|]. intros apiClient Hgroups. unfold abpTools. by rewrite Hgroups.
Qed.

(** ** What the registry of abpTools holds *)

Implicit Types (apiClient : AbpApiClient Num).

Lemma infoOnlyToolNames_cases toolName :
  toolName ∈ infoOnlyToolNames →
  toolName ∈ ["abp_generate_component"; "abp_get_themes"; "abp_generate_form"] ∨
  toolName ∈ ["abp_get_info"; "abp_get_documentation"; "abp_get_help";
              "abp_list_available_modules"; "abp_list_ui_frameworks";
              "abp_list_database_providers"; "abp_get_cli_commands";
              "abp_get_best_practices"; "abp_get_troubleshooting_guide";
              "abp_get_ui_examples"].
Proof.
  unfold infoOnlyToolNames. intros Hin.
  repeat (apply elem_of_cons in Hin as [->|Hin];
          [first [left; by_decide | right; by_decide]|]).
  exfalso; exact (proj1 (elem_of_nil _) Hin).
Qed.

(** The ten allow-listed names no merged group defines. *)
Lemma unregistered_allowed_names apiClient toolName :
  toolName ∈ ["abp_get_info"; "abp_get_documentation"; "abp_get_help";
              "abp_list_available_modules"; "abp_list_ui_frameworks";
              "abp_list_database_providers"; "abp_get_cli_commands";
              "abp_get_best_practices"; "abp_get_troubleshooting_guide";
              "abp_get_ui_examples"] →
  abpTools apiClient !! toolName = None.
Proof.
  intros Hin. repeat (apply elem_of_cons in Hin as [->|Hin]; [by_lookup|]).
  exfalso; exact (proj1 (elem_of_nil _) Hin).
Qed.

(** No registered tool is named like a member of Object.prototype. *)
Lemma prototype_names_unregistered apiClient toolName :
  toolName ∈ objectPrototypeMembers → abpTools apiClient !! toolName = None.
Proof.
  unfold objectPrototypeMembers. intros Hin.
  repeat (apply elem_of_cons in Hin as [->|Hin]; [by_lookup|]).
  exfalso; exact (proj1 (elem_of_nil _) Hin).
Qed.

Lemma prototype_names_not_allowed toolName :
  toolName ∈ objectPrototypeMembers → toolName ∉ infoOnlyToolNames.
Proof.
  unfold objectPrototypeMembers. intros Hin.
  repeat (apply elem_of_cons in Hin as [->|Hin]; [apply (bool_decide_eq_false_1 _); vm_compute; reflexivity|]).
  exfalso; exact (proj1 (elem_of_nil _) Hin).
Qed.

(** The registered handler of abp_get_themes asks the collaborator for
    the themes whatever the credential: one exchange is added to the
    trace. *)
Lemma ui_get_themes_calls_out apiClient args remote tr :
  (ui_get_themes apiClient args remote tr).2 =
    tr ++ [(axiosRequest apiClient "get" "/api/themes" VUndefined VUndefined,
            remote tr (axiosRequest apiClient "get" "/api/themes" VUndefined VUndefined))].
Proof.
  unfold ui_get_themes, getThemes, client_get, bind, send, liftOutcome, ret.
  destruct (remote tr _) as [data|e]; [|done].
  by destruct (getProperty data "items") as [items|e];
    [destruct (getProperty (js_or items (VArr [])) "length")|].
Qed.

(** The registered generators post the validated arguments: one exchange
    is added to the trace, whatever the credential. *)
Lemma ui_generate_posts apiClient (args : JsValue Num) remote tr :
  (∀ validatedArgs : UiComponentArgs,
     parse uiComponentSchema args = Returned validatedArgs →
     (ui_generate_component apiClient args remote tr).2 =
       tr ++ [(axiosRequest apiClient "post" "/api/suite/components" VUndefined
                 (encodeUiComponentArgs validatedArgs),
               remote tr (axiosRequest apiClient "post" "/api/suite/components" VUndefined
                            (encodeUiComponentArgs validatedArgs)))]) ∧
  (∀ validatedArgs : FormArgs,
     parse uiFormSchema args = Returned validatedArgs →
     (ui_generate_form apiClient args remote tr).2 =
       tr ++ [(axiosRequest apiClient "post" "/api/suite/forms" VUndefined
                 (encodeUiFormArgs validatedArgs),
               remote tr (axiosRequest apiClient "post" "/api/suite/forms" VUndefined
                            (encodeUiFormArgs validatedArgs)))]).
Proof.
  split; intros validatedArgs Hparse.
  - unfold ui_generate_component, generateComponent, client_post.
    unfold bind, send, liftOutcome, ret. rewrite Hparse. by destruct (remote tr _).
  - unfold ui_generate_form, generateForm, client_post.
    unfold bind, send, liftOutcome, ret. rewrite Hparse. by destruct (remote tr _).
Qed.

(** C2. On the registry abpTools builds, the restricted-mode filter keeps
    exactly abp_generate_component, abp_get_themes and abp_generate_form,
    bound to the handlers of uiTools, which call the API (and are not the
    hybrid handlers of those names): the handler kept for abp_get_themes
    asks for /api/themes on every call, and the handlers kept for
    abp_generate_component and abp_generate_form post the validated
    arguments on every call whose arguments their schema accepts, whatever
    the credential. The ten other allow-listed names are defined by
    infoTools or hybridUiTools, which are not among the merged groups, and
    so are absent from the registry. *)
Theorem restricted_registry_is_three_ui_tools apiClient :
  filterInfoOnlyTools (abpTools apiClient) =
    objectLiteral
      [tool "uiTools" "abp_generate_component"
         "Generate reusable UI components (widgets, modals, partials, directives, pipes)"
         (ui_generate_component apiClient);
       tool "uiTools" "abp_get_themes" "Get all available ABP themes" (ui_get_themes apiClient);
       tool "uiTools" "abp_generate_form" "Generate complex forms with validation"
         (ui_generate_form apiClient)] ∧
  Forall (λ toolName,
            filterInfoOnlyTools (abpTools apiClient) !! toolName = uiTools apiClient !! toolName ∧
            filterInfoOnlyTools (abpTools apiClient) !! toolName
              ≠ hybridUiTools apiClient !! toolName)
         ["abp_generate_component"; "abp_get_themes"; "abp_generate_form"] ∧
  Forall (λ toolName,
            Forall (λ group, group !! toolName = None) (toolGroups apiClient) ∧
            abpTools apiClient !! toolName = None ∧
            (is_Some (infoTools apiClient !! toolName)
             ∨ is_Some (hybridUiTools apiClient !! toolName)))
         ["abp_get_info"; "abp_get_documentation"; "abp_get_help";
          "abp_list_available_modules"; "abp_list_ui_frameworks";
          "abp_list_database_providers"; "abp_get_cli_commands";
          "abp_get_best_practices"; "abp_get_troubleshooting_guide";
          "abp_get_ui_examples"] ∧
  (∀ args remote tr,
     (ui_get_themes apiClient args remote tr).2 =
       tr ++ [(axiosRequest apiClient "get" "/api/themes" VUndefined VUndefined,
               remote tr (axiosRequest apiClient "get" "/api/themes" VUndefined VUndefined))]) ∧
  (∃ component themes form : ToolHandler Num,
     filterInfoOnlyTools (abpTools apiClient) !! "abp_generate_component" = Some component ∧
     filterInfoOnlyTools (abpTools apiClient) !! "abp_get_themes" = Some themes ∧
     filterInfoOnlyTools (abpTools apiClient) !! "abp_generate_form" = Some form ∧
     ∀ (args : JsValue Num) remote tr,
       (execute themes args remote tr).2 =
         tr ++ [(axiosRequest apiClient "get" "/api/themes" VUndefined VUndefined,
                 remote tr (axiosRequest apiClient "get" "/api/themes" VUndefined VUndefined))] ∧
       (∀ validatedArgs : UiComponentArgs,
          parse uiComponentSchema args = Returned validatedArgs →
          (execute component args remote tr).2 =
            tr ++ [(axiosRequest apiClient "post" "/api/suite/components" VUndefined
                      (encodeUiComponentArgs validatedArgs),
                    remote tr (axiosRequest apiClient "post" "/api/suite/components" VUndefined
                                 (encodeUiComponentArgs validatedArgs)))]) ∧
       (∀ validatedArgs : FormArgs,
          parse uiFormSchema args = Returned validatedArgs →
          (execute form args remote tr).2 =
            tr ++ [(axiosRequest apiClient "post" "/api/suite/forms" VUndefined
                      (encodeUiFormArgs validatedArgs),
                    remote tr (axiosRequest apiClient "post" "/api/suite/forms" VUndefined
                                 (encodeUiFormArgs validatedArgs)))])).
Proof.
  split; [|split; [|split; [|split]]].
  - apply map_eq. intros toolName. rewrite filterInfoOnlyTools_lookup.
    destruct (decide (toolName ∈ infoOnlyToolNames)) as [Hin|Hout].
    + rewrite bool_decide_eq_true_2 by done.
      apply infoOnlyToolNames_cases in Hin as [Hin|Hin].
      * repeat (apply elem_of_cons in Hin as [->|Hin]; [by_lookup|]).
        exfalso; exact (proj1 (elem_of_nil _) Hin).
      * rewrite unregistered_allowed_names by done.
        repeat (apply elem_of_cons in Hin as [->|Hin]; [by_lookup|]).
        exfalso; exact (proj1 (elem_of_nil _) Hin).
    + rewrite bool_decide_eq_false_2 by done. symmetry.
      unfold objectLiteral, tool. cbn [foldl fst snd].
      rewrite !lookup_insert_ne, lookup_empty; [done|..];
        intros <-; apply Hout; by_decide.
  - apply Forall_forall. intros toolName Hin.
    repeat (apply elem_of_cons in Hin as [->|Hin];
            [split; rewrite filterInfoOnlyTools_lookup;
               [by_lookup
               |intros Heq; apply (f_equal (fmap description)) in Heq;
                vm_compute in Heq; discriminate Heq]|]).
    exfalso; exact (proj1 (elem_of_nil _) Hin).
  - apply Forall_forall. intros toolName Hin.
    repeat (apply elem_of_cons in Hin as [->|Hin];
            [split; [|split];
               [unfold toolGroups; repeat (apply Forall_cons_2; [by_lookup|]); apply Forall_nil_2
               |by_lookup
               |first [left; eexists; by_lookup | right; eexists; by_lookup]]|]).
    exfalso; exact (proj1 (elem_of_nil _) Hin).
  - apply ui_get_themes_calls_out.
  - exists (tool "uiTools" "abp_generate_component"
              "Generate reusable UI components (widgets, modals, partials, directives, pipes)"
              (ui_generate_component apiClient)).2,
           (tool "uiTools" "abp_get_themes" "Get all available ABP themes"
              (ui_get_themes apiClient)).2,
           (tool "uiTools" "abp_generate_form" "Generate complex forms with validation"
              (ui_generate_form apiClient)).2.
    repeat (split; [rewrite filterInfoOnlyTools_lookup; by_lookup|]).
    intros args remote tr. cbn [tool snd execute].
    split; [apply ui_get_themes_calls_out|apply ui_generate_posts].
Qed.

(** ** The dispatch loop *)

Implicit Types (options : Options) (request : CallToolRequest Num)
  (remote : Remote Num) (tr : Trace Num).

(** A name that is neither visible nor inherited is refused before
    anything else happens. *)
Lemma callTool_no_property options request remote tr :
  lookupProperty (toolHandlers options) (params_name request) = NoProperty →
  callTool options request remote tr =
    (Thrown (GenericError ("Unknown tool: " +:+ params_name request)), tr).
Proof. intros Hnone. unfold callTool. by rewrite Hnone. Qed.

(** Without a key and outside info-only mode every name the lookup finds
    is answered with the credential error, and nothing is executed. *)
Lemma callTool_credential_required options request remote tr :
  given (opt_apiKey options) = false →
  opt_infoOnlyMode options = false →
  lookupProperty (toolHandlers options) (params_name request) ≠ NoProperty →
  callTool options request remote tr = (Returned credentialRequired, tr).
Proof.
  intros Hkey Hmode Hfound. unfold callTool. rewrite Hkey, Hmode.
  by destruct (lookupProperty _ _).
Qed.

(** What a call of a visible tool leaves in the trace is what its handler
    leaves there, when the credential test lets the call through. *)
Lemma callTool_runs_handler options request handler remote tr :
  toolHandlers options !! params_name request = Some handler →
  negb (opt_infoOnlyMode options) && negb (given (opt_apiKey options)) = false →
  callTool options request remote tr =
    match execute handler (js_or (params_arguments request) (VObj [])) remote tr with
    | (Returned result, tr') =>
        (Returned {| content := [{| content_type := "text";
                                    content_text := JSON_stringify_indent2 result |}];
                     isError := None |}, tr')
    | (Thrown error, tr') =>
        (Returned {| content := [{| content_type := "text";
                                    content_text := Some ("Error: " +:+ errorMessage error) |}];
                     isError := Some true |}, tr')
    end.
Proof.
  intros Hfound Hgate. unfold callTool, lookupProperty. rewrite Hfound, Hgate.
  unfold tryCatch, bind, ret.
  by destruct (execute handler _ remote tr) as [[result|error] tr'].
Qed.

(** In info-only mode only three names are visible. *)
Lemma restricted_lookup options toolName :
  opt_infoOnlyMode options = true →
  toolName ∉ ["abp_generate_component"; "abp_get_themes"; "abp_generate_form"] →
  toolHandlers options !! toolName = None.
Proof.
  intros Hmode Hout. unfold toolHandlers. rewrite Hmode, filterInfoOnlyTools_lookup.
  case_bool_decide as Hin; [|done].
  apply infoOnlyToolNames_cases in Hin as [Hin|Hin]; [done|].
  by apply unregistered_allowed_names.
Qed.

(** C3, as the code has it. Take a registered tool that is not a hybrid
    one and let no API key be configured. In restricted (info-only) mode
    the call is refused as an unknown tool, by a thrown error: the tool is
    not in the filtered set. Outside restricted mode the call returns the
    result with isError = true whose text says that the API key is
    required. Either way the trace of HTTP exchanges is left as it was. *)
Theorem no_credential_call_of_registered_tool options request handler remote tr :
  given (opt_apiKey options) = false →
  abpTools (mainApiClient options) !! params_name request = Some handler →
  params_name request ∉ hybridToolNames →
  callTool options request remote tr =
    if opt_infoOnlyMode options
    then (Thrown (GenericError ("Unknown tool: " +:+ params_name request)), tr)
    else (Returned credentialRequired, tr).
Proof.
  intros Hkey Hregistered Hplain.
  assert (Hown : params_name request ∉ objectPrototypeMembers).
  { intros Hin. apply (prototype_names_unregistered (mainApiClient options)) in Hin.
    congruence. }
  destruct (opt_infoOnlyMode options) eqn:Hmode.
  - apply callTool_no_property. unfold lookupProperty.
    rewrite restricted_lookup; [by rewrite bool_decide_eq_false_2|done|].
    intros Hin. apply Hplain. unfold hybridToolNames.
    repeat (apply elem_of_cons in Hin as [->|Hin]; [by_decide|]).
    exfalso; exact (proj1 (elem_of_nil _) Hin).
  - apply callTool_credential_required; [done..|].
    unfold lookupProperty, toolHandlers. by rewrite Hmode, Hregistered.
Qed.

(** C6, where the code departs from it. A call of the tool name toString,
    which no mode makes visible, is not refused as an unknown tool: the
    lookup finds Object.prototype.toString, so the call is answered like a
    call of a visible tool, with the credential error or, once the
    execute member is called, with the error of calling what is not a
    function. *)
Theorem callTool_inherited_name_is_not_unknown options (args : JsValue Num) remote tr :
  callTool options {| params_name := "toString"; params_arguments := args |} remote tr =
    (Returned
       (if negb (opt_infoOnlyMode options) && negb (given (opt_apiKey options))
        then credentialRequired
        else {| content :=
                  [{| content_type := "text";
                      content_text := Some "Error: handler.execute is not a function" |}];
                isError := Some true |}),
     tr).
Proof.
  assert (Hfound : lookupProperty (toolHandlers options) "toString" = InheritedMember).
  { unfold lookupProperty, toolHandlers.
    destruct (opt_infoOnlyMode options).
    - rewrite filterInfoOnlyTools_lookup. by_lookup.
    - by_lookup. }
  unfold callTool. cbn [params_name params_arguments]. rewrite Hfound.
  by destruct (negb (opt_infoOnlyMode options) && negb (given (opt_apiKey options))).
Qed.

Lemma serve_app options (before after : list (CallToolRequest Num)) remote tr :
  serve options (before ++ after) remote tr =
    let '(responses1, tr1) := serve options before remote tr in
    let '(responses2, tr2) := serve options after remote tr1 in
    (responses1 ++ responses2, tr2).
Proof.
  revert tr. induction before as [|request before IH]; intros tr.
  - cbn. by destruct (serve options after remote tr).
  - cbn [app serve]. destruct (callTool options request remote tr) as [outcome tr'].
    rewrite IH. destruct (serve options before remote tr') as [responses1 tr1].
    by destruct (serve options after remote tr1).
Qed.

(** X1 (what holds of C6). In every mode a call of a name that is neither in
    the visible set nor a member of Object.prototype (abp_does_not_exist is
    such a name) throws the error Unknown tool: name, with no HTTP exchange,
    and in a session only that request is answered with the error: the
    requests before and after it are served as if it had not been made. *)
Theorem unknown_tool_is_refused options request remote tr
    (before after : list (CallToolRequest Num)) :
  toolHandlers options !! params_name request = None →
  params_name request ∉ objectPrototypeMembers →
  callTool options request remote tr =
    (Thrown (GenericError ("Unknown tool: " +:+ params_name request)), tr) ∧
  serve options (before ++ request :: after) remote tr =
    let '(responses1, tr1) := serve options before remote tr in
    let '(responses2, tr2) := serve options after remote tr1 in
    (responses1 ++ ErrorResponse ("Unknown tool: " +:+ params_name request) :: responses2, tr2).
Proof.
  intros Hnone Hown.
  assert (Hcall : ∀ tr', callTool options request remote tr' =
            (Thrown (GenericError ("Unknown tool: " +:+ params_name request)), tr')).
  { intros tr'. apply callTool_no_property. unfold lookupProperty.
    by rewrite Hnone, bool_decide_eq_false_2. }
  split; [apply Hcall|].
  rewrite serve_app. destruct (serve options before remote tr) as [responses1 tr1].
  cbn [serve]. rewrite Hcall. cbn [errorMessage].
  by destruct (serve options after remote tr1).
Qed.

Lemma does_not_exist_is_unknown options :
  toolHandlers options !! "abp_does_not_exist" = None ∧
  "abp_does_not_exist" ∉ objectPrototypeMembers.
Proof.
  split.
  - unfold toolHandlers. destruct (opt_infoOnlyMode options).
    + rewrite filterInfoOnlyTools_lookup. by_lookup.
    + by_lookup.
  - apply (bool_decide_eq_false_1 _). vm_compute. reflexivity.
Qed.

(** X4. In info-only mode, whatever the API key, a call of abp_get_themes
    through the dispatcher runs the handler of uiTools: it asks the
    collaborator for /api/themes, and that exchange is what the call adds to
    the trace. *)
Theorem restricted_get_themes_calls_out options (args : JsValue Num) remote tr :
  opt_infoOnlyMode options = true →
  (callTool options {| params_name := "abp_get_themes"; params_arguments := args |}
     remote tr).2 =
    tr ++ [(axiosRequest (mainApiClient options) "get" "/api/themes" VUndefined VUndefined,
            remote tr
              (axiosRequest (mainApiClient options) "get" "/api/themes" VUndefined VUndefined))].
Proof.
  intros Hmode.
  assert (Hfound : lookupProperty (toolHandlers options) "abp_get_themes" =
            OwnHandler (tool "uiTools" "abp_get_themes" "Get all available ABP themes"
                          (ui_get_themes (mainApiClient options))).2).
  { unfold lookupProperty, toolHandlers. rewrite Hmode, filterInfoOnlyTools_lookup. by_lookup. }
  unfold callTool. cbn [params_name params_arguments]. rewrite Hfound, Hmode.
  cbn [negb andb tool snd execute].
  rewrite <- (ui_get_themes_calls_out (mainApiClient options) (js_or args (VObj [])) remote tr).
  unfold tryCatch, bind, ret.
  by destruct (ui_get_themes (mainApiClient options) (js_or args (VObj [])) remote tr)
    as [[result|e] tr'].
Qed.

(** C1, where the code departs from it. The hybrid handlers are in no
    group that abpTools merges, so a call of a hybrid tool's name reaches
    the handlers of uiTools or nothing. In info-only mode with no API key,
    a call of abp_get_themes asks the collaborator for /api/themes, with
    an empty bearer token, and when that request is rejected the answer
    is the result with isError = true, not a static one; calls of
    abp_generate_component and abp_generate_form with arguments their
    schema accepts post them to the collaborator; and a call of
    abp_get_ui_examples is refused as an unknown tool. *)
Theorem restricted_hybrid_names_reach_the_api (url : string) (args : JsValue Num) remote tr :
  let options :=
    {| opt_apiKey := None; opt_baseUrl := url; opt_infoOnlyMode := true; opt_stdio := true |} in
  let themes := axiosRequest (mainApiClient options) "get" "/api/themes" VUndefined VUndefined in
  req_authorization themes = "Bearer " ∧
  (callTool options {| params_name := "abp_get_themes"; params_arguments := args |}
     remote tr).2 = tr ++ [(themes, remote tr themes)] ∧
  (∀ e,
     remote tr themes = Rejected e →
     callTool options {| params_name := "abp_get_themes"; params_arguments := args |}
       remote tr =
       (Returned {| content := [{| content_type := "text";
                                   content_text := Some ("Error: " +:+ errorMessage e) |}];
                    isError := Some true |},
        tr ++ [(themes, Rejected e)])) ∧
  (∀ validatedArgs : UiComponentArgs,
     parse uiComponentSchema (js_or args (VObj [])) = Returned validatedArgs →
     let asked :=
       axiosRequest (mainApiClient options) "post" "/api/suite/components" VUndefined
         (encodeUiComponentArgs validatedArgs) in
     (callTool options {| params_name := "abp_generate_component"; params_arguments := args |}
        remote tr).2 = tr ++ [(asked, remote tr asked)]) ∧
  (∀ validatedArgs : FormArgs,
     parse uiFormSchema (js_or args (VObj [])) = Returned validatedArgs →
     let asked :=
       axiosRequest (mainApiClient options) "post" "/api/suite/forms" VUndefined
         (encodeUiFormArgs validatedArgs) in
     (callTool options {| params_name := "abp_generate_form"; params_arguments := args |}
        remote tr).2 = tr ++ [(asked, remote tr asked)]) ∧
  callTool options {| params_name := "abp_get_ui_examples"; params_arguments := args |}
    remote tr = (Thrown (GenericError "Unknown tool: abp_get_ui_examples"), tr).
Proof.
  intros options themes.
  assert (Hthemes : toolHandlers options !! "abp_get_themes" =
            Some (tool "uiTools" "abp_get_themes" "Get all available ABP themes"
                    (ui_get_themes (mainApiClient options))).2).
  { unfold toolHandlers. cbn [opt_infoOnlyMode options].
    rewrite filterInfoOnlyTools_lookup. by_lookup. }
  assert (Hcomponent : toolHandlers options !! "abp_generate_component" =
            Some (tool "uiTools" "abp_generate_component"
                    "Generate reusable UI components (widgets, modals, partials, directives, pipes)"
                    (ui_generate_component (mainApiClient options))).2).
  { unfold toolHandlers. cbn [opt_infoOnlyMode options].
    rewrite filterInfoOnlyTools_lookup. by_lookup. }
  assert (Hform : toolHandlers options !! "abp_generate_form" =
            Some (tool "uiTools" "abp_generate_form" "Generate complex forms with validation"
                    (ui_generate_form (mainApiClient options))).2).
  { unfold toolHandlers. cbn [opt_infoOnlyMode options].
    rewrite filterInfoOnlyTools_lookup. by_lookup. }
  split; [reflexivity|]. split; [|split; [|split; [|split]]].
  - rewrite (callTool_runs_handler options
               {| params_name := "abp_get_themes"; params_arguments := args |} _ remote tr
               Hthemes eq_refl).
    cbn [params_arguments tool snd execute].
    subst themes.
    rewrite <- (ui_get_themes_calls_out (mainApiClient options) (js_or args (VObj [])) remote tr).
    by destruct (ui_get_themes _ _ remote tr) as [[result|e] tr'].
  - intros e Hrejected.
    rewrite (callTool_runs_handler options
               {| params_name := "abp_get_themes"; params_arguments := args |} _ remote tr
               Hthemes eq_refl).
    cbn [params_arguments tool snd execute].
    unfold ui_get_themes, getThemes, client_get. unfold bind, send, liftOutcome, ret.
    subst themes. by rewrite Hrejected.
  - intros validatedArgs Hparse asked.
    rewrite (callTool_runs_handler options
               {| params_name := "abp_generate_component"; params_arguments := args |} _ remote tr
               Hcomponent eq_refl).
    cbn [params_arguments tool snd execute]. subst asked.
    rewrite <- (proj1 (ui_generate_posts (mainApiClient options) (js_or args (VObj []))
                         remote tr) validatedArgs Hparse).
    by destruct (ui_generate_component _ _ remote tr) as [[result|e] tr'].
  - intros validatedArgs Hparse asked.
    rewrite (callTool_runs_handler options
               {| params_name := "abp_generate_form"; params_arguments := args |} _ remote tr
               Hform eq_refl).
    cbn [params_arguments tool snd execute]. subst asked.
    rewrite <- (proj2 (ui_generate_posts (mainApiClient options) (js_or args (VObj []))
                         remote tr) validatedArgs Hparse).
    by destruct (ui_generate_form _ _ remote tr) as [[result|e] tr'].
  - apply callTool_no_property. cbn [params_name]. unfold lookupProperty.
    rewrite restricted_lookup;
      [|reflexivity|apply (bool_decide_eq_false_1 _); vm_compute; reflexivity].
    rewrite bool_decide_eq_false_2; [done|].
    apply (bool_decide_eq_false_1 _). vm_compute. reflexivity.
Qed.

(** ** The API client's list endpoints *)

(** C10, where the code departs from it. Six list endpoints return
    [response.data.items || []]: when the collaborator answers with a bare
    array, whatever its elements, each of them returns the empty array. *)
Theorem bare_array_answer_is_discarded apiClient (elements : list (JsValue Num)) tr :
  let remote : Remote Num := λ _ _, Resolved (VArr elements) in
  (getThemes apiClient remote tr).1 = Returned (VArr []) ∧
  (getLayouts apiClient remote tr).1 = Returned (VArr []) ∧
  (getMenus apiClient remote tr).1 = Returned (VArr []) ∧
  (getWidgets apiClient remote tr).1 = Returned (VArr []) ∧
  (getLocalizationResources apiClient remote tr).1 = Returned (VArr []) ∧
  (getSupportedCultures apiClient remote tr).1 = Returned (VArr []).
Proof. repeat split; run_client; reflexivity. Qed.

(** X3 (what holds of C10). The nine endpoints that return
    [response.data.items || response.data] return a bare array as it is,
    and all fifteen return the items array of an envelope. *)
Theorem list_endpoints_unwrap apiClient (elements : list (JsValue Num))
    (more : list (string * JsValue Num)) (namespace providerName providerKey filter startDate
    endDate userId jobType : option string) (groupName : string) (maxResultCount : option Num)
    tr :
  let bare : Remote Num := λ _ _, Resolved (VArr elements) in
  let envelope : Remote Num := λ _ _, Resolved (VObj (("items", VArr elements) :: more)) in
  Forall (λ endpoint : Exec (JsValue Num),
            (endpoint bare tr).1 = Returned (VArr elements) ∧
            (endpoint envelope tr).1 = Returned (VArr elements))
    [getApplications apiClient;
     getModules apiClient;
     getEntities apiClient namespace;
     getPermissions apiClient providerName providerKey;
     getPermissionsByGroup apiClient groupName;
     getUsers apiClient filter maxResultCount;
     getTenants apiClient filter;
     getAuditLogs apiClient startDate endDate userId;
     getBackgroundJobs apiClient jobType] ∧
  Forall (λ endpoint : Exec (JsValue Num),
            (endpoint envelope tr).1 = Returned (VArr elements))
    [getThemes apiClient;
     getLayouts apiClient;
     getMenus apiClient;
     getWidgets apiClient;
     getLocalizationResources apiClient;
     getSupportedCultures apiClient].
Proof.
  intros bare envelope. split.
  - repeat (apply Forall_cons_2; [split; run_client; reflexivity|]). apply Forall_nil_2.
  - repeat (apply Forall_cons_2; [run_client; reflexivity|]). apply Forall_nil_2.
Qed.

(** ** Argument validation of abp_grant_permission *)

Lemma permissionSchema_rejects (args : JsValue Num) :
  providerNameEnumerated args = false →
  ∃ issues, permissionSchema [] args = PInvalid issues.
Proof.
  unfold providerNameEnumerated, permissionSchema, z_object, key, shape.
  destruct args as [| | | | | |props]; try (intros _; eexists; reflexivity).
  cbn [app]. intros Hnot.
  assert (Hname : ∃ issues,
            z_enum ["R"; "U"] [PKey "providerName"]
              (default VUndefined (ownProperty props "providerName")) = PInvalid issues).
  { unfold z_enum. revert Hnot.
    destruct (ownProperty props "providerName") as [[| | | |s| |]|];
      cbn [default from_option id]; intros Hnot; try (eexists; reflexivity).
    rewrite Hnot. eexists; reflexivity. }
  destruct Hname as [issues ->].
  destruct (z_string [PKey "providerKey"] _), (z_string [PKey "permissionName"] _);
    eexists; reflexivity.
Qed.

(** C8. The registered abp_grant_permission, called with arguments whose
    providerName is not one of R and U, throws the validation error and
    leaves the trace of HTTP exchanges as it was; so whenever a call of it
    adds an exchange to the trace, the providerName was R or U. *)
Theorem grant_permission_validates_provider apiClient handler (args : JsValue Num) remote tr :
  permissionTools apiClient !! "abp_grant_permission" = Some handler →
  (providerNameEnumerated args = false →
   ∃ issues, execute handler args remote tr = (Thrown (ZodError issues), tr)) ∧
  ((execute handler args remote tr).2 ≠ tr → providerNameEnumerated args = true).
Proof.
  intros Hregistered.
  assert (Hhandler : execute handler = abp_grant_permission_execute apiClient).
  { assert (Hlit : permissionTools apiClient !! "abp_grant_permission" =
              Some (tool "permissionTools" "abp_grant_permission"
                      "Grant a permission to a user or role"
                      (abp_grant_permission_execute apiClient)).2) by by_lookup.
    rewrite Hregistered in Hlit. by injection Hlit as ->. }
  assert (Hrejects : providerNameEnumerated args = false →
            ∃ issues, execute handler args remote tr = (Thrown (ZodError issues), tr)).
  { intros [issues Hinvalid]%permissionSchema_rejects. exists issues.
    rewrite Hhandler. unfold abp_grant_permission_execute, bind, liftOutcome, parse.
    by rewrite Hinvalid. }
  split; [done|].
  intros Hcalled. destruct (providerNameEnumerated args) eqn:Henum; [done|].
  destruct Hrejects as [issues Heq]; [done|]. by rewrite Heq in Hcalled.
Qed.

(** ** Conversion to string and the static templates *)

Lemma toStringJs_convertible (v : JsValue Num) :
  convertible v = true → ∃ s, toStringJs v = Returned s.
Proof.
  induction v as [| |b|n|s|xs IH|props _] using JsValue_nested_ind;
    cbn [toStringJs convertible]; try (intros _; eexists; reflexivity).
  - intros Hall.
    assert (Helements : ∃ ss,
      (fix elements (l : list (JsValue Num)) : Outcome (list string) :=
         match l with
         | [] => Returned []
         | x :: rest =>
             obind match x with
                   | VUndefined | VNull => Returned EmptyString
                   | _ => toStringJs x
                   end
               (λ s, obind (elements rest) (λ ss, Returned (s :: ss)))
         end) xs = Returned ss).
    { induction IH as [|x xs Hx _ IHxs].
      - eexists; reflexivity.
      - apply andb_prop in Hall as [Hconv Hall].
        destruct (IHxs Hall) as [ss Hss].
        assert (Hhead : ∃ s, match x with
                             | VUndefined | VNull => Returned EmptyString
                             | _ => toStringJs x
                             end = Returned s).
        { destruct (Hx Hconv) as [s Hs]. destruct x; eauto. }
        destruct Hhead as [s Hs]. rewrite Hs, Hss. eexists; reflexivity. }
    destruct Helements as [ss ->]. eexists; reflexivity.
  - destruct (ownProperty props "toString"); [discriminate|]. intros _. eexists; reflexivity.
Qed.

Lemma mapOutcome_returns {A B} (p : A → bool) (f : A → Outcome B) (xs : list A) :
  (∀ x, p x = true → ∃ y, f x = Returned y) →
  forallb p xs = true →
  ∃ ys, mapOutcome f xs = Returned ys.
Proof.
  intros Hf. induction xs as [|x xs IH]; cbn [forallb mapOutcome].
  - intros _. eexists; reflexivity.
  - intros [Hx Hxs]%andb_prop. destruct (Hf x Hx) as [y ->].
    destruct (IH Hxs) as [ys ->]. eexists; reflexivity.
Qed.

Lemma renderFormControl_returns (field : FormField) :
  fieldConvertible field = true → ∃ s, renderFormControl field = Returned s.
Proof.
  intros [Hdefault _]%andb_prop. unfold renderFormControl.
  destruct (toStringJs_convertible _ Hdefault) as [s ->]. eexists; reflexivity.
Qed.

Lemma renderField_returns (field : FormField) :
  fieldConvertible field = true → ∃ s, renderField field = Returned s.
Proof.
  intros [_ Hoptions]%andb_prop. unfold renderField.
  destruct (bool_decide (ff_type field = "select")).
  - destruct (ff_options field) as [opts|]; cbn [default from_option id] in Hoptions.
    + destruct (mapOutcome_returns (λ opt, convertible (fo_value opt)) renderOption opts)
        as [rendered ->]; [|done|eexists; reflexivity].
      intros opt Hopt. unfold renderOption.
      destruct (toStringJs_convertible _ Hopt) as [s ->]. eexists; reflexivity.
    + eexists; reflexivity.
  - destruct (bool_decide (ff_type field = "textarea")); [eexists; reflexivity|].
    destruct (bool_decide (ff_type field = "checkbox")); eexists; reflexivity.
Qed.

(** The static form is produced whenever every interpolated value
    converts to a string. *)
Lemma generateStaticForm_returns (args : FormArgs) :
  formConvertible args = true → ∃ result, generateStaticForm args = Returned result.
Proof.
  intros Hconv. unfold generateStaticForm, generateAngularForm, generateAngularFormTemplate.
  destruct (mapOutcome_returns fieldConvertible renderFormControl (fa_fields args))
    as [controls ->]; [apply renderFormControl_returns|done|].
  destruct (mapOutcome_returns fieldConvertible renderField (fa_fields args))
    as [rendered ->]; [apply renderField_returns|done|].
  eexists; reflexivity.
Qed.

(** Whatever the static generators return is marked as static and
    successful. *)
Lemma generateStaticForm_marks (args : FormArgs) (result : JsValue Num) :
  generateStaticForm args = Returned result →
  getProperty result "success" = Returned (VBool true) ∧
  getProperty result "mode" = Returned (VStr "static").
Proof.
  unfold generateStaticForm. destruct (generateAngularForm args) as [angular|e]; [|discriminate].
  cbn [obind]. intros [= <-]. split; reflexivity.
Qed.

Lemma generateStaticComponent_marks (args : ComponentArgs) :
  getProperty (generateStaticComponent args) "success" = Returned (VBool true) ∧
  getProperty (generateStaticComponent args) "mode" = Returned (VStr "static").
Proof. split; reflexivity. Qed.

Lemma getUiExamples_marks (framework category : string) :
  getProperty (getUiExamples framework category) "success" = Returned (VBool true) ∧
  getProperty (getUiExamples framework category) "mode" = Returned (VStr "static").
Proof. unfold getUiExamples. destruct (bool_decide (category = "all")); split; reflexivity. Qed.



(** ** The hybrid handlers *)

Lemma hybridUiTools_cases apiClient toolName handler :
  hybridUiTools apiClient !! toolName = Some handler →
  (toolName = "abp_generate_component" ∧ execute handler = hybrid_generate_component apiClient) ∨
  (toolName = "abp_get_themes" ∧ execute handler = hybrid_get_themes apiClient) ∨
  (toolName = "abp_generate_form" ∧ execute handler = hybrid_generate_form apiClient) ∨
  (toolName = "abp_get_ui_examples" ∧ execute handler = hybrid_get_ui_examples apiClient).
Proof.
  unfold hybridUiTools, objectLiteral, tool. cbn [foldl fst snd]. intros Hin.
  apply lookup_insert_Some in Hin as [[<- <-]|[_ Hin]]; [tauto|].
  apply lookup_insert_Some in Hin as [[<- <-]|[_ Hin]]; [tauto|].
  apply lookup_insert_Some in Hin as [[<- <-]|[_ Hin]]; [tauto|].
  apply lookup_insert_Some in Hin as [[<- <-]|[_ Hin]]; [tauto|].
  by rewrite lookup_empty in Hin.
Qed.

Lemma no_credential_is_info_only apiClient :
  apiKey (config apiClient) = EmptyString → isInfoOnlyMode (Some apiClient) = true.
Proof. intros Hkey. unfold isInfoOnlyMode. by rewrite Hkey. Qed.

Lemma credential_is_not_info_only apiClient :
  apiKey (config apiClient) ≠ EmptyString → isInfoOnlyMode (Some apiClient) = false.
Proof. intros Hkey. unfold isInfoOnlyMode. by rewrite bool_decide_eq_false_2. Qed.

(** X23 (what holds of C1). Let no credential be configured and take any
    of the four hybrid handlers. Its execute adds no HTTP exchange to the
    trace and its outcome is the same whatever the collaborator would
    answer. Arguments the tool's schema rejects make it throw the
    validation error. Arguments the schema accepts, all of whose
    interpolated free-form values convert to strings, make it return a
    result with success = true and mode = static. *)
Theorem hybrid_static_without_credential apiClient toolName handler (args : JsValue Num)
    remote tr :
  apiKey (config apiClient) = EmptyString →
  hybridUiTools apiClient !! toolName = Some handler →
  (execute handler args remote tr).2 = tr ∧
  (∀ remote' tr', (execute handler args remote' tr').1 = (execute handler args remote tr).1) ∧
  (hybridSchemaAccepts toolName args = false →
   ∃ issues, (execute handler args remote tr).1 = Thrown (ZodError issues)) ∧
  (hybridSchemaAccepts toolName args = true →
   hybridValuesConvertible toolName args = true →
   ∃ result,
     (execute handler args remote tr).1 = Returned result ∧
     getProperty result "success" = Returned (VBool true) ∧
     getProperty result "mode" = Returned (VStr "static")).
Proof.
  intros Hkey%no_credential_is_info_only Hin.
  apply hybridUiTools_cases in Hin as [[-> ->]|[[-> ->]|[[-> ->]|[-> ->]]]].
  - change (hybridSchemaAccepts "abp_generate_component" args)
      with (accepts componentSchema args).
    unfold hybrid_generate_component, accepts, bind, liftOutcome, parse, ret. rewrite Hkey.
    destruct (componentSchema [] args) as [parsed|issues]; cbn [fst snd].
    + repeat split; [discriminate|]. intros _ _. eexists. split; [reflexivity|].
      apply generateStaticComponent_marks.
    + repeat split; [|discriminate]. intros _. by eexists.
  - unfold hybrid_get_themes, ret. rewrite Hkey. cbn [fst snd].
    repeat split; [discriminate|]. intros _ _. eexists. repeat split; reflexivity.
  - change (hybridSchemaAccepts "abp_generate_form" args) with (accepts formSchema args).
    change (hybridValuesConvertible "abp_generate_form" args)
      with (match formSchema [] args with
            | PValid parsed => formConvertible parsed
            | PInvalid _ => true
            end).
    unfold hybrid_generate_form, accepts, bind, liftOutcome, parse, ret. rewrite Hkey.
    destruct (formSchema [] args) as [parsed|issues]; cbn [fst snd].
    + repeat split; [discriminate|]. intros _ Hconv.
      destruct (generateStaticForm_returns parsed Hconv) as [result Hresult].
      exists result. split; [done|]. by apply generateStaticForm_marks in Hresult.
    + repeat split; [|discriminate]. intros _. by eexists.
  - change (hybridSchemaAccepts "abp_get_ui_examples" args)
      with (accepts uiExamplesSchema args).
    unfold hybrid_get_ui_examples, accepts, bind, liftOutcome, parse, ret.
    destruct (uiExamplesSchema [] args) as [parsed|issues]; cbn [fst snd].
    + repeat split; [discriminate|]. intros _ _. eexists. split; [reflexivity|].
      apply getUiExamples_marks.
    + repeat split; [|discriminate]. intros _. by eexists.
Qed.

(** C5, where the code departs from it. With a credential configured and
    a collaborator that rejects the call, abp_generate_form falls back to
    the static template; for a field whose default value is an object with
    an own property named toString (arguments the schema accepts: the
    default value is z.any()), the template interpolation throws, inside
    the catch block, and execute throws that TypeError. *)
Theorem hybrid_form_fallback_can_throw (url : string) (e : JsError) tr :
  (hybrid_generate_form
     {| config := {| baseUrl := url; apiKey := "secret"; timeout := None |} |}
     (VObj [("name", VStr "F");
            ("fields", VArr [VObj [("name", VStr "a");
                                   ("type", VStr "text");
                                   ("label", VStr "A");
                                   ("defaultValue", VObj [("toString", VNull)])]])])
     (λ _ _, Rejected e) tr).1
  = Thrown (TypeError "Cannot convert object to primitive value").
Proof. reflexivity. Qed.


(** * Further properties of the code *)

(** ** The dispatch loop, whatever the handlers *)

(** X5. The only error that escapes the dispatcher is Unknown tool. If a
    call throws, the error is Unknown tool: name, no HTTP exchange was
    made, and the name is neither visible nor a member of
    Object.prototype. Whatever the handler of a visible tool throws, once
    the credential test has let the call through, is caught and returned
    as the result with isError = true whose text is Error: followed by
    the message of the error; what the handler returns is returned as
    JSON text with no isError. Either way the trace is as the handler left
    it. *)
Theorem callTool_throws_only_unknown_tool options request remote tr :
  (∀ e tr',
     callTool options request remote tr = (Thrown e, tr') →
     e = GenericError ("Unknown tool: " +:+ params_name request) ∧
     tr' = tr ∧
     toolHandlers options !! params_name request = None ∧
     params_name request ∉ objectPrototypeMembers) ∧
  (∀ handler,
     toolHandlers options !! params_name request = Some handler →
     opt_infoOnlyMode options = true ∨ given (opt_apiKey options) = true →
     (∀ error tr',
        execute handler (js_or (params_arguments request) (VObj [])) remote tr
          = (Thrown error, tr') →
        callTool options request remote tr =
          (Returned {| content :=
                         [{| content_type := "text";
                             content_text := Some ("Error: " +:+ errorMessage error) |}];
                       isError := Some true |},
           tr')) ∧
     (∀ (result : JsValue Num) tr',
        execute handler (js_or (params_arguments request) (VObj [])) remote tr
          = (Returned result, tr') →
        callTool options request remote tr =
          (Returned {| content :=
                         [{| content_type := "text";
                             content_text := JSON_stringify_indent2 result |}];
                       isError := None |},
           tr'))).
Proof.
  split.
  - intros e tr'. unfold callTool, lookupProperty.
    destruct (toolHandlers options !! params_name request) as [handler|] eqn:Hlookup.
    + destruct (negb (opt_infoOnlyMode options) && negb (given (opt_apiKey options)));
        [discriminate|].
      unfold tryCatch, bind, ret.
      by destruct (execute handler _ remote tr) as [[result|error] tr''].
    + case_bool_decide as Hin.
      * destruct (negb (opt_infoOnlyMode options) && negb (given (opt_apiKey options)));
          discriminate.
      * unfold throw. by intros [= <- <-].
  - intros handler Hfound Hgate.
    assert (Hthrough :
              negb (opt_infoOnlyMode options) && negb (given (opt_apiKey options)) = false).
    { destruct Hgate as [-> | ->]; [done|]. by destruct (opt_infoOnlyMode options). }
    rewrite (callTool_runs_handler options request handler remote tr Hfound Hthrough).
    split; intros ? tr' ->; reflexivity.
Qed.



(** ** The list of tools *)

Lemma objectLiteral_namedByKey (entries : list (string * ToolHandler Num)) :
  Forall (λ entry, name entry.2 = entry.1) entries → namedByKey (objectLiteral entries).
Proof.
  unfold objectLiteral.
  assert (Hfold : ∀ table, namedByKey table →
            Forall (λ entry, name entry.2 = entry.1) entries →
            namedByKey (foldl (λ o e, <[e.1 := e.2]> o) table entries)).
  { induction entries as [|[k h] entries IH]; intros table Htable Hall; [done|].
    apply Forall_cons in Hall as [Hname Hall]. cbn [foldl fst snd].
    apply IH; [|done]. by apply map_Forall_insert_2. }
  apply Hfold. apply map_Forall_empty.
Qed.

Lemma spread_namedByKey (target source : gmap string (ToolHandler Num)) :
  namedByKey target → namedByKey source → namedByKey (spread target source).
Proof.
  intros Htarget Hsource toolName handler. unfold spread.
  intros [Hin|[_ Hin]]%lookup_union_Some_raw; [by apply Hsource|by apply Htarget].
Qed.

Lemma abpTools_namedByKey apiClient : namedByKey (abpTools apiClient).
Proof.
  unfold abpTools, toolGroups, mergeGroups. cbn [foldl].
  repeat (apply spread_namedByKey;
          [|apply objectLiteral_namedByKey;
            repeat (apply Forall_cons_2; [reflexivity|]); apply Forall_nil_2]).
  apply map_Forall_empty.
Qed.

Lemma toolHandlers_namedByKey options : namedByKey (toolHandlers options).
Proof.
  unfold toolHandlers. destruct (opt_infoOnlyMode options); [|apply abpTools_namedByKey].
  intros toolName handler. rewrite filterInfoOnlyTools_lookup.
  case_bool_decide; [apply abpTools_namedByKey|discriminate].
Qed.

Lemma listTools_names options :
  tool_name <$> listTools options = (map_to_list (toolHandlers options)).*1.
Proof.
  unfold listTools. rewrite <- !list_fmap_compose.
  apply Forall_fmap_ext_1, Forall_forall. intros [toolName handler] Hin%elem_of_map_to_list.
  exact (toolHandlers_namedByKey options toolName handler Hin).
Qed.

Lemma dom_objectLiteral {V} (entries : list (string * V)) :
  dom (objectLiteral entries) = list_to_set entries.*1.
Proof.
  unfold objectLiteral.
  assert (Hfold : ∀ table : gmap string V,
            dom (foldl (λ o e, <[e.1 := e.2]> o) table entries)
            = list_to_set entries.*1 ∪ dom table).
  { induction entries as [|[k v] entries IH]; intros table; cbn [foldl fmap list_fmap fst snd].
    - cbn [list_to_set]. by rewrite (left_id_L ∅ (∪)).
    - rewrite IH, dom_insert_L. cbn [list_to_set].
      rewrite (comm_L (∪) {[k]} (list_to_set entries.*1)). by rewrite (assoc_L (∪)). }
  rewrite Hfold, dom_empty_L. by rewrite (right_id_L ∅ (∪)).
Qed.

Lemma dom_filterInfoOnlyTools allTools :
  dom (filterInfoOnlyTools allTools) = dom allTools ∩ list_to_set infoOnlyToolNames.
Proof.
  apply set_eq. intros toolName.
  rewrite elem_of_intersection, !elem_of_dom, elem_of_list_to_set, filterInfoOnlyTools_lookup.
  case_bool_decide; [tauto|]. split; [by intros [? ?]|tauto].
Qed.

Lemma size_abpTools apiClient : size (abpTools apiClient) = 58.
Proof.
  rewrite <- size_dom.
  unfold abpTools, toolGroups, mergeGroups. cbn [foldl]. unfold spread.
  rewrite !dom_union_L, dom_empty_L.
  unfold applicationTools, moduleTools, entityTools, userTools, tenantTools, permissionTools,
    auditTools, backgroundJobTools, uiTools.
  rewrite !dom_objectLiteral.
  unfold tool. cbn [fmap list_fmap fst].
  vm_compute. reflexivity.
Qed.

Lemma size_restricted apiClient : size (filterInfoOnlyTools (abpTools apiClient)) = 3.
Proof.
  rewrite <- size_dom, dom_filterInfoOnlyTools.
  unfold abpTools, toolGroups, mergeGroups. cbn [foldl]. unfold spread.
  rewrite !dom_union_L, dom_empty_L.
  unfold applicationTools, moduleTools, entityTools, userTools, tenantTools, permissionTools,
    auditTools, backgroundJobTools, uiTools.
  rewrite !dom_objectLiteral.
  unfold tool. cbn [fmap list_fmap fst].
  vm_compute. reflexivity.
Qed.

(** X7. The list of tools names every visible handler once: a name is
    listed exactly when the table of the current mode has an entry for it,
    each listed tool carries the description and the input schema of that
    entry, and the list has 58 tools outside info-only mode and 3 in it. *)
Theorem listed_tools_are_the_callable_names options :
  NoDup (tool_name <$> listTools options) ∧
  (∀ toolName,
     toolName ∈ tool_name <$> listTools options ↔ is_Some (toolHandlers options !! toolName)) ∧
  (∀ listed : Tool Num,
     listed ∈ listTools options →
     ∃ handler,
       toolHandlers options !! tool_name listed = Some handler ∧
       tool_description listed = description handler ∧
       tool_inputSchema listed = inputSchema handler) ∧
  length (listTools options) = if opt_infoOnlyMode options then 3 else 58.
Proof.
  split; [|split; [|split]].
  - rewrite listTools_names. apply NoDup_fst_map_to_list.
  - intros toolName. rewrite listTools_names, list_elem_of_fmap. split.
    + intros ([k handler] & -> & Hin%elem_of_map_to_list). by eexists.
    + intros [handler Hin]. exists (toolName, handler). by rewrite elem_of_map_to_list.
  - intros listed. unfold listTools. rewrite <- list_fmap_compose, list_elem_of_fmap.
    intros ([toolName handler] & -> & Hin%elem_of_map_to_list). exists handler.
    cbn [compose snd tool_name tool_description tool_inputSchema].
    by rewrite (toolHandlers_namedByKey options toolName handler Hin).
  - unfold listTools. rewrite !length_fmap, length_map_to_list. unfold toolHandlers.
    destruct (opt_infoOnlyMode options); [apply size_restricted|apply size_abpTools].
Qed.

(** X8. The restricted-mode filter is idempotent and commutes with the
    merge: filtering a spread is spreading the filtered tables, so
    filtering the registry is merging the filtered groups. *)
Theorem filterInfoOnlyTools_merge allTools (groups : list (gmap string (ToolHandler Num)))
    (target source : gmap string (ToolHandler Num)) :
  filterInfoOnlyTools (filterInfoOnlyTools allTools) = filterInfoOnlyTools allTools ∧
  filterInfoOnlyTools (spread target source) =
    spread (filterInfoOnlyTools target) (filterInfoOnlyTools source) ∧
  filterInfoOnlyTools (mergeGroups groups) = mergeGroups (filterInfoOnlyTools <$> groups).
Proof.
  assert (Hspread : ∀ target source : gmap string (ToolHandler Num),
            filterInfoOnlyTools (spread target source) =
              spread (filterInfoOnlyTools target) (filterInfoOnlyTools source)).
  { intros t s. apply map_eq. intros toolName. unfold spread.
    rewrite filterInfoOnlyTools_lookup, !lookup_union, !filterInfoOnlyTools_lookup.
    by case_bool_decide. }
  split; [|split; [apply Hspread|]].
  - apply map_eq. intros toolName. rewrite !filterInfoOnlyTools_lookup. by case_bool_decide.
  - induction groups as [|group groups IH] using rev_ind.
    + apply map_eq. intros toolName. rewrite filterInfoOnlyTools_lookup.
      cbn. rewrite lookup_empty. by case_bool_decide.
    + rewrite fmap_app. unfold mergeGroups in *. rewrite !foldl_snoc.
      cbn [fmap list_fmap]. rewrite foldl_snoc. by rewrite Hspread, IH.
Qed.

(** ** Handlers that take one identifier *)

Lemma keyed_schema_parse (k : string) (args : JsValue Num) :
  parse (z_object (key k z_string (shape (λ s : string, s)))) args =
    match stringArgument k args with
    | Some s => Returned s
    | None => Thrown (ZodError [invalid_type match args with VObj _ => [PKey k] | _ => [] end])
    end.
Proof.
  unfold parse, z_object, key, shape, stringArgument, z_string, mergeParsed.
  destruct args as [| | | | | |props]; try reflexivity.
  by destruct (ownProperty props k) as [[]|].
Qed.

(** X9. Each of the seventeen tools that read or delete one item parses
    its arguments first. Without a string under the tool's key (id or
    name) it throws the validation error and nothing is asked of the
    collaborator. With one it makes exactly one request, of the tool's
    method, whose URL is the tool's prefix followed by the identifier as
    given; a rejection is thrown on, and any answer gives a result with
    success = true. *)
Theorem keyed_tools_validate_then_call apiClient :
  Forall (λ entry : (JsValue Num → Exec (JsValue Num)) * (string * string * string),
            let '(run, (k, method, prefix)) := entry in
            ∀ (args : JsValue Num) remote tr,
              match stringArgument k args with
              | Some id =>
                  let asked := axiosRequest apiClient method (prefix +:+ id) VUndefined VUndefined in
                  (run args remote tr).2 = tr ++ [(asked, remote tr asked)] ∧
                  (∀ e, remote tr asked = Rejected e → (run args remote tr).1 = Thrown e) ∧
                  (∀ data, remote tr asked = Resolved data →
                           ∃ result, (run args remote tr).1 = Returned result ∧
                                     getProperty result "success" = Returned (VBool true))
              | None =>
                  run args remote tr =
                    (Thrown (ZodError
                       [invalid_type match args with VObj _ => [PKey k] | _ => [] end]), tr)
              end)
    (keyedTools apiClient).
Proof.
  unfold keyedTools.
  repeat (apply Forall_cons_2;
    [intros args remote tr;
     unfold abp_get_application_execute, abp_delete_application_execute,
       abp_get_module_execute, abp_uninstall_module_execute, abp_get_entity_execute,
       abp_get_user_execute, abp_delete_user_execute, abp_get_tenant_execute,
       abp_delete_tenant_execute, abp_get_audit_log_execute, abp_get_background_job_execute,
       abp_delete_background_job_execute, abp_get_theme_execute, abp_get_layout_execute,
       abp_get_menu_execute, abp_get_widget_execute, abp_delete_widget_execute,
       idSchema, nameSchema;
     unfold bind at 1; unfold liftOutcome at 1; rewrite keyed_schema_parse;
     destruct (stringArgument _ args) as [id|]; [|reflexivity];
     unfold getApplication, deleteApplication, getModule, uninstallModule, getEntity, getUser,
       deleteUser, getTenant, deleteTenant, getAuditLog,
       getBackgroundJob, deleteBackgroundJob, getTheme, getLayout, getMenu, getWidget,
       deleteWidget, client_get, client_delete, bind, send, liftOutcome, ret;
     cbv zeta;
     destruct (remote tr _) as [data|e] |]).
  all: try apply Forall_nil_2.
  all: cbn [fst snd]; (split; [reflexivity|split]).
  all: try (intros ? [= <-]; reflexivity).
  all: try discriminate.
  all: intros ? _; eexists; split; reflexivity.
Qed.

(** ** Handlers that count a list *)

Lemma filterByProperty_partition (k : string) (xs kept dropped : list (JsValue Num)) :
  filterByProperty false k xs = Returned kept →
  filterByProperty true k xs = Returned dropped →
  length kept + length dropped = length xs.
Proof.
  revert kept dropped. induction xs as [|x xs IH]; intros kept dropped; cbn [filterByProperty].
  - by intros [= <-] [= <-].
  - destruct (getProperty x k) as [flag|e]; [|discriminate]. cbn [obind].
    destruct (filterByProperty false k xs) as [kept'|e]; [|discriminate].
    destruct (filterByProperty true k xs) as [dropped'|e]; [|discriminate].
    cbn [obind xorb]. specialize (IH kept' dropped' eq_refl eq_refl).
    destruct (truthy flag); cbn [negb]; intros [= <-] [= <-]; cbn [length]; lia.
Qed.

Lemma counted_partition (receiver k yes no : string) (listed : JsValue Num)
    (result : JsValue Num) tr tr' remote :
  (bind (liftOutcome (getProperty listed "length")) (λ count,
   bind (liftOutcome (arrayFilter receiver false k listed)) (λ kept,
   bind (liftOutcome (arrayFilter receiver true k listed)) (λ dropped,
   ret (VObj [("success", VBool true); ("data", listed); ("count", count);
              (yes, lengthOf kept); (no, lengthOf dropped)]))))) remote tr
  = (Returned result, tr') →
  ∃ (items : list (JsValue Num)) (kept dropped : nat),
    result = VObj [("success", VBool true);
                   ("data", VArr items);
                   ("count", VNum (numOfN (N.of_nat (length items))));
                   (yes, VNum (numOfN (N.of_nat kept)));
                   (no, VNum (numOfN (N.of_nat dropped)))] ∧
    kept + dropped = length items.
Proof.
  unfold bind, liftOutcome, ret.
  destruct (getProperty listed "length") as [count|e] eqn:Hcount; [|discriminate].
  destruct listed as [| | | | |items|]; try discriminate.
  cbn [arrayFilter].
  destruct (filterByProperty false k items) as [kept|e] eqn:Hkept; [|discriminate].
  destruct (filterByProperty true k items) as [dropped|e] eqn:Hdropped; [|discriminate].
  intros [= <- <-]. exists items, (length kept), (length dropped).
  cbn in Hcount. injection Hcount as <-.
  split; [reflexivity|]. by eapply filterByProperty_partition.
Qed.

(** X10. Whenever abp_get_modules, abp_get_users or abp_get_tenants
    returns, the data of the result is an array, count is its length, and
    the two partial counts (installed and available, active and inactive)
    add up to count. *)
Theorem counted_lists_partition apiClient run (yes no : string) (args : JsValue Num)
    remote tr (result : JsValue Num) tr' :
  (run, (yes, no)) ∈ countedTools apiClient →
  run args remote tr = (Returned result, tr') →
  ∃ (items : list (JsValue Num)) (kept dropped : nat),
    getProperty result "data" = Returned (VArr items) ∧
    getProperty result "count" = Returned (VNum (numOfN (N.of_nat (length items)))) ∧
    getProperty result yes = Returned (VNum (numOfN (N.of_nat kept))) ∧
    getProperty result no = Returned (VNum (numOfN (N.of_nat dropped))) ∧
    kept + dropped = length items.
Proof.
  unfold countedTools. intros Hin Hrun.
  repeat (apply elem_of_cons in Hin as [[= -> -> ->]|Hin]).
  4: exfalso; exact (proj1 (elem_of_nil _) Hin).
  - revert Hrun. unfold abp_get_modules_execute. unfold bind at 1.
    destruct (getModules apiClient remote tr) as [[modules|e] tr1]; [|discriminate].
    intros (items & kept & dropped & -> & Hsum)%counted_partition.
    exists items, kept, dropped. by repeat split.
  - revert Hrun. unfold abp_get_users_execute. unfold bind at 1.
    destruct (liftOutcome (parse getUsersSchema args) remote tr) as [[parsed|e] tr0];
      [|discriminate].
    unfold bind at 1.
    destruct (getUsers apiClient _ _ remote tr0) as [[users|e] tr1]; [|discriminate].
    intros (items & kept & dropped & -> & Hsum)%counted_partition.
    exists items, kept, dropped. by repeat split.
  - revert Hrun. unfold abp_get_tenants_execute. unfold bind at 1.
    destruct (liftOutcome (parse filterSchema args) remote tr) as [[parsed|e] tr0];
      [|discriminate].
    unfold bind at 1.
    destruct (getTenants apiClient _ remote tr0) as [[tenants|e] tr1]; [|discriminate].
    intros (items & kept & dropped & -> & Hsum)%counted_partition.
    exists items, kept, dropped. by repeat split.
Qed.

(** ** Handlers that post without parsing *)

(** X11. abp_create_entity, abp_create_user and abp_create_tenant parse
    nothing: whatever the arguments, they are posted as they are, in
    exactly one request. A rejection is thrown on. The message of the
    result names the item by a property of the answer, not of the
    arguments. *)
Theorem create_tools_post_unvalidated apiClient (args : JsValue Num) remote tr :
  Forall (λ entry : (JsValue Num → Exec (JsValue Num)) * (string * string * string),
            let '(run, (url, shownKey, noun)) := entry in
            let asked := axiosRequest apiClient "post" url VUndefined args in
            (run args remote tr).2 = tr ++ [(asked, remote tr asked)] ∧
            (∀ e, remote tr asked = Rejected e → (run args remote tr).1 = Thrown e) ∧
            (∀ props (shown : string),
               remote tr asked = Resolved (VObj props) →
               toStringJs (default VUndefined (ownProperty props shownKey)) = Returned shown →
               (run args remote tr).1 =
                 Returned (VObj [("success", VBool true);
                                 ("data", VObj props);
                                 ("message", VStr (noun +:+ " '" +:+ shown
                                                   +:+ "' created successfully"))])))
    (createTools apiClient).
Proof.
  unfold createTools.
  repeat (apply Forall_cons_2;
    [unfold abp_create_entity_execute, abp_create_user_execute, abp_create_tenant_execute,
       createEntity, createUser, createTenant, client_post, bind, send, liftOutcome, ret;
     cbv zeta;
     destruct (remote tr _) as [data|e];
     [split; [|split; [discriminate|]];
      [by destruct (getProperty data _) as [shownValue|]; [destruct (toStringJs shownValue)|]
      |intros props shown [= ->]; cbn [getProperty]; by intros ->]
     |split; [reflexivity|split; [by intros ? [= <-]|discriminate]]]|]).
  apply Forall_nil_2.
Qed.


(** ** Defaults and unknown keys *)

Lemma ownProperty_setProperty (props : list (string * JsValue Num)) (k k' : string)
    (v : JsValue Num) :
  ownProperty (setProperty props k v) k' =
    if bool_decide (k = k') then Some v else ownProperty props k'.
Proof.
  induction props as [|[k0 v0] props IH]; cbn [setProperty ownProperty].
  - done.
  - destruct (decide (k0 = k)) as [->|Hk0].
    + rewrite (bool_decide_eq_true_2 (k = k)) by done. cbn [ownProperty].
      by case_bool_decide.
    + rewrite (bool_decide_eq_false_2 (k0 = k)) by done. cbn [ownProperty].
      rewrite IH. case_bool_decide as Hk; [|done].
      subst k'. by rewrite (bool_decide_eq_false_2 (k0 = k)).
Qed.

(** X13. abp_enqueue_background_job without a priority behaves as with
    priority Normal; a priority that is not Low, Normal or High is refused
    with the validation error before any request; and with a jobType the
    one request carries the job's arguments as JSON text (the key args may
    be absent) and the priority Normal. *)
Theorem enqueue_job_priority apiClient (props : list (string * JsValue Num)) remote tr :
  ownProperty props "priority" = None →
  abp_enqueue_background_job_execute apiClient (VObj props) remote tr =
    abp_enqueue_background_job_execute apiClient
      (VObj (setProperty props "priority" (VStr "Normal"))) remote tr ∧
  (∀ priority : string,
     priority ∉ ["Low"; "Normal"; "High"] →
     ∃ issues,
       abp_enqueue_background_job_execute apiClient
         (VObj (setProperty props "priority" (VStr priority))) remote tr =
       (Thrown (ZodError issues), tr)) ∧
  (∀ jobType : string,
     ownProperty props "jobType" = Some (VStr jobType) →
     let asked :=
       axiosRequest apiClient "post" "/api/background-jobs" VUndefined
         (VObj [("jobType", VStr jobType);
                ("args", match JSON_stringify (default VUndefined (ownProperty props "args")) with
                         | Some text => VStr text
                         | None => VUndefined
                         end);
                ("priority", VStr "Normal")]) in
     (abp_enqueue_background_job_execute apiClient (VObj props) remote tr).2 =
       tr ++ [(asked, remote tr asked)]).
Proof.
  intros Hnone.
  assert (Hparse : ∀ priority : string,
            parse enqueueJobSchema (VObj (setProperty props "priority" (VStr priority))) =
              match z_string [PKey "jobType"] (default VUndefined (ownProperty props "jobType")),
                    z_enum (Num:=Num) ["Low"; "Normal"; "High"] [PKey "priority"] (VStr priority) with
              | PValid jobType, PValid parsed =>
                  Returned (Build_EnqueueJobArgs jobType
                              (default VUndefined (ownProperty props "args")) parsed)
              | PValid _, PInvalid issues => Thrown (ZodError issues)
              | PInvalid issues, PValid _ => Thrown (ZodError issues)
              | PInvalid issues, PInvalid more => Thrown (ZodError (issues ++ more))
              end).
  { intros priority. unfold parse, enqueueJobSchema, z_object, key, shape. cbn [app].
    rewrite !ownProperty_setProperty.
    rewrite (bool_decide_eq_false_2 ("priority" = "jobType")) by done.
    rewrite (bool_decide_eq_false_2 ("priority" = "args")) by done.
    rewrite (bool_decide_eq_true_2 ("priority" = "priority")) by done.
    cbn [default from_option id z_default z_any].
    by destruct (z_string _ _), (z_enum _ _ _). }
  assert (Hdefault : parse enqueueJobSchema (VObj props) =
            parse enqueueJobSchema (VObj (setProperty props "priority" (VStr "Normal")))).
  { rewrite Hparse. unfold parse, enqueueJobSchema, z_object, key, shape. cbn [app].
    rewrite Hnone. cbn [default from_option id z_default z_any].
    by destruct (z_string _ _). }
  unfold abp_enqueue_background_job_execute, bind, liftOutcome.
  split; [by rewrite Hdefault|split].
  - intros priority Hout. rewrite Hparse. unfold z_enum.
    rewrite (bool_decide_eq_false_2 _ Hout).
    destruct (z_string _ _); eexists; reflexivity.
  - intros jobType HjobType. rewrite Hdefault, Hparse, HjobType.
    cbn [default from_option id z_string]. unfold z_enum.
    rewrite (bool_decide_eq_true_2 ("Normal" ∈ ["Low"; "Normal"; "High"]))
      by (apply (bool_decide_unpack _); vm_compute; exact I).
    unfold enqueueBackgroundJob, client_post, send, ret.
    cbn [ej_jobType ej_args ej_priority default from_option id].
    by destruct (remote tr _).
Qed.

(** ** The permission tools *)

Lemma permissionSchema_accepts (args : JsValue Num) (parsed : PermissionArgs) :
  parse permissionSchema args = Returned parsed →
  pa_providerName parsed ∈ ["R"; "U"] ∧
  stringArgument "providerName" args = Some (pa_providerName parsed) ∧
  stringArgument "providerKey" args = Some (pa_providerKey parsed) ∧
  stringArgument "permissionName" args = Some (pa_permissionName parsed).
Proof.
  unfold parse, permissionSchema, z_object, key, shape, stringArgument.
  destruct args as [| | | | | |props]; try discriminate. cbn [app].
  unfold z_enum, z_string.
  destruct (ownProperty props "providerName") as [[| | | |providerName| |]|];
    destruct (ownProperty props "providerKey") as [[| | | |providerKey| |]|];
    destruct (ownProperty props "permissionName") as [[| | | |permissionName| |]|];
    cbn [default from_option id mergeParsed]; try discriminate;
    try (case_bool_decide; discriminate).
  case_bool_decide as Hin; [|discriminate]. by intros [= <-].
Qed.

(** X14. abp_revoke_permission refuses a providerName other than R and U
    with the validation error, before any request. With arguments the
    schema accepts, abp_grant_permission and abp_revoke_permission each
    make exactly one request, to the grant or the revoke endpoint, whose
    body holds the three validated strings; a rejection is thrown on, and
    the message of the result says role for R and user for U. *)
Theorem permission_tools_post_validated_arguments apiClient (args : JsValue Num) remote tr :
  (providerNameEnumerated args = false →
   ∃ issues,
     abp_revoke_permission_execute apiClient args remote tr = (Thrown (ZodError issues), tr)) ∧
  (∀ parsed : PermissionArgs,
     parse permissionSchema args = Returned parsed →
     pa_providerName parsed ∈ ["R"; "U"] ∧
     stringArgument "providerName" args = Some (pa_providerName parsed) ∧
     stringArgument "providerKey" args = Some (pa_providerKey parsed) ∧
     stringArgument "permissionName" args = Some (pa_permissionName parsed) ∧
     Forall (λ entry : (JsValue Num → Exec (JsValue Num)) * (string * string),
               let '(run, (url, change)) := entry in
               let asked :=
                 axiosRequest apiClient "post" url VUndefined
                   (VObj [("providerName", VStr (pa_providerName parsed));
                          ("providerKey", VStr (pa_providerKey parsed));
                          ("permissionName", VStr (pa_permissionName parsed))]) in
               (run args remote tr).2 = tr ++ [(asked, remote tr asked)] ∧
               (∀ e, remote tr asked = Rejected e → (run args remote tr).1 = Thrown e) ∧
               (∀ data,
                  remote tr asked = Resolved data →
                  (run args remote tr).1 =
                    Returned (VObj
                      [("success", VBool true);
                       ("message",
                        VStr ("Permission '" +:+ pa_permissionName parsed +:+ "' " +:+ change
                              +:+ " "
                              +:+ (if bool_decide (pa_providerName parsed = "R")
                                   then "role" else "user")
                              +:+ " '" +:+ pa_providerKey parsed +:+ "'"))])))
       (permissionChanges apiClient)).
Proof.
  split.
  - intros [issues Hinvalid]%permissionSchema_rejects. exists issues.
    unfold abp_revoke_permission_execute, bind, liftOutcome, parse. by rewrite Hinvalid.
  - intros parsed Hparse.
    destruct (permissionSchema_accepts args parsed Hparse) as (? & ? & ? & ?).
    repeat (split; [done|]).
    unfold permissionChanges.
    repeat (apply Forall_cons_2;
      [unfold abp_grant_permission_execute, abp_revoke_permission_execute,
         grantPermission, revokePermission, client_post, bind, send, liftOutcome, ret;
       rewrite Hparse; cbv zeta;
       destruct (remote tr _) as [data|e]; cbn [fst snd];
       (split; [reflexivity|split; [try discriminate|try discriminate]]);
       [intros ? _; reflexivity | by intros ? [= <-]]|]).
    apply Forall_nil_2.
Qed.

(** ** The hybrid handlers with a credential *)

(** X15. With a credential configured and a collaborator that answers,
    abp_generate_component and abp_generate_form of the hybrid group make
    one request with the validated arguments and return the answer as
    data, with mode = api. abp_get_themes returns the items of the answer
    (or the empty array) with their length as count; when the answer is
    null, reading its items throws inside the try block, and the handler
    returns the static theme information with the warning that the API
    call failed. *)
Theorem hybrid_api_mode_when_remote_answers apiClient (args : JsValue Num) remote tr :
  apiKey (config apiClient) ≠ EmptyString →
  (∀ (validatedArgs : ComponentArgs) (data : JsValue Num),
     parse componentSchema args = Returned validatedArgs →
     let asked :=
       axiosRequest apiClient "post" "/api/suite/components" VUndefined
         (encodeComponentArgs validatedArgs) in
     remote tr asked = Resolved data →
     hybrid_generate_component apiClient args remote tr =
       (Returned (VObj
          [("success", VBool true);
           ("data", data);
           ("message", VStr (ca_type validatedArgs +:+ " component '" +:+ ca_name validatedArgs
                             +:+ "' generated successfully via API"));
           ("mode", VStr "api")]),
        tr ++ [(asked, Resolved data)])) ∧
  (∀ (validatedArgs : FormArgs) (data : JsValue Num),
     parse formSchema args = Returned validatedArgs →
     let asked :=
       axiosRequest apiClient "post" "/api/suite/forms" VUndefined
         (encodeFormArgs validatedArgs) in
     remote tr asked = Resolved data →
     hybrid_generate_form apiClient args remote tr =
       (Returned (VObj
          [("success", VBool true);
           ("data", data);
           ("message", VStr ("Form '" +:+ fa_name validatedArgs
                             +:+ "' generated successfully via API"));
           ("mode", VStr "api")]),
        tr ++ [(asked, Resolved data)])) ∧
  (let asked := axiosRequest apiClient "get" "/api/themes" VUndefined VUndefined in
   (∀ data items : JsValue Num,
      remote tr asked = Resolved data →
      getProperty data "items" = Returned items →
      ∃ count,
        getProperty (js_or items (VArr [])) "length" = Returned count ∧
        hybrid_get_themes apiClient args remote tr =
          (Returned (VObj
             [("success", VBool true);
              ("data", js_or items (VArr []));
              ("count", count);
              ("mode", VStr "api")]),
           tr ++ [(asked, Resolved data)])) ∧
   (remote tr asked = Resolved VNull →
    hybrid_get_themes apiClient args remote tr =
      (Returned (objectWith getStaticThemeInfo "warning"
                   (VStr "API call failed, showing static theme information instead")),
       tr ++ [(asked, Resolved VNull)]))).
Proof.
  intros Hkey%credential_is_not_info_only. split; [|split; [|split]].
  - intros validatedArgs data Hparse asked Hanswer.
    unfold hybrid_generate_component, generateComponent, client_post.
    unfold tryCatch, bind, send, liftOutcome, ret. rewrite Hparse, Hkey.
    fold asked. by rewrite Hanswer.
  - intros validatedArgs data Hparse asked Hanswer.
    unfold hybrid_generate_form, generateForm, client_post.
    unfold tryCatch, bind, send, liftOutcome, ret. rewrite Hparse, Hkey.
    fold asked. by rewrite Hanswer.
  - intros data items Hanswer Hitems.
    assert (Hcount : ∃ count, getProperty (js_or items (VArr [])) "length" = Returned count).
    { unfold js_or. destruct items; cbn [truthy]; try (eexists; reflexivity).
      all: match goal with |- context [if ?b then _ else _] => destruct b end;
        eexists; reflexivity. }
    destruct Hcount as [count Hcount]. exists count. split; [done|].
    unfold hybrid_get_themes, getThemes, client_get.
    unfold tryCatch, bind, send, liftOutcome, ret. rewrite Hkey, Hanswer, Hitems.
    by rewrite Hcount.
  - intros Hanswer.
    unfold hybrid_get_themes, getThemes, client_get.
    unfold tryCatch, bind, send, liftOutcome, ret. by rewrite Hkey, Hanswer.
Qed.

(** ** The list endpoints on an empty answer *)

(** X16. When the collaborator answers with null, every list endpoint
    throws the TypeError of reading items of null, after its one request.
    When it answers with the empty string, the nine endpoints that fall
    back to response.data return the empty string and the six others the
    empty array. *)
Theorem list_endpoints_null_answer apiClient
    (namespace providerName providerKey filter startDate endDate userId jobType : option string)
    (groupName : string) (maxResultCount : option Num) tr :
  let null : Remote Num := λ _ _, Resolved VNull in
  let empty : Remote Num := λ _ _, Resolved (VStr EmptyString) in
  Forall (λ endpoint : Exec (JsValue Num),
            (endpoint null tr).1 =
              Thrown (TypeError "Cannot read properties of null (reading 'items')") ∧
            (∃ asked, (endpoint null tr).2 = tr ++ [(asked, Resolved VNull)]) ∧
            (endpoint empty tr).1 = Returned (VStr EmptyString))
    [getApplications apiClient;
     getModules apiClient;
     getEntities apiClient namespace;
     getPermissions apiClient providerName providerKey;
     getPermissionsByGroup apiClient groupName;
     getUsers apiClient filter maxResultCount;
     getTenants apiClient filter;
     getAuditLogs apiClient startDate endDate userId;
     getBackgroundJobs apiClient jobType] ∧
  Forall (λ endpoint : Exec (JsValue Num),
            (endpoint null tr).1 =
              Thrown (TypeError "Cannot read properties of null (reading 'items')") ∧
            (∃ asked, (endpoint null tr).2 = tr ++ [(asked, Resolved VNull)]) ∧
            (endpoint empty tr).1 = Returned (VArr []))
    [getThemes apiClient;
     getLayouts apiClient;
     getMenus apiClient;
     getWidgets apiClient;
     getLocalizationResources apiClient;
     getSupportedCultures apiClient].
Proof.
  intros null empty. split.
  - repeat (apply Forall_cons_2;
      [split; [|split]; run_client; [reflexivity|eexists; reflexivity|reflexivity]|]).
    apply Forall_nil_2.
  - repeat (apply Forall_cons_2;
      [split; [|split]; run_client; [reflexivity|eexists; reflexivity|reflexivity]|]).
    apply Forall_nil_2.
Qed.

(** ** A session in info-only mode *)

Lemma ui_generate_trace apiClient (args : JsValue Num) remote tr :
  ((ui_generate_component apiClient args remote tr).2 = tr ∨
   ∃ body answer,
     (ui_generate_component apiClient args remote tr).2 =
       tr ++ [(axiosRequest apiClient "post" "/api/suite/components" VUndefined body, answer)]) ∧
  ((ui_generate_form apiClient args remote tr).2 = tr ∨
   ∃ body answer,
     (ui_generate_form apiClient args remote tr).2 =
       tr ++ [(axiosRequest apiClient "post" "/api/suite/forms" VUndefined body, answer)]).
Proof.
  split.
  - unfold ui_generate_component, generateComponent, client_post, bind, send, liftOutcome, ret.
    destruct (parse uiComponentSchema args) as [validatedArgs|e]; [|by left].
    right. destruct (remote tr _) as [data|e]; eexists _, _; reflexivity.
  - unfold ui_generate_form, generateForm, client_post, bind, send, liftOutcome, ret.
    destruct (parse uiFormSchema args) as [validatedArgs|e]; [|by left].
    right. destruct (remote tr _) as [data|e]; eexists _, _; reflexivity.
Qed.

Lemma callTool_trace options request remote tr :
  (callTool options request remote tr).2 = tr ∨
  ∃ handler,
    toolHandlers options !! params_name request = Some handler ∧
    (callTool options request remote tr).2 =
      (execute handler (js_or (params_arguments request) (VObj [])) remote tr).2.
Proof.
  unfold callTool, lookupProperty.
  destruct (toolHandlers options !! params_name request) as [handler|].
  - destruct (negb (opt_infoOnlyMode options) && negb (given (opt_apiKey options)));
      [by left|].
    right. exists handler. split; [done|]. unfold tryCatch, bind, ret.
    by destruct (execute handler _ remote tr) as [[result|e] tr'].
  - left. case_bool_decide; [|done].
    by destruct (negb (opt_infoOnlyMode options) && negb (given (opt_apiKey options))).
Qed.

Lemma restricted_handlers options toolName handler :
  opt_infoOnlyMode options = true →
  toolHandlers options !! toolName = Some handler →
  execute handler = ui_generate_component (mainApiClient options) ∨
  execute handler = ui_get_themes (mainApiClient options) ∨
  execute handler = ui_generate_form (mainApiClient options).
Proof.
  intros Hmode Hin.
  destruct (decide (toolName ∈ ["abp_generate_component"; "abp_get_themes"; "abp_generate_form"]))
    as [Hthree|Hout]; [|by rewrite restricted_lookup in Hin].
  revert Hin. unfold toolHandlers. rewrite Hmode, filterInfoOnlyTools_lookup.
  repeat (apply elem_of_cons in Hthree as [->|Hthree]).
  4: exfalso; exact (proj1 (elem_of_nil _) Hthree).
  - assert (Hlit : (if bool_decide ("abp_generate_component" ∈ infoOnlyToolNames)
                    then abpTools (mainApiClient options) !! "abp_generate_component"
                    else None) =
              Some (tool "uiTools" "abp_generate_component"
                      "Generate reusable UI components (widgets, modals, partials, directives, pipes)"
                      (ui_generate_component (mainApiClient options))).2) by by_lookup.
    rewrite Hlit. intros [= <-]. by left.
  - assert (Hlit : (if bool_decide ("abp_get_themes" ∈ infoOnlyToolNames)
                    then abpTools (mainApiClient options) !! "abp_get_themes"
                    else None) =
              Some (tool "uiTools" "abp_get_themes" "Get all available ABP themes"
                      (ui_get_themes (mainApiClient options))).2) by by_lookup.
    rewrite Hlit. intros [= <-]. by right; left.
  - assert (Hlit : (if bool_decide ("abp_generate_form" ∈ infoOnlyToolNames)
                    then abpTools (mainApiClient options) !! "abp_generate_form"
                    else None) =
              Some (tool "uiTools" "abp_generate_form" "Generate complex forms with validation"
                      (ui_generate_form (mainApiClient options))).2) by by_lookup.
    rewrite Hlit. intros [= <-]. by right; right.
Qed.

Lemma restrictedRequest_axios options (method url : string) (params data : JsValue Num) :
  (method, url) ∈
    [("get", "/api/themes"); ("post", "/api/suite/components"); ("post", "/api/suite/forms")] →
  restrictedRequest options (axiosRequest (mainApiClient options) method url params data) = true.
Proof.
  intros Hin. unfold restrictedRequest, axiosRequest.
  cbn [req_method req_url req_baseURL req_authorization].
  rewrite (bool_decide_eq_true_2 _ Hin). by rewrite !bool_decide_eq_true_2.
Qed.

Lemma callTool_restricted options request remote tr :
  opt_infoOnlyMode options = true →
  ∃ added,
    (callTool options request remote tr).2 = tr ++ added ∧
    Forall (λ exchange, restrictedRequest options exchange.1 = true) added.
Proof.
  intros Hmode.
  destruct (callTool_trace options request remote tr) as [Hsame|(handler & Hin & ->)].
  { exists []. by rewrite app_nil_r. }
  destruct (restricted_handlers options _ handler Hmode Hin) as [-> | [-> | ->]].
  - destruct (ui_generate_trace (mainApiClient options)
                (js_or (params_arguments request) (VObj [])) remote tr)
      as [[->|(body & answer & ->)] _].
    + exists []. by rewrite app_nil_r.
    + eexists. split; [reflexivity|]. apply Forall_singleton.
      apply restrictedRequest_axios. by_decide.
  - rewrite ui_get_themes_calls_out. eexists. split; [reflexivity|]. apply Forall_singleton.
    apply restrictedRequest_axios. by_decide.
  - destruct (ui_generate_trace (mainApiClient options)
                (js_or (params_arguments request) (VObj [])) remote tr)
      as [_ [->|(body & answer & ->)]].
    + exists []. by rewrite app_nil_r.
    + eexists. split; [reflexivity|]. apply Forall_singleton.
      apply restrictedRequest_axios. by_decide.
Qed.

(** X17. Whatever is asked of a server in info-only mode, in any order,
    the requests it makes are requests of /api/themes, of
    /api/suite/components or of /api/suite/forms, at the configured base
    URL, with the configured key (or none) as the bearer token. *)
Theorem restricted_session_requests options (requests : list (CallToolRequest Num))
    remote tr :
  opt_infoOnlyMode options = true →
  ∃ added,
    (serve options requests remote tr).2 = tr ++ added ∧
    Forall (λ exchange, restrictedRequest options exchange.1 = true) added.
Proof.
  intros Hmode. revert tr. induction requests as [|request requests IH]; intros tr.
  - exists []. by rewrite app_nil_r.
  - cbn [serve].
    destruct (callTool_restricted options request remote tr Hmode) as (added1 & Htrace & Hadded1).
    destruct (callTool options request remote tr) as [outcome tr1]. cbn [snd] in Htrace.
    destruct (IH tr1) as (added2 & Hrest & Hadded2).
    destruct (serve options requests remote tr1) as [responses tr2]. cbn [snd] in *.
    exists (added1 ++ added2). split; [by rewrite Hrest, Htrace, (assoc_L (++))|].
    by apply Forall_app.
Qed.

(** ** The registered generators *)

(** X18. The registered abp_generate_component and abp_generate_form pay
    no attention to a key their schema does not name: setting such a key
    in the arguments changes neither the outcome nor the request made. *)
Theorem ui_generate_tools_ignore_unknown_keys apiClient (props : list (string * JsValue Num))
    (k : string) (v : JsValue Num) remote tr :
  (k ∉ ["name"; "type"; "framework"; "properties"; "template"] →
   ui_generate_component apiClient (VObj (setProperty props k v)) remote tr =
     ui_generate_component apiClient (VObj props) remote tr) ∧
  (k ∉ ["name"; "entityId"; "fields"; "layout"; "submitAction"; "cancelAction"] →
   ui_generate_form apiClient (VObj (setProperty props k v)) remote tr =
     ui_generate_form apiClient (VObj props) remote tr).
Proof.
  split; intros Hout.
  - assert (Hparse : parse uiComponentSchema (VObj (setProperty props k v)) =
                     parse uiComponentSchema (VObj props)).
    { unfold parse, uiComponentSchema. unfold z_object at 1 3. unfold key, shape.
      rewrite !ownProperty_setProperty.
      rewrite !bool_decide_eq_false_2; [done|..]; intros ->; apply Hout; by_decide. }
    unfold ui_generate_component, bind, liftOutcome. by rewrite Hparse.
  - assert (Hparse : parse uiFormSchema (VObj (setProperty props k v)) =
                     parse uiFormSchema (VObj props)).
    { unfold parse, uiFormSchema. unfold z_object at 1 2. unfold key, shape.
      rewrite !ownProperty_setProperty.
      rewrite !bool_decide_eq_false_2; [done|..]; intros ->; apply Hout; by_decide. }
    unfold ui_generate_form, bind, liftOutcome. by rewrite Hparse.
Qed.

(** X19. Outside info-only mode, with a key: when the collaborator rejects
    the request of abp_generate_component, the dispatcher returns the
    result with isError = true whose text is Error: followed by the
    message of the rejection. One request was made; no static template is
    substituted. *)
Theorem full_mode_generate_component_reports_rejection options (args : JsValue Num)
    (validatedArgs : UiComponentArgs) remote tr (e : JsError) :
  opt_infoOnlyMode options = false →
  given (opt_apiKey options) = true →
  parse uiComponentSchema (js_or args (VObj [])) = Returned validatedArgs →
  let asked :=
    axiosRequest (mainApiClient options) "post" "/api/suite/components" VUndefined
      (encodeUiComponentArgs validatedArgs) in
  remote tr asked = Rejected e →
  callTool options {| params_name := "abp_generate_component"; params_arguments := args |}
    remote tr =
    (Returned {| content := [{| content_type := "text";
                                content_text := Some ("Error: " +:+ errorMessage e) |}];
                 isError := Some true |},
     tr ++ [(asked, Rejected e)]).
Proof.
  intros Hmode Hkey Hparse asked Hrejected.
  assert (Hfound : lookupProperty (toolHandlers options) "abp_generate_component" =
            OwnHandler (tool "uiTools" "abp_generate_component"
                          "Generate reusable UI components (widgets, modals, partials, directives, pipes)"
                          (ui_generate_component (mainApiClient options))).2).
  { unfold lookupProperty, toolHandlers. rewrite Hmode. by_lookup. }
  unfold callTool. cbn [params_name params_arguments]. rewrite Hfound, Hmode, Hkey.
  cbn [negb andb tool snd execute].
  unfold ui_generate_component, generateComponent, client_post.
  unfold tryCatch, bind, send, liftOutcome, ret.
  rewrite Hparse. subst asked. by rewrite Hrejected.
Qed.

(** ** Handlers that update one item *)

Lemma mergeParsed_valid {A B C} (f : A → B → C) (x : ParseReturn A) (y : ParseReturn B) (c : C) :
  mergeParsed f x y = PValid c → ∃ a b, x = PValid a ∧ y = PValid b ∧ c = f a b.
Proof. destruct x, y; try discriminate. intros [= <-]. by eexists _, _. Qed.

Lemma z_string_valid (path : list PathElem) (found : option (JsValue Num)) (s : string) :
  z_string path (default VUndefined found) = PValid s → found = Some (VStr s).
Proof. by destruct found as [[]|]; try discriminate; intros [= <-]. Qed.

Lemma z_optional_string_valid (path : list PathElem) (found : option (JsValue Num))
    (parsed : option string) (s : string) :
  z_optional z_string path (default VUndefined found) = PValid parsed →
  parsed = Some s → found = Some (VStr s).
Proof. by destruct found as [[]|]; try discriminate; intros [= <-] [= <-]. Qed.

Lemma z_optional_enum_valid (values : list string) (path : list PathElem)
    (found : option (JsValue Num)) (parsed : option string) (s : string) :
  z_optional (z_enum values) path (default VUndefined found) = PValid parsed →
  parsed = Some s → found = Some (VStr s).
Proof.
  unfold z_optional, z_enum.
  destruct found as [[| | | |s'| |]|]; cbn [default from_option id];
    try (intros Hvalid; discriminate Hvalid); try (by intros [= <-]).
  case_bool_decide; [|discriminate]. by intros [= <-] [= <-].
Qed.

Lemma rest_properties (props : list (string * JsValue Num)) (k1 k2 k3 : string)
    (o1 o2 o3 : option string) (k : string) (w : JsValue Num) :
  (∀ s, o1 = Some s → ownProperty props k1 = Some (VStr s)) →
  (∀ s, o2 = Some s → ownProperty props k2 = Some (VStr s)) →
  (∀ s, o3 = Some s → ownProperty props k3 = Some (VStr s)) →
  ownProperty (optionalKey k1 (VStr <$> o1) ++ optionalKey k2 (VStr <$> o2)
               ++ optionalKey k3 (VStr <$> o3)) k = Some w →
  k ∈ [k1; k2; k3] ∧ ∃ s, w = VStr s ∧ stringArgument k (VObj props) = Some s.
Proof.
  intros H1 H2 H3 Hin.
  assert (Hcases : ∃ s, w = VStr s ∧
            ((k = k1 ∧ o1 = Some s) ∨ (k = k2 ∧ o2 = Some s) ∨ (k = k3 ∧ o3 = Some s))).
  { revert Hin.
    destruct o1 as [s1|], o2 as [s2|], o3 as [s3|];
      cbn [fmap option_fmap option_map optionalKey app ownProperty];
      repeat case_bool_decide; subst; try discriminate; intros [= <-];
      eexists; (split; [reflexivity|]); tauto. }
  destruct Hcases as (s & -> & [[-> Ho]|[[-> Ho]|[-> Ho]]]); unfold stringArgument.
  - split; [apply list_elem_of_here|]. exists s. by rewrite (H1 s Ho).
  - split; [apply list_elem_of_further, list_elem_of_here|]. exists s. by rewrite (H2 s Ho).
  - split; [do 2 apply list_elem_of_further; apply list_elem_of_here|].
    exists s. by rewrite (H3 s Ho).
Qed.

(** X20. abp_update_application and abp_update_layout put the identifier
    in the URL and the remaining validated keys in the body: every key of
    the body is one of the three optional keys of the schema and holds the
    string the arguments hold there, so neither the identifier nor a key
    the schema does not name is sent. abp_update_localization_text posts
    culture, key and value, as given, to the texts of the resource it
    names. *)
Theorem update_tools_split_the_key apiClient (args : JsValue Num) remote tr :
  (∀ parsed : UpdateApplicationArgs,
     parse updateApplicationSchema args = Returned parsed →
     ∃ body,
       let asked :=
         axiosRequest apiClient "put" ("/api/app/applications/" +:+ upa_id parsed) VUndefined
           (VObj body) in
       stringArgument "id" args = Some (upa_id parsed) ∧
       (abp_update_application_execute apiClient args remote tr).2 =
         tr ++ [(asked, remote tr asked)] ∧
       (∀ k w, ownProperty body k = Some w →
               k ∈ ["displayName"; "url"; "status"] ∧
               ∃ s, w = VStr s ∧ stringArgument k args = Some s)) ∧
  (∀ parsed : UpdateLayoutArgs,
     parse updateLayoutSchema args = Returned parsed →
     ∃ body,
       let asked :=
         axiosRequest apiClient "put" ("/api/ui/layouts/" +:+ ula_name parsed) VUndefined
           (VObj body) in
       stringArgument "name" args = Some (ula_name parsed) ∧
       (abp_update_layout_execute apiClient args remote tr).2 =
         tr ++ [(asked, remote tr asked)] ∧
       (∀ k w, ownProperty body k = Some w →
               k ∈ ["displayName"; "description"; "template"] ∧
               ∃ s, w = VStr s ∧ stringArgument k args = Some s)) ∧
  (∀ parsed : LocalizationTextArgs,
     parse localizationTextSchema args = Returned parsed →
     let asked :=
       axiosRequest apiClient "post"
         ("/api/localization/resources/" +:+ lt_resourceName parsed +:+ "/texts") VUndefined
         (VObj [("culture", VStr (lt_culture parsed));
                ("key", VStr (lt_key parsed));
                ("value", VStr (lt_value parsed))]) in
     stringArgument "resourceName" args = Some (lt_resourceName parsed) ∧
     stringArgument "culture" args = Some (lt_culture parsed) ∧
     stringArgument "key" args = Some (lt_key parsed) ∧
     stringArgument "value" args = Some (lt_value parsed) ∧
     (abp_update_localization_text_execute apiClient args remote tr).2 =
       tr ++ [(asked, remote tr asked)]).
Proof.
  split; [|split].
  - intros parsed Hparse.
    exists (optionalKey "displayName" (VStr <$> upa_displayName parsed)
            ++ optionalKey "url" (VStr <$> upa_url parsed)
            ++ optionalKey "status" (VStr <$> upa_status parsed)).
    cbv zeta.
    assert (Htrace : (abp_update_application_execute apiClient args remote tr).2 =
              tr ++ [(axiosRequest apiClient "put" ("/api/app/applications/" +:+ upa_id parsed)
                        VUndefined
                        (VObj (optionalKey "displayName" (VStr <$> upa_displayName parsed)
                               ++ optionalKey "url" (VStr <$> upa_url parsed)
                               ++ optionalKey "status" (VStr <$> upa_status parsed))),
                      remote tr
                        (axiosRequest apiClient "put"
                           ("/api/app/applications/" +:+ upa_id parsed) VUndefined
                           (VObj (optionalKey "displayName" (VStr <$> upa_displayName parsed)
                                  ++ optionalKey "url" (VStr <$> upa_url parsed)
                                  ++ optionalKey "status" (VStr <$> upa_status parsed)))))]).
    { unfold abp_update_application_execute, updateApplication, client_put.
      unfold bind, send, liftOutcome, ret. rewrite Hparse. cbv zeta.
      by destruct (remote tr _). }
    revert Hparse. unfold parse, updateApplicationSchema, z_object, key, shape.
    destruct args as [| | | | | |props]; try discriminate. cbn [app].
    destruct (mergeParsed _ _ _) as [made|] eqn:Hmade; [|discriminate]. intros [= <-].
    apply mergeParsed_valid in Hmade as (f3 & status & Hmade & Hstatus & ->).
    apply mergeParsed_valid in Hmade as (f2 & url & Hmade & Hurl & ->).
    apply mergeParsed_valid in Hmade as (f1 & displayName & Hmade & HdisplayName & ->).
    apply mergeParsed_valid in Hmade as (f0 & id & [= <-] & Hid & ->).
    cbn [upa_id upa_displayName upa_url upa_status] in *.
    apply z_string_valid in Hid. split; [|split; [exact Htrace|]].
    + unfold stringArgument. by rewrite Hid.
    + intros k w. apply rest_properties.
      * intros s. exact (z_optional_string_valid _ _ _ s HdisplayName).
      * intros s. exact (z_optional_string_valid _ _ _ s Hurl).
      * intros s. exact (z_optional_enum_valid _ _ _ _ s Hstatus).
  - intros parsed Hparse.
    exists (optionalKey "displayName" (VStr <$> ula_displayName parsed)
            ++ optionalKey "description" (VStr <$> ula_description parsed)
            ++ optionalKey "template" (VStr <$> ula_template parsed)).
    cbv zeta.
    assert (Htrace : (abp_update_layout_execute apiClient args remote tr).2 =
              tr ++ [(axiosRequest apiClient "put" ("/api/ui/layouts/" +:+ ula_name parsed)
                        VUndefined
                        (VObj (optionalKey "displayName" (VStr <$> ula_displayName parsed)
                               ++ optionalKey "description" (VStr <$> ula_description parsed)
                               ++ optionalKey "template" (VStr <$> ula_template parsed))),
                      remote tr
                        (axiosRequest apiClient "put" ("/api/ui/layouts/" +:+ ula_name parsed)
                           VUndefined
                           (VObj (optionalKey "displayName" (VStr <$> ula_displayName parsed)
                                  ++ optionalKey "description"
                                       (VStr <$> ula_description parsed)
                                  ++ optionalKey "template" (VStr <$> ula_template parsed)))))]).
    { unfold abp_update_layout_execute, updateLayout, client_put.
      unfold bind, send, liftOutcome, ret. rewrite Hparse. cbv zeta.
      by destruct (remote tr _). }
    revert Hparse. unfold parse, updateLayoutSchema, z_object, key, shape.
    destruct args as [| | | | | |props]; try discriminate. cbn [app].
    destruct (mergeParsed _ _ _) as [made|] eqn:Hmade; [|discriminate]. intros [= <-].
    apply mergeParsed_valid in Hmade as (f3 & template & Hmade & Htemplate & ->).
    apply mergeParsed_valid in Hmade as (f2 & description & Hmade & Hdescription & ->).
    apply mergeParsed_valid in Hmade as (f1 & displayName & Hmade & HdisplayName & ->).
    apply mergeParsed_valid in Hmade as (f0 & layoutName & [= <-] & Hname & ->).
    cbn [ula_name ula_displayName ula_description ula_template] in *.
    apply z_string_valid in Hname. split; [|split; [exact Htrace|]].
    + unfold stringArgument. by rewrite Hname.
    + intros k w. apply rest_properties.
      * intros s. exact (z_optional_string_valid _ _ _ s HdisplayName).
      * intros s. exact (z_optional_string_valid _ _ _ s Hdescription).
      * intros s. exact (z_optional_string_valid _ _ _ s Htemplate).
  - intros parsed Hparse asked.
    assert (Htrace : (abp_update_localization_text_execute apiClient args remote tr).2 =
              tr ++ [(asked, remote tr asked)]).
    { unfold abp_update_localization_text_execute, updateLocalizationText, client_post.
      unfold bind, send, liftOutcome, ret. rewrite Hparse. cbv zeta. subst asked.
      by destruct (remote tr _). }
    revert Hparse. unfold parse, localizationTextSchema, z_object, key, shape.
    destruct args as [| | | | | |props]; try discriminate. cbn [app].
    destruct (mergeParsed _ _ _) as [made|] eqn:Hmade; [|discriminate]. intros [= <-].
    apply mergeParsed_valid in Hmade as (f3 & value & Hmade & Hvalue & ->).
    apply mergeParsed_valid in Hmade as (f2 & key_ & Hmade & Hkey & ->).
    apply mergeParsed_valid in Hmade as (f1 & culture & Hmade & Hculture & ->).
    apply mergeParsed_valid in Hmade as (f0 & resourceName & [= <-] & HresourceName & ->).
    cbn [lt_resourceName lt_culture lt_key lt_value] in *.
    apply z_string_valid in Hvalue, Hkey, Hculture, HresourceName.
    unfold stringArgument. rewrite Hvalue, Hkey, Hculture, HresourceName.
    by repeat split.
Qed.

(** ** Handlers that update without parsing *)

Lemma restWithout_properties (k k' : string) (props : list (string * JsValue Num)) :
  getProperty (restWithout k props) k' =
    if bool_decide (k' = k) then Returned VUndefined else getProperty (VObj props) k'.
Proof.
  unfold restWithout. cbn [getProperty].
  assert (Hrest : ownProperty (filter (λ kv : string * JsValue Num, kv.1 ≠ k) props) k' =
            if bool_decide (k' = k) then None else ownProperty props k').
  { induction props as [|[k0 v0] props IH]; [by case_bool_decide|].
    rewrite filter_cons. cbn [fst ownProperty].
    destruct (decide (k0 ≠ k)) as [Hne|Heq%dec_stable]; cbn [ownProperty].
    - destruct (decide (k0 = k')) as [->|Hk0].
      + rewrite (bool_decide_eq_true_2 (k' = k')) by done.
        by rewrite (bool_decide_eq_false_2 (k' = k)).
      + by rewrite (bool_decide_eq_false_2 (k0 = k')).
    - subst k0. rewrite IH. destruct (decide (k' = k)) as [->|Hk'].
      + by rewrite !bool_decide_eq_true_2.
      + rewrite (bool_decide_eq_false_2 (k' = k)) by done.
        by rewrite (bool_decide_eq_false_2 (k = k')).  }
  rewrite Hrest. by case_bool_decide.
Qed.

Lemma restWithout_absent (k : string) (props : list (string * JsValue Num)) :
  ownProperty props k = None → restWithout k props = VObj props.
Proof.
  unfold restWithout. intros Hnone. f_equal.
  induction props as [|[k0 v0] props IH]; [done|].
  cbn [ownProperty] in Hnone. case_bool_decide as Hk0; [discriminate|].
  rewrite filter_cons_True by done. by rewrite IH.
Qed.

(** X21. abp_update_user, abp_update_tenant and abp_generate_crud parse
    nothing. For every argument object they make exactly one request
    whose URL holds the identifier converted to a string, unless that
    conversion throws, in which case the error is thrown and nothing is
    asked of the collaborator. Without an identifier the URL holds
    undefined and the body is the whole argument object. The body is the
    argument object without the identifier's key. *)
Theorem unvalidated_updates_send_whatever_is_given apiClient
    (props : list (string * JsValue Num)) remote tr :
  Forall (λ entry : (list (string * JsValue Num) → Exec (JsValue Num))
                    * (string * string * (string → string)),
            let '(run, (k, method, url)) := entry in
            (∀ shown : string,
               toStringJs (default VUndefined (ownProperty props k)) = Returned shown →
               let asked := axiosRequest apiClient method (url shown) VUndefined
                              (restWithout k props) in
               (run props remote tr).2 = tr ++ [(asked, remote tr asked)]) ∧
            (∀ e,
               toStringJs (default VUndefined (ownProperty props k)) = Thrown e →
               run props remote tr = (Thrown e, tr)) ∧
            (ownProperty props k = None →
             let asked := axiosRequest apiClient method (url "undefined") VUndefined
                            (VObj props) in
             (run props remote tr).2 = tr ++ [(asked, remote tr asked)]) ∧
            (∀ k' : string,
               getProperty (restWithout k props) k' =
                 if bool_decide (k' = k) then Returned VUndefined
                 else getProperty (VObj props) k'))
    (unvalidatedUpdates apiClient).
Proof.
  unfold unvalidatedUpdates.
  repeat (apply Forall_cons_2;
    [split; [|split; [|split]];
     [intros shown Hshown;
      unfold abp_update_user_execute, abp_update_tenant_execute, abp_generate_crud_execute,
        updateUser, updateTenant, generateCrud, client_put, client_post;
      unfold bind, send, liftOutcome, ret; cbv zeta; rewrite Hshown;
      by destruct (remote tr _)
     |intros e Hthrown;
      unfold abp_update_user_execute, abp_update_tenant_execute, abp_generate_crud_execute,
        updateUser, updateTenant, generateCrud, client_put, client_post;
      unfold bind, send, liftOutcome, ret; cbv zeta; by rewrite Hthrown
     |intros Hnone;
      unfold abp_update_user_execute, abp_update_tenant_execute, abp_generate_crud_execute,
        updateUser, updateTenant, generateCrud, client_put, client_post;
      unfold bind, send, liftOutcome, ret; cbv zeta;
      rewrite (restWithout_absent _ props Hnone), Hnone;
      cbn [default from_option id toStringJs];
      by destruct (remote tr _)
     |intros k'; apply restWithout_properties]|]).
  apply Forall_nil_2.
Qed.

(** ** The static generators *)

Lemma z_enum_valid (values : list string) (path : list PathElem) (v : JsValue Num)
    (s : string) :
  z_enum values path v = PValid s → s ∈ values ∧ v = VStr s.
Proof.
  unfold z_enum. destruct v; try discriminate.
  case_bool_decide; [|discriminate]. by intros [= <-].
Qed.

Lemma z_default_enum_valid (values : list string) (d : JsValue Num) (path : list PathElem)
    (v : JsValue Num) (s : string) :
  z_default (z_enum values) d path v = PValid s → s ∈ values.
Proof.
  unfold z_default. by destruct v; intros [? _]%z_enum_valid.
Qed.

(** X22. The static generators answer every value the schemas accept. A
    static component carries code for each of the four frameworks
    (TypeScript for angular, C# for mvc, Razor for blazor and
    blazor-server). The UI examples have entries for forms, tables and
    modals; for widgets and navigation, which the schema accepts too, the
    answer is the placeholder No examples found; for all, the total is
    four. *)
Theorem static_results_cover_the_schemas (args : JsValue Num) :
  (∀ validatedArgs : ComponentArgs,
     parse componentSchema args = Returned validatedArgs →
     ca_framework validatedArgs ∈ ["mvc"; "angular"; "blazor"; "blazor-server"] ∧
     ∃ code data,
       getProperty (generateStaticComponent validatedArgs) "data" = Returned data ∧
       getProperty data "framework" = Returned (VStr (ca_framework validatedArgs)) ∧
       getProperty data "code" = Returned (VObj code) ∧
       is_Some (ownProperty code
                  (if bool_decide (ca_framework validatedArgs = "angular") then "typescript"
                   else if bool_decide (ca_framework validatedArgs = "mvc") then "csharp"
                   else "razor"))) ∧
  (∀ parsed : UiExamplesArgs,
     parse uiExamplesSchema args = Returned parsed →
     ue_category parsed ∈ ["forms"; "tables"; "modals"; "widgets"; "navigation"; "all"] ∧
     ∃ data,
       getProperty (getUiExamples (ue_framework parsed) (ue_category parsed)) "data"
         = Returned data ∧
       (ue_category parsed ∈ ["widgets"; "navigation"] →
        getProperty data "examples" =
          Returned (VObj [("title", VStr "No examples found"); ("examples", VArr [])])) ∧
       (ue_category parsed ∈ ["forms"; "tables"; "modals"] →
        ∃ title first others,
          getProperty data "examples" =
            Returned (VObj [("title", VStr title); ("examples", VArr (first :: others))])) ∧
       (ue_category parsed = "all" →
        getProperty data "totalExamples" = Returned (VNum (numOfN 4%N)))).
Proof.
  split.
  - intros validatedArgs. unfold parse, componentSchema, z_object, key, shape.
    destruct args as [| | | | | |props]; try discriminate. cbn [app].
    destruct (mergeParsed _ _ _) as [made|] eqn:Hmade; [|discriminate]. intros [= <-].
    apply mergeParsed_valid in Hmade as (f4 & template & Hmade & _ & ->).
    apply mergeParsed_valid in Hmade as (f3 & properties & Hmade & _ & ->).
    apply mergeParsed_valid in Hmade as (f2 & framework & Hmade & [Hframework _]%z_enum_valid & ->).
    apply mergeParsed_valid in Hmade as (f1 & type & Hmade & _ & ->).
    apply mergeParsed_valid in Hmade as (f0 & componentName & [= <-] & _ & ->).
    cbn [ca_framework]. split; [done|].
    repeat (apply elem_of_cons in Hframework as [->|Hframework];
            [eexists _, _; repeat split; [reflexivity..|]; eexists; reflexivity|]).
    exfalso; exact (proj1 (elem_of_nil _) Hframework).
  - intros parsed. unfold parse, uiExamplesSchema, z_object, key, shape.
    destruct args as [| | | | | |props]; try discriminate. cbn [app].
    destruct (mergeParsed _ _ _) as [made|] eqn:Hmade; [|discriminate]. intros [= <-].
    apply mergeParsed_valid in Hmade as (f1 & category & Hmade & Hcategory%z_default_enum_valid & ->).
    apply mergeParsed_valid in Hmade as (f0 & framework & [= <-] & _ & ->).
    cbn [ue_framework ue_category]. split; [done|].
    repeat (apply elem_of_cons in Hcategory as [->|Hcategory];
            [eexists; split; [reflexivity|]; split; [|split];
             intros Hin; first [ discriminate Hin | reflexivity | by eexists _, _, _
                               | exfalso; revert Hin; apply (bool_decide_eq_false_1 _); vm_compute; reflexivity ] |]).
    exfalso; exact (proj1 (elem_of_nil _) Hcategory).
Qed.

End Properties.

(** * The properties at concrete inputs *)

(** The hybrid abp_generate_component parses its arguments before it looks
    at the credential: with no credential and the empty argument object
    it returns no result; it throws zod's validation error, one issue per
    required key. *)
Lemma hybrid_component_rejects_empty_arguments :
  ∃ handler,
    hybridUiTools (exampleClient EmptyString) !! "abp_generate_component" = Some handler ∧
    execute handler (VObj []) unreachable [] =
      (Thrown (ZodError [invalid_type [PKey "name"];
                         invalid_type [PKey "type"];
                         invalid_type [PKey "framework"]]), []).
Proof. eexists. split; reflexivity. Qed.

(** X23 at abp_generate_component, no credential, a modal for Angular: the
    result is static and successful, and nothing was asked of the
    collaborator. *)
Lemma hybrid_static_without_credential_witness :
  ∃ handler result,
    hybridUiTools (exampleClient EmptyString) !! "abp_generate_component" = Some handler ∧
    (execute handler
       (VObj [("name", VStr "Confirm"); ("type", VStr "modal"); ("framework", VStr "angular")])
       unreachable []).2 = [] ∧
    (execute handler
       (VObj [("name", VStr "Confirm"); ("type", VStr "modal"); ("framework", VStr "angular")])
       unreachable []).1 = Returned result ∧
    getProperty result "success" = Returned (VBool true) ∧
    getProperty result "mode" = Returned (VStr "static").
Proof.
  eexists.
  destruct (hybrid_static_without_credential (exampleClient EmptyString)
              "abp_generate_component" _
              (VObj [("name", VStr "Confirm"); ("type", VStr "modal");
                     ("framework", VStr "angular")])
              unreachable [] eq_refl eq_refl)
    as (Htrace & _ & _ & Hreturns).
  destruct (Hreturns eq_refl eq_refl) as (result & Hresult & Hsuccess & Hmode).
  exists result. repeat split; assumption.
Defined.

(** C2 at a client without a key: the handler kept for
    abp_generate_component posts a modal for Angular to the collaborator. *)
Lemma restricted_registry_is_three_ui_tools_witness :
  ∃ component,
    filterInfoOnlyTools (abpTools (exampleClient EmptyString)) !! "abp_generate_component"
      = Some component ∧
    (execute component confirmModal unreachable []).2 =
      [] ++ [(axiosRequest (exampleClient EmptyString) "post" "/api/suite/components"
                VUndefined confirmModal,
              unreachable []
                (axiosRequest (exampleClient EmptyString) "post" "/api/suite/components"
                   VUndefined confirmModal))].
Proof.
  destruct (restricted_registry_is_three_ui_tools (exampleClient EmptyString))
    as (_ & _ & _ & _ & component & themes & form & Hcomponent & _ & _ & Hcalls).
  exists component. split; [exact Hcomponent|].
  destruct (Hcalls confirmModal unreachable []) as (_ & Hposts & _).
  exact (Hposts {| uca_name := "Confirm"; uca_type := "modal"; uca_framework := "angular";
                   uca_properties := None; uca_template := None |} eq_refl).
Defined.

(** C3 fails as stated: in restricted mode with no credential, a call of
    the registered, non-hybrid abp_get_users returns no result with
    isError = true; it throws the Unknown tool error. *)
Lemma restricted_call_of_get_users_is_unknown_tool :
  callTool restrictedNoKey (call "abp_get_users" (VObj [])) unreachable [] =
    (Thrown (GenericError "Unknown tool: abp_get_users"), []).
Proof. reflexivity. Qed.

(** C3 as amended, at abp_get_users with no credential outside restricted
    mode: the credential error, and no HTTP exchange. *)
Lemma no_credential_call_of_registered_tool_witness :
  callTool unrestrictedNoKey (call "abp_get_users" (VObj [])) unreachable [] =
    (Returned credentialRequired, []).
Proof.
  apply (no_credential_call_of_registered_tool unrestrictedNoKey
           (call "abp_get_users" (VObj []))
           (tool "userTools" "abp_get_users" "Get all ABP users with optional filtering"
              (otherExecute "abp_get_users" (mainApiClient unrestrictedNoKey))).2
           unreachable []).
  - reflexivity.
  - reflexivity.
  - apply (bool_decide_eq_false_1 _). vm_compute. reflexivity.
Defined.

(** C7 at the registry of abpTools and the allow-listed abp_get_info, which
    that registry lacks. *)
Lemma filterInfoOnlyTools_skips_missing_witness :
  ∃ infoOnlyTools,
    filterInfoOnlyTools (abpTools (exampleClient EmptyString)) = infoOnlyTools ∧
    infoOnlyTools !! "abp_get_info" = None ∧
    (∀ other handler,
       other ∈ infoOnlyToolNames →
       abpTools (exampleClient EmptyString) !! other = Some handler →
       infoOnlyTools !! other = Some handler).
Proof.
  apply (filterInfoOnlyTools_skips_missing (abpTools (exampleClient EmptyString))
           "abp_get_info").
  - apply (bool_decide_unpack _). vm_compute. exact I.
  - reflexivity.
Defined.

(** C8 at a providerName outside the enumeration. *)
Lemma grant_permission_validates_provider_witness :
  ∃ handler issues,
    permissionTools (exampleClient "secret") !! "abp_grant_permission" = Some handler ∧
    execute handler
      (VObj [("providerName", VStr "G"); ("providerKey", VStr "admin");
             ("permissionName", VStr "Users.Create")])
      unreachable [] = (Thrown (ZodError issues), []).
Proof.
  eexists.
  destruct (grant_permission_validates_provider (exampleClient "secret") _
              (VObj [("providerName", VStr "G"); ("providerKey", VStr "admin");
                     ("permissionName", VStr "Users.Create")])
              unreachable [] eq_refl) as [Hrejects _].
  destruct (Hrejects eq_refl) as [issues Hthrown].
  exists issues. split; [reflexivity|exact Hthrown].
Defined.

(** C9 at a collision: were hybridUiTools spread after uiTools, the name
    abp_get_themes would be bound to the hybrid handler. *)
Lemma mergeGroups_last_wins_witness :
  is_Some (uiTools (exampleClient EmptyString) !! "abp_get_themes") ∧
  mergeGroups ([uiTools (exampleClient EmptyString)]
               ++ hybridUiTools (exampleClient EmptyString) :: [])
    !! "abp_get_themes" =
  Some (tool "hybridUiTools" "abp_get_themes"
          "Get available ABP themes - Works in info-only mode with theme information"
          (hybrid_get_themes (exampleClient EmptyString))).2.
Proof.
  split; [eexists; reflexivity|].
  exact (proj1 (mergeGroups_last_wins [uiTools (exampleClient EmptyString)] []
                  (hybridUiTools (exampleClient EmptyString)) "abp_get_themes"
                  (tool "hybridUiTools" "abp_get_themes"
                     "Get available ABP themes - Works in info-only mode with theme information"
                     (hybrid_get_themes (exampleClient EmptyString))).2
                  eq_refl (Forall_nil_2 _))).
Defined.

(** X1 at the unknown name of the specification's scenario, in a session between
    two calls of the visible abp_get_themes: only its own answer is the
    error. *)
Lemma unknown_tool_is_refused_witness :
  callTool unrestrictedWithKey (call "abp_does_not_exist" (VObj [])) unreachable [] =
    (Thrown (GenericError "Unknown tool: abp_does_not_exist"), []) ∧
  serve unrestrictedWithKey
    ([call "abp_get_themes" (VObj [])]
     ++ call "abp_does_not_exist" (VObj []) :: [call "abp_get_themes" (VObj [])])
    unreachable [] =
    let '(responses1, tr1) :=
      serve unrestrictedWithKey [call "abp_get_themes" (VObj [])] unreachable [] in
    let '(responses2, tr2) :=
      serve unrestrictedWithKey [call "abp_get_themes" (VObj [])] unreachable tr1 in
    (responses1 ++ ErrorResponse "Unknown tool: abp_does_not_exist" :: responses2, tr2).
Proof.
  apply (unknown_tool_is_refused unrestrictedWithKey (call "abp_does_not_exist" (VObj []))
           unreachable [] [call "abp_get_themes" (VObj [])] [call "abp_get_themes" (VObj [])]).
  - reflexivity.
  - apply (bool_decide_eq_false_1 _). vm_compute. reflexivity.
Defined.


(** X4 in info-only mode without a key, against a collaborator that answers
    with an envelope of no themes: the request is sent, with the empty
    bearer token. *)
Lemma restricted_get_themes_calls_out_witness :
  (callTool restrictedNoKey (call "abp_get_themes" (VObj []))
     (answering (VObj [("items", VArr [])])) []).2 =
    [({| req_method := "get"; req_url := "/api/themes";
         req_params := VUndefined; req_data := VUndefined;
         req_baseURL := "http://localhost:44300";
         req_authorization := "Bearer ";
         req_timeout := 30000%Z |},
      Resolved (VObj [("items", VArr [])]))].
Proof.
  exact (restricted_get_themes_calls_out restrictedNoKey (VObj [])
           (answering (VObj [("items", VArr [])])) [] eq_refl).
Defined.

(** X5 at the unknown name abp_does_not_exist, with a key: the call
    throws, and the name is in no table; and at abp_get_themes against a
    collaborator that cannot be reached: the rejection comes back as a
    result. *)
Lemma callTool_throws_only_unknown_tool_witness :
  callTool unrestrictedWithKey (call "abp_does_not_exist" (VObj [])) unreachable [] =
    (Thrown (GenericError "Unknown tool: abp_does_not_exist"), []) ∧
  (toolHandlers unrestrictedWithKey !! "abp_does_not_exist" = None ∧
   "abp_does_not_exist" ∉ objectPrototypeMembers) ∧
  callTool unrestrictedWithKey (call "abp_get_themes" (VObj [])) unreachable [] =
    (Returned {| content := [{| content_type := "text";
                                content_text := Some "Error: connect ECONNREFUSED" |}];
                 isError := Some true |},
     [(axiosRequest (mainApiClient unrestrictedWithKey) "get" "/api/themes" VUndefined
         VUndefined,
       Rejected (AxiosError "connect ECONNREFUSED"))]).
Proof.
  split; [reflexivity|]. split.
  - exact (proj2 (proj2 (proj1 (callTool_throws_only_unknown_tool unrestrictedWithKey
                                  (call "abp_does_not_exist" (VObj [])) unreachable [])
                           (GenericError "Unknown tool: abp_does_not_exist") [] eq_refl))).
  - exact (proj1 (proj2 (callTool_throws_only_unknown_tool unrestrictedWithKey
                           (call "abp_get_themes" (VObj [])) unreachable [])
                    (tool "uiTools" "abp_get_themes" "Get all available ABP themes"
                       (ui_get_themes (mainApiClient unrestrictedWithKey))).2
                    eq_refl (or_intror eq_refl))
             (AxiosError "connect ECONNREFUSED")
             [(axiosRequest (mainApiClient unrestrictedWithKey) "get" "/api/themes" VUndefined
                 VUndefined,
               Rejected (AxiosError "connect ECONNREFUSED"))]
             eq_refl).
Defined.


(** X10 at abp_get_users against an envelope of three users, two of them
    active. *)
Lemma counted_lists_partition_witness :
  ∃ (result : JsValue Z) (items : list (JsValue Z)) (kept dropped : nat),
    (abp_get_users_execute (exampleClient "secret") (VObj []) (answering threeUsers) []).1
      = Returned result ∧
    getProperty result "data" = Returned (VArr items) ∧
    getProperty result "count" = Returned (VNum (Z.of_N (N.of_nat (length items)))) ∧
    getProperty result "active" = Returned (VNum (Z.of_N (N.of_nat kept))) ∧
    getProperty result "inactive" = Returned (VNum (Z.of_N (N.of_nat dropped))) ∧
    kept + dropped = length items.
Proof.
  eexists.
  destruct (counted_lists_partition (exampleClient "secret")
              (abp_get_users_execute (exampleClient "secret")) "active" "inactive"
              (VObj []) (answering threeUsers) [] _ _
              (list_elem_of_further _ _ _ (list_elem_of_here _ _)) eq_refl)
    as (items & kept & dropped & Hitems).
  exists items, kept, dropped. split; [reflexivity|exact Hitems].
Defined.


(** X13 at a job without a priority. *)
Lemma enqueue_job_priority_witness :
  abp_enqueue_background_job_execute (exampleClient "secret")
    (VObj [("jobType", VStr "Cleanup"); ("args", VNum 30%Z)]) unreachable [] =
  abp_enqueue_background_job_execute (exampleClient "secret")
    (VObj [("jobType", VStr "Cleanup"); ("args", VNum 30%Z); ("priority", VStr "Normal")])
    unreachable [].
Proof.
  exact (proj1 (enqueue_job_priority (exampleClient "secret")
                  [("jobType", VStr "Cleanup"); ("args", VNum 30%Z)] unreachable []
                  eq_refl)).
Defined.

(** X14 at the revocation of a permission of the role admin, against a
    collaborator that answers. *)
Lemma permission_tools_post_validated_arguments_witness :
  (abp_revoke_permission_execute (exampleClient "secret")
     (VObj [("providerName", VStr "R"); ("providerKey", VStr "admin");
            ("permissionName", VStr "Users.Create")])
     (answering VNull) []).1 =
    Returned (VObj [("success", VBool true);
                    ("message", VStr "Permission 'Users.Create' revoked from role 'admin'")]).
Proof.
  destruct (proj2 (permission_tools_post_validated_arguments (exampleClient "secret")
                     (VObj [("providerName", VStr "R"); ("providerKey", VStr "admin");
                            ("permissionName", VStr "Users.Create")])
                     (answering VNull) [])
              {| pa_providerName := "R"; pa_providerKey := "admin";
                 pa_permissionName := "Users.Create" |} eq_refl)
    as (_ & _ & _ & _ & Hboth).
  apply Forall_cons in Hboth as [_ Hboth].
  apply Forall_cons in Hboth as [(_ & _ & Hanswered) _].
  exact (Hanswered VNull eq_refl).
Defined.

(** X15 at abp_generate_component with a key, against a collaborator that
    answers. *)
Lemma hybrid_api_mode_when_remote_answers_witness :
  hybrid_generate_component (exampleClient "secret") confirmModal
    (answering (VObj [("id", VStr "c1")])) [] =
    (Returned (VObj
       [("success", VBool true);
        ("data", VObj [("id", VStr "c1")]);
        ("message", VStr "modal component 'Confirm' generated successfully via API");
        ("mode", VStr "api")]),
     [(axiosRequest (exampleClient "secret") "post" "/api/suite/components" VUndefined
         confirmModal,
       Resolved (VObj [("id", VStr "c1")]))]).
Proof.
  exact (proj1 (hybrid_api_mode_when_remote_answers (exampleClient "secret") confirmModal
                  (answering (VObj [("id", VStr "c1")])) []
                  (λ H : "secret" = EmptyString, eq_ind "secret"
                     (λ s, match s with EmptyString => False | String _ _ => True end) I _ H))
           {| ca_name := "Confirm"; ca_type := "modal"; ca_framework := "angular";
              ca_properties := None; ca_template := None |}
           (VObj [("id", VStr "c1")]) eq_refl eq_refl).
Defined.

(** X17 at a session in info-only mode without a key: the themes, a tool
    that is not visible, and a component. *)
Lemma restricted_session_requests_witness :
  ∃ added,
    (serve restrictedNoKey
       [call "abp_get_themes" (VObj []); call "abp_get_users" (VObj []);
        call "abp_generate_component" confirmModal]
       (answering (VObj [("items", VArr [])])) []).2 = [] ++ added ∧
    Forall (λ exchange, restrictedRequest restrictedNoKey exchange.1 = true) added.
Proof.
  exact (restricted_session_requests restrictedNoKey
           [call "abp_get_themes" (VObj []); call "abp_get_users" (VObj []);
            call "abp_generate_component" confirmModal]
           (answering (VObj [("items", VArr [])])) [] eq_refl).
Defined.

(** X18 at a modal for Angular with the further key color. *)
Lemma ui_generate_tools_ignore_unknown_keys_witness :
  ui_generate_component (exampleClient "secret")
    (VObj [("name", VStr "Confirm"); ("type", VStr "modal"); ("framework", VStr "angular");
           ("color", VStr "red")])
    unreachable [] =
  ui_generate_component (exampleClient "secret") confirmModal unreachable [].
Proof.
  refine (proj1 (ui_generate_tools_ignore_unknown_keys (exampleClient "secret")
                   [("name", VStr "Confirm"); ("type", VStr "modal");
                    ("framework", VStr "angular")]
                   "color" (VStr "red") unreachable []) _).
  apply (bool_decide_eq_false_1 _). vm_compute. reflexivity.
Defined.

(** X19 at a modal for Angular, with a key, against a collaborator that
    cannot be reached. *)
Lemma full_mode_generate_component_reports_rejection_witness :
  callTool unrestrictedWithKey (call "abp_generate_component" confirmModal) unreachable [] =
    (Returned {| content := [{| content_type := "text";
                                content_text := Some "Error: connect ECONNREFUSED" |}];
                 isError := Some true |},
     [(axiosRequest (mainApiClient unrestrictedWithKey) "post" "/api/suite/components"
         VUndefined confirmModal,
       Rejected (AxiosError "connect ECONNREFUSED"))]).
Proof.
  exact (full_mode_generate_component_reports_rejection unrestrictedWithKey confirmModal
           {| uca_name := "Confirm"; uca_type := "modal"; uca_framework := "angular";
              uca_properties := None; uca_template := None |}
           unreachable [] (AxiosError "connect ECONNREFUSED") eq_refl eq_refl eq_refl eq_refl).
Defined.

(** X20 at an update of the layout main that also names a key the schema
    does not have. *)
Lemma update_tools_split_the_key_witness :
  ∃ body,
    let asked :=
      axiosRequest (exampleClient "secret") "put" "/api/ui/layouts/main" VUndefined
        (VObj body) in
    stringArgument "name" renameLayout = Some "main" ∧
    (abp_update_layout_execute (exampleClient "secret") renameLayout unreachable []).2 =
      [] ++ [(asked, unreachable [] asked)] ∧
    (∀ k w, ownProperty body k = Some w →
            k ∈ ["displayName"; "description"; "template"] ∧
            ∃ s, w = VStr s ∧ stringArgument k renameLayout = Some s).
Proof.
  exact (proj1 (proj2 (update_tools_split_the_key (exampleClient "secret") renameLayout
                         unreachable []))
           {| ula_name := "main"; ula_displayName := Some "Main"; ula_description := None;
              ula_template := None |} eq_refl).
Defined.

(** X21 at an update of a user that gives no id. *)
Lemma unvalidated_updates_send_whatever_is_given_witness :
  (abp_update_user_execute (exampleClient "secret") [("name", VStr "Ada")] unreachable []).2 =
    [(axiosRequest (exampleClient "secret") "put" "/api/identity/users/undefined" VUndefined
        (VObj [("name", VStr "Ada")]),
      Rejected (AxiosError "connect ECONNREFUSED"))].
Proof.
  pose proof (unvalidated_updates_send_whatever_is_given (exampleClient "secret")
                [("name", VStr "Ada")] unreachable []) as Hall.
  apply Forall_cons in Hall as [(_ & _ & Hnone & _) _].
  exact (Hnone eq_refl).
Defined.

(** X22 at a modal for Angular. *)
Lemma static_results_cover_the_schemas_witness :
  "angular" ∈ ["mvc"; "angular"; "blazor"; "blazor-server"] ∧
  ∃ (code : list (string * JsValue Z)) (data : JsValue Z),
    getProperty
      (generateStaticComponent
         {| ca_name := "Confirm"; ca_type := "modal"; ca_framework := "angular";
            ca_properties := None; ca_template := None |}) "data" = Returned data ∧
    getProperty data "framework" = Returned (VStr "angular") ∧
    getProperty data "code" = Returned (VObj code) ∧
    is_Some (ownProperty code "typescript").
Proof.
  exact (proj1 (static_results_cover_the_schemas confirmModal)
           {| ca_name := "Confirm"; ca_type := "modal"; ca_framework := "angular";
              ca_properties := None; ca_template := None |} eq_refl).
Defined.
